(* ===== verification/_CoqProject ===== *)
-Q . S2P
Prelude.v
Strftime.v
PercentFormat.v
Runtime.v
Logging.v
CreateLogger.v
WinCmdline.v
Subprocess.v
Install.v
CheckMachine.v
FuncArgs.v
