(* ===== verification/Prelude.v ===== *)
(** * A verification of [thutil.general] (thangckt/thutils)

    The program is one Python module, [src/thutil/general.py], with four
    functions that share the interpreter's process-wide state:
    - [create_logger] (lines 5-57) configures a named logger of the
      [logging] registry: it sets the logger level and appends a console
      handler and, when a log file is given, a file handler;
    - [check_installation] (lines 60-78) imports a package by name and, when
      that fails, either raises [ImportError] or calls [_install_package]
      and then runs the caller's extra commands with [subprocess.run];
    - [_install_package] (lines 81-106) builds a [pip install -U] command,
      runs it, and logs through a logger built by
      [thutil.general_utils.create_logger];
    - [get_func_args] (lines 109-117) turns [inspect.getfullargspec] of a
      function into a dict from parameter names to defaults.

    The components interact through one shared state: the logging
    registry (loggers, their levels and handler lists), the file system
    seen through append-mode opens, the modules the interpreter can import,
    the programs the OS can spawn, and the trace of observable events
    (lines written to stderr or to files, processes spawned).

    ** Layout of the development

    - [Prelude] (this file): Python values and truthiness, insertion-ordered
      dicts, Python exceptions, the state-and-exception monad [st] with
      its notations in [py_scope], the hint databases and tactics.
    - [Strftime]: [time.strftime] for the directives the loggers use
      ([%Y %m %b %d %H %M %S]) and the date formats of [logging.Formatter].
    - [PercentFormat]: the [%]-style template language of
      [logging.Formatter] ([%(key)s], [%(key)d], [%%]), its parser, printer
      and renderer, and the validation done when a [Formatter] is built.
    - [Runtime]: the interpreter state [World]: levels, handlers,
      formatters, loggers, the registry, events and the process table.
    - [Logging]: the parts of CPython's [logging] the code calls:
      [getLogger] with its dotted hierarchy, [setLevel], [addHandler],
      [StreamHandler], [FileHandler], [Formatter.format], [isEnabledFor]
      and [callHandlers], and a log call that writes the formatted lines.
    - [CreateLogger]: [create_logger] of [general.py].
    - [WinCmdline]: the Windows command line: CPython's
      [subprocess.list2cmdline], which [Popen] uses to turn a list into
      one string, and the parser of the Microsoft C runtime, which the
      started program uses to split that string into [argv].
    - [Subprocess]: [subprocess.run(command, check=True)], including how a
      command becomes an argument vector on POSIX and on Windows (there
      through [list2cmdline] and the C runtime parser).
    - [Install]: [_install_package] and [check_installation], against an
      interface [LoggerFactory] for [general_utils.create_logger].
    - [CheckMachine]: the body of [check_installation] as a step relation
      [check_step] over its control points (the import, the call of
      [_install_package], the head of the loop with the commands still
      to run, and the returned and raised ends).
    - [FuncArgs]: [inspect.getfullargspec] over a signature and
      [get_func_args], with an abstract specification and its refinement.

    ** What the theorems show

    - [CreateLogger]: on a fresh interpreter, a message reaches stderr
      exactly when its level reaches the console level. It reaches the
      log file only when it also reaches the console level, because the
      logger level filters first, so a lower file level has no effect.
      Unknown level and format names behave as ["INFO"] and ["info"], and
      an unknown file level is the console level. The console and file
      lines have the stated forms. A second call attaches a second console
      handler, which duplicates every line. A non-string name raises
      [TypeError] before any change. An unopenable log file raises after
      the console handler is attached. Whatever the level and format
      names, the only exceptions are these two and the [TypeError] of a
      log file that is not a path: every template of [format_map] passes
      the validation of [logging.Formatter]. The default name is the
      module's own.
    - [Install]: [check_installation] refines the plan [check_spec]
      (present, refused with an exception, or the list of processes it
      runs and the one that failed), under the relation [moves] between
      worlds. From this follow: the extra commands run in order and stop at
      the first failure; they also run after a failed, swallowed
      installation; on POSIX the string command is one program name, so
      [FileNotFoundError] escapes; the missing [thutil.general_utils]
      makes auto-install fail; a missing package without auto-install
      raises [ImportError] and does nothing else; the empty name raises
      [ValueError]. Each attempt adds one more console handler to the
      installer's logger. [moves] also says that modules only grow and
      that every spawned process that exited with 0 installed its
      modules, so an installer that succeeds makes the package importable
      and a second call a no-op (progress of auto-install).
    - [CheckMachine]: the machine is deterministic and never blocks; the
      one state where a run from the import stops is the outcome of the
      function [check_installation] (a lemma), and it is the state the
      plan [check_spec] prescribes (refinement of the plan by the
      machine). By induction on runs: at the loop head, the processes
      spawned so far are the installer and the commands before the
      remaining ones, in order; without [auto_install] the world never
      changes.
    - [FuncArgs]: for every signature [inspect.Signature] accepts
      ([sig_wf]) that has a positional default, [get_func_args] refines
      [func_args_spec]. Without such a default it raises [TypeError].
      Keyword-only and variadic parameters are left out, and a default
      equal to the marker cannot be told from no default. For every
      callable the result is a well-typed dict: distinct keys, each the
      [str] name of a positional parameter, each value the marker or a
      default (the dict lemmas of this file show that [d[k] = v] and
      [dict(pairs)] keep keys distinct). Bound methods and classes report
      their receiver [self]. For a partial whose positional arguments
      fill leading parameters, the dict is the function's dict without
      its first entries, because the defaults are padded on the left.
    - [WinCmdline]: the C runtime parser reads back from
      [list2cmdline xs] exactly [xs] (every argument: blanks, double
      quotes, backslash runs, empty strings), when the program name has
      no double quote and, if it needs quoting, does not end with a
      backslash (the program name is read by simpler rules, without
      escapes). These are lemmas about the library; the claim drawn from
      them is that the installer's string splits into the words [pip
      install -U <package>] when the package is one word.
    - [Strftime] and [PercentFormat]: the file timestamp has 20
      characters and parses back to its fields. The [%]-template parser
      and printer are inverse on well-formed templates (lemmas that check
      the template model).

    ** Modelling choices

    Python integers are [Z]; strings are [string]. The interpreter is a
    state monad with exceptions ([st], notations [let*] and [do*]): an
    exception keeps the state changes made before it, as Python does.
    Library code the module calls (logging, subprocess, inspect, time,
    __import__) is modelled from CPython's behaviour and is not mapped to
    repository lines. The time of a log record and its caller (function
    name, line) are inputs of a log call. The module [thutil.general_utils]
    that [_install_package] imports is not in the repository: [Install]
    states what the code needs of it as the class [LoggerFactory] and
    instantiates it with [create_logger] under that module's name.

    The program's loops run over finite lists, and every call of
    [subprocess.run] is one step that returns: a process that never
    exits (there is no timeout) is outside the model, so no theorem here
    claims that a call terminates. The one walk that needs
    fuel is the logger hierarchy of [Logging.chain]: a parent's name is a
    proper prefix of the child's, so [2 + length name] steps reach the
    root, and [chain_reaches_root] proves that the fuel always suffices.

    Two hint databases carry the routine steps: [py] resolves the
    registry invariant through every update, and the rewrite database
    [pyrw] simplifies registries and string appends.

    ** Not modelled

    Every statement of [general.py] is modelled; the lines left out of
    the map are the two [import] statements and blank lines. What stays
    out is library behaviour the module only calls and whose details do
    not change what these functions do on the modelled inputs: in
    [logging], filters, locks, placeholders in [loggerDict] (the parent
    of a logger is found when a record is handled, which gives the same
    parents), [os.path.abspath] of log file names, the traceback that
    [handleError] prints, and encodings; in [subprocess], [shell=True],
    how [CreateProcess] searches for the executable (the model takes
    [argv[0]] of the parsed command line as the program), the empty
    argument list, timeouts and output capture; in [__import__], the code a module runs when it is
    imported; in [inspect], annotations, partial objects with keyword
    arguments, metaclass [__call__] and [__new__], callable instances,
    [__signature__] attributes and the text signatures of builtins. The
    module [thutil.general_utils] is not in the repository and is stated
    as the interface [LoggerFactory]. *)

From stdpp Require Export base list strings gmap pretty relations.
From Stdlib Require Export ZArith Ascii Lia.

Declare Scope py_scope.
Delimit Scope py_scope with py.

Create HintDb py.
Create Rewrite HintDb pyrw.

(** ** Python values *)

(** The values the modelled functions receive as arguments: [None],
    booleans, integers, strings and other objects (given by their repr). *)
Inductive PyVal :=
| VNone
| VBool (b : bool)
| VInt (z : Z)
| VStr (s : string)
| VObj (repr : string).

#[export] Instance PyVal_eq_dec : EqDecision PyVal.
Proof. solve_decision. Defined.

(** [bool(x)]. *)
Definition truthy (v : PyVal) : bool :=
  match v with
  | VNone => false
  | VBool b => b
  | VInt z => negb (Z.eqb z 0)
  | VStr s => negb (String.eqb s "")
  | VObj _ => true
  end.

(** [x == y] on the values above: [True == 1] and [False == 0]. *)
Definition py_eqb (x y : PyVal) : bool :=
  match x, y with
  | VNone, VNone => true
  | VBool a, VBool b => Bool.eqb a b
  | VBool a, VInt z | VInt z, VBool a => Z.eqb z (if a then 1 else 0)
  | VInt a, VInt b => Z.eqb a b
  | VStr a, VStr b => String.eqb a b
  | VObj a, VObj b => String.eqb a b
  | _, _ => false
  end.

(** ** Insertion-ordered dicts *)

(** A Python [dict] as its list of items in insertion order. *)
Definition pydict (V : Type) := list (PyVal * V).

(** [d.get(k, default)]. *)
Fixpoint dict_get {V} (d : pydict V) (k : PyVal) (default : V) : V :=
  match d with
  | [] => default
  | (k', v) :: d' => if py_eqb k k' then v else dict_get d' k default
  end.

(** [d[k] = v]: an existing key keeps its position, a new key goes last. *)
Fixpoint dict_set {V} (d : pydict V) (k : PyVal) (v : V) : pydict V :=
  match d with
  | [] => [(k, v)]
  | (k', v') :: d' =>
      if py_eqb k k' then (k', v) :: d' else (k', v') :: dict_set d' k v
  end.

(** [dict(pairs)]: the items inserted from left to right. *)
Definition dict_of_pairs {V} (pairs : list (PyVal * V)) : pydict V :=
  foldl (fun d kv => dict_set d kv.1 kv.2) [] pairs.

(** [zip(xs, ys)] stops at the shorter list. *)
Fixpoint zip {A B} (xs : list A) (ys : list B) : list (A * B) :=
  match xs, ys with
  | x :: xs', y :: ys' => (x, y) :: zip xs' ys'
  | _, _ => []
  end.

(** ** Commands and exceptions *)

(** The [args] of [subprocess.run]: a string or a list of strings. *)
Inductive Cmd :=
| CStr (s : string)
| CArgv (argv : list string).

#[export] Instance Cmd_eq_dec : EqDecision Cmd.
Proof. solve_decision. Defined.

(** The Python exceptions the modelled code raises or catches.
    [ModuleNotFoundError] is a subclass of [ImportError];
    [FileNotFoundError] and [PermissionError] are [OSError]s. *)
Inductive PyExc :=
| ImportError (msg : string)
| ModuleNotFoundError (name : string)
| CalledProcessError (returncode : Z) (cmd : Cmd)
| FileNotFoundError (filename : string)
| PermissionError (filename : string)
| TypeError (msg : string)
| ValueError (msg : string)
| KeyError (key : string).

#[export] Instance PyExc_eq_dec : EqDecision PyExc.
Proof. solve_decision. Defined.

(** [isinstance(e, ImportError)]. *)
Definition is_ImportError (e : PyExc) : bool :=
  match e with
  | ImportError _ | ModuleNotFoundError _ => true
  | _ => false
  end.

(** [isinstance(e, subprocess.CalledProcessError)]. *)
Definition is_CalledProcessError (e : PyExc) : bool :=
  match e with CalledProcessError _ _ => true | _ => false end.

(** ** The interpreter monad *)

(** A statement either returns a value or raises; either way the state it
    reached is kept. *)
Inductive outcome (A : Type) :=
| Ret (a : A)
| Exc (e : PyExc).
Arguments Ret {A} a.
Arguments Exc {A} e.

Definition st (S A : Type) := S -> outcome A * S.

Section Monad.
Context {S : Type}.

Definition st_ret {A} (a : A) : st S A := fun s => (Ret a, s).

Definition st_bind {A B} (m : st S A) (k : A -> st S B) : st S B :=
  fun s =>
    match m s with
    | (Ret a, s') => k a s'
    | (Exc e, s') => (Exc e, s')
    end.

(** [raise e]. *)
Definition st_raise {A} (e : PyExc) : st S A := fun s => (Exc e, s).

(** [try: m except <p>: h]: a matching exception runs the handler in the
    state the body reached; any other exception goes on. *)
Definition st_try {A} (m : st S A) (p : PyExc -> bool)
    (h : PyExc -> st S A) : st S A :=
  fun s =>
    match m s with
    | (Exc e, s') => if p e then h e s' else (Exc e, s')
    | r => r
    end.

Definition st_get : st S S := fun s => (Ret s, s).
Definition st_modify (f : S -> S) : st S unit := fun s => (Ret tt, f s).

(** [for x in xs: f(x)]. *)
Fixpoint st_iter {A} (f : A -> st S unit) (xs : list A) : st S unit :=
  match xs with
  | [] => st_ret tt
  | x :: xs' => st_bind (f x) (fun _ => st_iter f xs')
  end.
End Monad.

Notation "'let*' x ':=' m 'in' k" := (st_bind m (fun x => k))
  (at level 100, x name, m at level 99, k at level 100, right associativity) : py_scope.
Notation "'do*' m ';' k" := (st_bind m (fun _ => k))
  (at level 100, m at level 99, k at level 100, right associativity) : py_scope.

Open Scope py_scope.

(** ** Running statements *)

Section Run.
Context {S : Type}.

Lemma bind_Ret {A B} (m : st S A) (k : A -> st S B) s a s' :
  m s = (Ret a, s') -> st_bind m k s = k a s'.
Proof. intros Hm. unfold st_bind. by rewrite Hm. Qed.

Lemma bind_Exc {A B} (m : st S A) (k : A -> st S B) s e s' :
  m s = (Exc e, s') -> st_bind m k s = (Exc e, s').
Proof. intros Hm. unfold st_bind. by rewrite Hm. Qed.

Lemma bind_ret_l {A B} (a : A) (k : A -> st S B) s :
  st_bind (st_ret a) k s = k a s.
Proof. reflexivity. Qed.

Lemma bind_assoc {A B C} (m : st S A) (k : A -> st S B) (j : B -> st S C) s :
  st_bind (st_bind m k) j s = st_bind m (fun a => st_bind (k a) j) s.
Proof. unfold st_bind. by destruct (m s) as [[a|e] s']. Qed.

Lemma try_Ret {A} (m : st S A) p h s a s' :
  m s = (Ret a, s') -> st_try m p h s = (Ret a, s').
Proof. intros Hm. unfold st_try. by rewrite Hm. Qed.

Lemma try_Exc_caught {A} (m : st S A) p h s e s' :
  m s = (Exc e, s') -> p e = true -> st_try m p h s = h e s'.
Proof. intros Hm Hp. unfold st_try. by rewrite Hm, Hp. Qed.

Lemma try_Exc_uncaught {A} (m : st S A) p h s e s' :
  m s = (Exc e, s') -> p e = false -> st_try m p h s = (Exc e, s').
Proof. intros Hm Hp. unfold st_try. by rewrite Hm, Hp. Qed.

End Run.


(** [run_step H] rewrites the first bind of the goal with the run [H] of
    its statement. *)
Ltac run_step H :=
  first [ rewrite (bind_Ret _ _ _ _ _ H)
        | rewrite (bind_Exc _ _ _ _ _ H)
        | rewrite (try_Ret _ _ _ _ _ _ H)
        | rewrite (try_Exc_caught _ _ _ _ _ _ H) by reflexivity
        | rewrite (try_Exc_uncaught _ _ _ _ _ _ H) by reflexivity ].

(** ** Generic lemmas on strings *)

Lemma append_cons_str x (a b : string) : String x a +:+ b = String x (a +:+ b).
Proof. reflexivity. Qed.

Lemma append_empty_str (b : string) : "" +:+ b = b.
Proof. reflexivity. Qed.

Lemma append_assoc_str (a b c : string) : (a +:+ b) +:+ c = a +:+ (b +:+ c).
Proof. induction a as [|x a IH]; [done|]. by rewrite !append_cons_str, IH. Qed.

Lemma append_nil_str (a : string) : a +:+ "" = a.
Proof. induction a as [|x a IH]; [done|]. by rewrite append_cons_str, IH. Qed.

Lemma length_append_str (a b : string) :
  String.length (a +:+ b) = String.length a + String.length b.
Proof. induction a as [|x a IH]; [done|]. rewrite append_cons_str. simpl. by rewrite IH. Qed.

#[export] Hint Rewrite append_cons_str append_empty_str append_assoc_str append_nil_str
  length_append_str : pyrw.

(** ** Generic lemmas on dicts and lists *)

Lemma py_eqb_str a b : py_eqb (VStr a) (VStr b) = bool_decide (a = b).
Proof.
  simpl. destruct (String.eqb_spec a b); case_bool_decide; congruence.
Qed.

Lemma dict_get_cons {V} k k' (v d : V) rest :
  dict_get ((k', v) :: rest) k d = if py_eqb k k' then v else dict_get rest k d.
Proof. reflexivity. Qed.

#[export] Hint Rewrite py_eqb_str @dict_get_cons : pyrw.

Lemma py_eqb_VStr_r v s : py_eqb v (VStr s) = bool_decide (v = VStr s).
Proof.
  destruct v as [|b|z|a|o]; simpl; try reflexivity.
  destruct (String.eqb_spec a s); case_bool_decide; congruence.
Qed.

(** A key that is none of the dict's keys gets the default. *)
Lemma dict_get_absent {V} (d : pydict V) k dflt :
  (forall s, VStr s ∈ d.*1 -> k ≠ VStr s) -> (forall kv, kv ∈ d -> ∃ s, kv.1 = VStr s) ->
  dict_get d k dflt = dflt.
Proof.
  induction d as [|[k' v] d IH]; intros Hk Hs; simpl; [done|].
  destruct (Hs (k', v)) as [s Hs']; [by left|]. simpl in Hs'. subst k'.
  rewrite py_eqb_VStr_r, bool_decide_false.
  - apply IH; [intros s' Hs'; apply Hk; by right|intros kv Hkv; apply Hs; by right].
  - apply Hk. by left.
Qed.

(** [d.get(k, default)] is the default or one of the values of [d]. *)
Lemma dict_get_cases {V} (d : pydict V) k dflt :
  dict_get d k dflt = dflt ∨ In (dict_get d k dflt) d.*2.
Proof.
  induction d as [|[k' v] d IH]; simpl; [by left|].
  destruct (py_eqb k k'); [right; by left|]. destruct IH; [by left|right; by right].
Qed.

Lemma zip_fst {A B} (xs : list A) (ys : list B) :
  length xs <= length ys -> (zip xs ys).*1 = xs.
Proof.
  revert ys. induction xs as [|x xs IH]; intros [|y ys] Hl; simpl in *;
    [done|done|lia|]. f_equal. apply IH. lia.
Qed.

Lemma zip_snd {A B} (xs : list A) (ys : list B) :
  length ys <= length xs -> (zip xs ys).*2 = ys.
Proof.
  revert ys. induction xs as [|x xs IH]; intros [|y ys] Hl; simpl in *;
    [done|lia|done|]. f_equal. apply IH. lia.
Qed.

(** A dict whose keys are strings, as a list of items. *)
Definition str_items {V} (l : list (string * V)) : pydict V := map (fun kv => (VStr kv.1, kv.2)) l.

Lemma dict_set_fresh {V} (l : list (string * V)) s v :
  s ∉ l.*1 -> dict_set (str_items l) (VStr s) v = str_items (l ++ [(s, v)]).
Proof.
  induction l as [|[t u] l IH]; intros Hs; [done|].
  change (str_items ((t, u) :: l)) with ((VStr t, u) :: str_items l). cbn [dict_set].
  rewrite py_eqb_str, bool_decide_false by (intros ->; apply Hs; left).
  rewrite IH; [done|]. intros H. apply Hs. by right.
Qed.

(** [dict(items)] with distinct string keys keeps every item, in order. *)
Lemma dict_of_str_items {V} (l : list (string * V)) :
  NoDup l.*1 -> dict_of_pairs (str_items l) = str_items l.
Proof.
  unfold dict_of_pairs.
  cut (∀ d, NoDup (d.*1 ++ l.*1) ->
       foldl (fun d kv => dict_set d kv.1 kv.2) (str_items d) (str_items l) = str_items (d ++ l)).
  { intros H Hl. apply (H []). done. }
  induction l as [|[s v] l IH]; intros d Hd; simpl.
  - by rewrite app_nil_r.
  - apply NoDup_app in Hd as (Hd1 & Hdisj & Hl).
    rewrite dict_set_fresh by (intros Hin; by apply (Hdisj s Hin); left).
    rewrite IH, <- app_assoc; [done|].
    rewrite fmap_app, <- app_assoc. apply NoDup_app. split; [done|]. split; [|done].
    intros x Hx. simpl. apply Hdisj, Hx.
Qed.

Lemma zip_str_items {V} (xs : list string) (ys : list V) :
  zip (map VStr xs) ys = str_items (zip xs ys).
Proof. revert ys. induction xs as [|x xs IH]; intros [|y ys]; simpl; try done. by rewrite IH. Qed.

Lemma zip_map_same {A B C} (f : A -> B) (g : A -> C) l :
  zip (map f l) (map g l) = map (fun x => (f x, g x)) l.
Proof. induction l as [|x l IH]; simpl; by rewrite ?IH. Qed.

Lemma NoDup_map_filter {A B} (f : A -> B) (g : A -> bool) l :
  NoDup (map f l) -> NoDup (map f (List.filter g l)).
Proof.
  induction l as [|x l IH]; intros Hl; simpl; [done|].
  apply NoDup_cons in Hl as [Hx Hl]. destruct (g x); [|by apply IH].
  simpl. apply NoDup_cons. split; [|by apply IH].
  intros Hin. apply Hx. rewrite list_elem_of_In in *. apply in_map_iff in Hin.
  destruct Hin as (y & Hy & Hin). apply filter_In in Hin as [Hin _].
  rewrite <- Hy. by apply in_map.
Qed.

#[export] Hint Resolve zip_fst zip_snd : py.

(** ** The dict invariant: keys are distinct *)

Lemma py_eqb_refl v : py_eqb v v = true.
Proof.
  destruct v; simpl; [done|apply Bool.eqb_reflx|apply Z.eqb_refl|apply String.eqb_refl
                     |apply String.eqb_refl].
Qed.

(** [d[k] = v] either keeps the keys or appends [k], which was absent. *)
Lemma dict_set_keys {V} (d : pydict V) k v :
  (dict_set d k v).*1 = d.*1 ∨ ((dict_set d k v).*1 = d.*1 ++ [k] ∧ k ∉ d.*1).
Proof.
  induction d as [|[k' v'] d IH]; cbn [dict_set].
  - right. split; [done|]. apply not_elem_of_nil.
  - destruct (py_eqb k k') eqn:E; rewrite !fmap_cons; cbn [fst]; [by left|].
    destruct IH as [-> | [-> Hk]]; [by left|right]. split; [done|].
    rewrite elem_of_cons. intros [->|Hin]; [by rewrite py_eqb_refl in E|done].
Qed.

Lemma dict_set_NoDup {V} (d : pydict V) k v : NoDup d.*1 -> NoDup (dict_set d k v).*1.
Proof.
  intros Hd. destruct (dict_set_keys d k v) as [->|[-> Hk]]; [done|].
  apply NoDup_app. split; [done|]. split; [|apply NoDup_singleton].
  intros x Hx ->%list_elem_of_singleton. done.
Qed.

(** An item of [d[k] = v] has a key of [d] or [k], and a value of [d] or [v]. *)
Lemma dict_set_elem {V} (d : pydict V) k v kv :
  kv ∈ dict_set d k v -> kv.1 ∈ k :: d.*1 ∧ kv.2 ∈ v :: d.*2.
Proof.
  induction d as [|[k' v'] d IH]; cbn [dict_set]; intros Hkv.
  - apply list_elem_of_singleton in Hkv as ->. split; apply elem_of_cons; by left.
  - assert (Hd : kv ∈ d -> kv.1 ∈ d.*1 ∧ kv.2 ∈ d.*2)
      by (intros Hin; split; by apply list_elem_of_fmap_2).
    destruct (py_eqb k k'); apply elem_of_cons in Hkv as [->|Hkv];
      rewrite !fmap_cons, !elem_of_cons; cbn [fst snd].
    + split; [right; left|left]; done.
    + apply Hd in Hkv. tauto.
    + split; right; left; done.
    + destruct (IH Hkv) as [H1 H2]. rewrite elem_of_cons in H1. rewrite elem_of_cons in H2.
      tauto.
Qed.

(** [dict(pairs)] has distinct keys, each a key of [pairs], and its values
    are values of [pairs]. *)
Lemma dict_of_pairs_wf {V} (pairs : list (PyVal * V)) :
  NoDup (dict_of_pairs pairs).*1
  ∧ ∀ kv, kv ∈ dict_of_pairs pairs -> kv.1 ∈ pairs.*1 ∧ kv.2 ∈ pairs.*2.
Proof.
  unfold dict_of_pairs.
  cut (∀ d, NoDup d.*1 ->
       NoDup (foldl (fun d kv => dict_set d kv.1 kv.2) d pairs).*1
       ∧ ∀ kv, kv ∈ foldl (fun d kv => dict_set d kv.1 kv.2) d pairs ->
               kv.1 ∈ d.*1 ++ pairs.*1 ∧ kv.2 ∈ d.*2 ++ pairs.*2).
  { intros H. apply (H []), NoDup_nil_2. }
  induction pairs as [|[k v] pairs IH]; intros d Hd; cbn [foldl fst snd].
  - split; [done|]. intros kv Hkv. rewrite !fmap_nil, !app_nil_r.
    split; by apply list_elem_of_fmap_2.
  - rewrite !fmap_cons. cbn [fst snd].
    destruct (IH (dict_set d k v) (dict_set_NoDup d k v Hd)) as [H1 H2].
    split; [done|]. intros kv Hkv. destruct (H2 kv Hkv) as [Hk Hv].
    rewrite elem_of_app in Hk. rewrite elem_of_app in Hv. rewrite !elem_of_app, !elem_of_cons.
    split; [destruct Hk as [Hk|]; [|tauto]|destruct Hv as [Hv|]; [|tauto]].
    + apply list_elem_of_fmap_1 in Hk as (kv' & -> & Hin).
      destruct (dict_set_elem d k v kv' Hin) as [Hk _]. apply elem_of_cons in Hk. tauto.
    + apply list_elem_of_fmap_1 in Hv as (kv' & -> & Hin).
      destruct (dict_set_elem d k v kv' Hin) as [_ Hv]. apply elem_of_cons in Hv. tauto.
Qed.

Lemma zip_elem {A B} (xs : list A) (ys : list B) x y :
  (x, y) ∈ zip xs ys -> x ∈ xs ∧ y ∈ ys.
Proof.
  revert ys. induction xs as [|x' xs IH]; intros [|y' ys] H; simpl in H;
    try by apply not_elem_of_nil in H.
  rewrite !elem_of_cons. apply elem_of_cons in H as [[= -> ->]|H]; [tauto|].
  apply IH in H. tauto.
Qed.


(** ** Specifications of statements *)

(** [hoare P m Q E]: from a state satisfying [P], the statement [m]
    returns [a] in a state satisfying [Q a], or raises [e] in a state
    satisfying [E e]. *)
Definition hoare {S A} (P : S -> Prop) (m : st S A) (Q : A -> S -> Prop)
    (E : PyExc -> S -> Prop) : Prop :=
  forall s, P s -> match m s with (Ret a, s') => Q a s' | (Exc e, s') => E e s' end.

Section Hoare.
Context {S : Type}.
Implicit Types P : S -> Prop.
Implicit Types E : PyExc -> S -> Prop.

Lemma hoare_ret {A} P (Q : A -> S -> Prop) E a :
  (forall s, P s -> Q a s) -> hoare P (st_ret a) Q E.
Proof. intros H s Hs. by apply H. Qed.

Lemma hoare_raise {A} P (Q : A -> S -> Prop) E e :
  (forall s, P s -> E e s) -> hoare P (st_raise e) Q E.
Proof. intros H s Hs. by apply H. Qed.

Lemma hoare_bind {A B} P (R : A -> S -> Prop) (Q : B -> S -> Prop) E m k :
  hoare P m R E -> (forall a, hoare (R a) (k a) Q E) -> hoare P (st_bind m k) Q E.
Proof.
  intros Hm Hk s Hs. specialize (Hm s Hs). unfold st_bind.
  destruct (m s) as [[a|e] s']; [by apply Hk|done].
Qed.

Lemma hoare_conseq {A} P P' (Q Q' : A -> S -> Prop) E E' m :
  hoare P' m Q' E' -> (forall s, P s -> P' s) ->
  (forall a s, Q' a s -> Q a s) -> (forall e s, E' e s -> E e s) -> hoare P m Q E.
Proof.
  intros Hm HP HQ HE s Hs. specialize (Hm s (HP s Hs)).
  destruct (m s) as [[a|e] s']; auto.
Qed.

Lemma hoare_if {A} P (Q : A -> S -> Prop) E (b : bool) m1 m2 :
  (b = true -> hoare P m1 Q E) -> (b = false -> hoare P m2 Q E) ->
  hoare P (if b then m1 else m2) Q E.
Proof. destruct b; auto. Qed.

Lemma hoare_try {A} P (Q : A -> S -> Prop) E E' m p h :
  hoare P m Q E' ->
  (forall e, p e = true -> hoare (E' e) (h e) Q E) ->
  (forall e s, p e = false -> E' e s -> E e s) ->
  hoare P (st_try m p h) Q E.
Proof.
  intros Hm Hh HE s Hs. specialize (Hm s Hs). unfold st_try.
  destruct (m s) as [[a|e] s']; [done|].
  destruct (p e) eqn:Hp; [by apply Hh|by apply HE].
Qed.

(** A loop keeps an invariant its body keeps. *)
Lemma hoare_iter {A} (I : S -> Prop) E (f : A -> st S unit) xs :
  (forall x, hoare I (f x) (fun _ => I) E) -> hoare I (st_iter f xs) (fun _ => I) E.
Proof.
  intros Hf. induction xs as [|x xs IH]; simpl.
  - by apply hoare_ret.
  - eapply hoare_bind; [apply Hf|]. intros u. apply IH.
Qed.
End Hoare.

(** [hoare_step] applies the rule of the statement at the head of the
    goal. *)
Ltac hoare_step :=
  match goal with
  | |- hoare _ (st_bind _ _) _ _ => eapply hoare_bind
  | |- hoare _ (st_ret _) _ _ => apply hoare_ret
  | |- hoare _ (st_raise _) _ _ => apply hoare_raise
  | |- hoare _ (if _ then _ else _) _ _ => apply hoare_if; intro
  end.

(** [decide_prop] proves a closed decidable proposition by evaluation. *)
Ltac decide_prop := apply (bool_decide_unpack _); vm_compute; exact I.
