(* ===== verification/Strftime.v ===== *)
(** * [time.strftime] and the timestamps of [logging.Formatter]

    [logging.Formatter.formatTime(record, datefmt)] converts [record.created]
    to a broken-down local time and calls [time.strftime(datefmt, ct)];
    without a [datefmt] it uses ["%Y-%m-%d %H:%M:%S"] and appends
    [",%03d" % record.msecs]. The file handler of [create_logger] (line 54
    of [general.py]) passes the date format ["%Y-%b-%d %H:%M:%S"].

    This file models the broken-down time [DateTime] (the conversion from
    the epoch is not modelled: the time is an input of a log call), the
    C-locale [strftime] for [%Y %m %b %d %H %M %S %%], zero padding, and a
    parser of the file timestamp, with the round trip and the length of
    the timestamp. *)

From S2P Require Import Prelude.

(** ** Broken-down time *)

Record DateTime := mkDateTime {
  dt_year : Z;
  dt_mon : Z;    (** 1 .. 12 *)
  dt_mday : Z;   (** 1 .. 31 *)
  dt_hour : Z;   (** 0 .. 23 *)
  dt_min : Z;    (** 0 .. 59 *)
  dt_sec : Z;    (** 0 .. 61, as [time.strftime] accepts leap seconds *)
  dt_msec : Z    (** 0 .. 999, [record.msecs] *)
}.

(** The ranges [time.strftime] checks before formatting. *)
Definition dt_valid (t : DateTime) : bool :=
  ((1 <=? dt_mon t) && (dt_mon t <=? 12) && (1 <=? dt_mday t) && (dt_mday t <=? 31)
  && (0 <=? dt_hour t) && (dt_hour t <=? 23) && (0 <=? dt_min t) && (dt_min t <=? 59)
  && (0 <=? dt_sec t) && (dt_sec t <=? 61) && (0 <=? dt_msec t) && (dt_msec t <=? 999))%Z.

(** ** Decimal printing *)

(** A number printed with at least [w] digits, padded with zeros on the
    left ([%02d], [%03d], and the [DO_NUMBER] of the C library). *)
Definition zpad (w : nat) (z : Z) : string :=
  let s := pretty z in
  String.append (String.concat "" (replicate (w - String.length s) "0")) s.

(** Exactly [k] decimal digits of [x] (the last [k] digits). *)
Fixpoint fixed_digits (k : nat) (x : N) : string :=
  match k with
  | O => ""
  | S k' => fixed_digits k' (x `div` 10)%N +:+ String (pretty_N_char (x `mod` 10)%N) ""
  end.

(** ** [strftime] *)

(** [%b] in the C locale. *)
Definition month_abbr (m : Z) : string :=
  match m with
  | 1 => "Jan" | 2 => "Feb" | 3 => "Mar" | 4 => "Apr" | 5 => "May" | 6 => "Jun"
  | 7 => "Jul" | 8 => "Aug" | 9 => "Sep" | 10 => "Oct" | 11 => "Nov" | _ => "Dec"
  end%Z.

(** The text of one conversion [%c]; [None] for a character that is not a
    directive of the model, which the C library copies as written. *)
Definition directive (c : ascii) (t : DateTime) : option string :=
  match c with
  | "Y"%char => Some (pretty (dt_year t))
  | "m"%char => Some (zpad 2 (dt_mon t))
  | "b"%char => Some (month_abbr (dt_mon t))
  | "d"%char => Some (zpad 2 (dt_mday t))
  | "H"%char => Some (zpad 2 (dt_hour t))
  | "M"%char => Some (zpad 2 (dt_min t))
  | "S"%char => Some (zpad 2 (dt_sec t))
  | "%"%char => Some "%"
  | _ => None
  end.

Fixpoint strftime (fmt : string) (t : DateTime) : string :=
  match fmt with
  | "" => ""
  | String "%"%char (String c rest) =>
      match directive c t with
      | Some s => s +:+ strftime rest t
      | None => String "%" (String c (strftime rest t))
      end
  | String c rest => String c (strftime rest t)
  end.

(** The date format of the file handler (line 54). *)
Definition file_datefmt : string := "%Y-%b-%d %H:%M:%S".

(** [Formatter.default_time_format] and [default_msec_format]. *)
Definition default_time_format : string := "%Y-%m-%d %H:%M:%S".

(** [Formatter.formatTime(record, datefmt)]. *)
Definition formatTime (datefmt : option string) (t : DateTime) : string :=
  match datefmt with
  | Some f => strftime f t
  | None => strftime default_time_format t +:+ "," +:+ zpad 3 (dt_msec t)
  end.

(** ** Parsing the file timestamp back *)

Definition digit_val (c : ascii) : option N :=
  let n := N_of_ascii c in
  if (48 <=? n)%N && (n <=? 57)%N then Some (n - 48)%N else None.

(** Read [k] digits from the front of [s]. *)
Fixpoint read_digits (k : nat) (acc : N) (s : string) : option (N * string) :=
  match k with
  | O => Some (acc, s)
  | S k' =>
      match s with
      | String c rest =>
          match digit_val c with
          | Some d => read_digits k' (acc * 10 + d)%N rest
          | None => None
          end
      | "" => None
      end
  end.

Definition months : list Z := [1; 2; 3; 4; 5; 6; 7; 8; 9; 10; 11; 12]%Z.

Definition month_of_abbr (s : string) : option Z :=
  List.find (fun m => String.eqb (month_abbr m) s) months.

Definition read_month (s : string) : option (Z * string) :=
  match s with
  | String a (String b (String c rest)) =>
      m ← month_of_abbr (String a (String b (String c ""))); Some (m, rest)
  | _ => None
  end.

Definition expect (c : ascii) (s : string) : option string :=
  match s with
  | String c' rest => if ascii_dec c c' then Some rest else None
  | "" => None
  end.

(** The fields of a timestamp printed with [file_datefmt]. *)
Definition parse_file_time (s : string) : option (Z * Z * Z * Z * Z * Z) :=
  '(y, r) ← read_digits 4 0 s;
  r ← expect "-" r;
  '(mo, r) ← read_month r;
  r ← expect "-" r;
  '(d, r) ← read_digits 2 0 r;
  r ← expect " " r;
  '(h, r) ← read_digits 2 0 r;
  r ← expect ":" r;
  '(mi, r) ← read_digits 2 0 r;
  r ← expect ":" r;
  '(sec, r) ← read_digits 2 0 r;
  match r with
  | "" => Some (Z.of_N y, mo, Z.of_N d, Z.of_N h, Z.of_N mi, Z.of_N sec)
  | _ => None
  end.

(** ** Lemmas on digits *)

Lemma length_fixed_digits k x : String.length (fixed_digits k x) = k.
Proof.
  revert x. induction k as [|k IH]; intros x; simpl; [done|].
  rewrite length_append_str, IH. simpl. lia.
Qed.

#[export] Hint Rewrite length_fixed_digits : pyrw.

Lemma digit_val_char d : (d < 10)%N -> digit_val (pretty_N_char d) = Some d.
Proof.
  intros Hd.
  assert (d = 0 ∨ d = 1 ∨ d = 2 ∨ d = 3 ∨ d = 4 ∨ d = 5 ∨ d = 6 ∨ d = 7
          ∨ d = 8 ∨ d = 9)%N as Hc by lia.
  by repeat destruct Hc as [->|Hc]; [..|subst].
Qed.

(** [pretty] of a number with exactly [k] digits is [fixed_digits k]. *)
Lemma pretty_N_go_fixed k x s :
  (10 ^ N.of_nat k <= 10 * x)%N -> (x < 10 ^ N.of_nat k)%N ->
  pretty_N_go x s = fixed_digits k x +:+ s.
Proof.
  revert x s. induction k as [|k IH]; intros x s Hlo Hhi; [simpl in *; lia|].
  rewrite pretty_N_go_step by lia. simpl. rewrite append_assoc_str.
  rewrite Nat2N.inj_succ, N.pow_succ_r' in Hlo, Hhi.
  destruct k as [|k].
  - simpl in *. replace (x `div` 10)%N with 0%N by (symmetry; apply N.div_small; lia).
    by rewrite pretty_N_go_0.
  - apply IH.
    + pose proof (N.mod_upper_bound x 10).
      rewrite (N.div_mod x 10) in Hlo by lia.
      rewrite Nat2N.inj_succ, N.pow_succ_r' in Hlo |- *. lia.
    + apply N.Div0.div_lt_upper_bound; lia.
Qed.

(** Reading [k] digits back. *)
Lemma read_digits_fixed k j acc x s :
  read_digits (k + j) acc (fixed_digits k x +:+ s)
  = read_digits j (acc * 10 ^ N.of_nat k + x `mod` 10 ^ N.of_nat k)%N s.
Proof.
  revert j acc x s. induction k as [|k IH]; intros j acc x s.
  - simpl. by rewrite N.mul_1_r, N.mod_1_r, N.add_0_r.
  - simpl fixed_digits. rewrite append_assoc_str.
    replace (S k + j) with (k + S j) by lia. rewrite IH.
    simpl. rewrite digit_val_char by (apply N.mod_upper_bound; lia).
    f_equal. rewrite Nat2N.inj_succ, N.pow_succ_r', (N.Div0.mod_mul_r x 10). nia.
Qed.

Lemma pretty_Z_fixed k (z : Z) :
  (10 ^ Z.of_nat k <= 10 * z)%Z -> (z < 10 ^ Z.of_nat k)%Z ->
  pretty z = fixed_digits k (Z.to_N z).
Proof.
  intros Hlo Hhi. destruct z as [|p|p]; [simpl in *; lia| |lia].
  change (pretty (Z.pos p)) with (pretty (N.pos p)).
  unfold pretty, pretty_N. case_decide; [done|].
  rewrite pretty_N_go_fixed with (k := k).
  - apply append_nil_str.
  - rewrite <- (N2Z.id (10 ^ N.of_nat k)), N2Z.inj_pow, nat_N_Z. lia.
  - rewrite <- (N2Z.id (10 ^ N.of_nat k)), N2Z.inj_pow, nat_N_Z. lia.
Qed.

(** Zero padding to two digits agrees with [fixed_digits 2] in range. *)
Lemma zpad2_fixed (z : Z) :
  (0 <= z < 100)%Z -> zpad 2 z = fixed_digits 2 (Z.to_N z).
Proof.
  intros Hz. unfold zpad.
  destruct (decide (z = 0)%Z) as [->|Hz0]; [done|].
  destruct (decide (z < 10)%Z) as [Hlt|Hge].
  - rewrite (pretty_Z_fixed 1) by (simpl; lia). simpl.
    replace (Z.to_N z `div` 10)%N with 0%N by (symmetry; apply N.div_small; lia).
    done.
  - rewrite (pretty_Z_fixed 2) by (simpl; lia). by rewrite length_fixed_digits.
Qed.

Corollary read_digits_fixed_exact k acc x s :
  read_digits k acc (fixed_digits k x +:+ s)
  = Some (acc * 10 ^ N.of_nat k + x `mod` 10 ^ N.of_nat k, s)%N.
Proof. rewrite <- (Nat.add_0_r k) at 1. apply read_digits_fixed. Qed.

Lemma fixed_value k (z : Z) :
  (0 <= z < 10 ^ Z.of_nat k)%Z ->
  Z.of_N (0 * 10 ^ N.of_nat k + Z.to_N z `mod` 10 ^ N.of_nat k)%N = z.
Proof.
  intros Hz. rewrite N.mul_0_l, N.add_0_l, N.mod_small; [lia|].
  rewrite <- (N2Z.id (10 ^ N.of_nat k)), N2Z.inj_pow, nat_N_Z. lia.
Qed.

Lemma length_month_abbr m : String.length (month_abbr m) = 3.
Proof. unfold month_abbr. by repeat case_match. Qed.

Lemma read_month_abbr m r :
  (1 <= m <= 12)%Z -> read_month (month_abbr m +:+ r) = Some (m, r).
Proof.
  intros Hm.
  assert (m = 1 ∨ m = 2 ∨ m = 3 ∨ m = 4 ∨ m = 5 ∨ m = 6 ∨ m = 7 ∨ m = 8
          ∨ m = 9 ∨ m = 10 ∨ m = 11 ∨ m = 12)%Z as Hc by lia.
  by repeat destruct Hc as [->|Hc]; [..|subst].
Qed.

Lemma expect_same c r : expect c (String c r) = Some r.
Proof. simpl. by destruct (ascii_dec c c). Qed.

(** The file timestamp, field by field. *)
Lemma strftime_file_datefmt t :
  strftime file_datefmt t =
  pretty (dt_year t) +:+ String "-" (month_abbr (dt_mon t) +:+ String "-"
    (zpad 2 (dt_mday t) +:+ String " " (zpad 2 (dt_hour t) +:+ String ":"
    (zpad 2 (dt_min t) +:+ String ":" (zpad 2 (dt_sec t) +:+ ""))))).
Proof. reflexivity. Qed.

Lemma dt_valid_ranges t :
  dt_valid t = true ->
  (1 <= dt_mon t <= 12 ∧ 1 <= dt_mday t <= 31 ∧ 0 <= dt_hour t <= 23
   ∧ 0 <= dt_min t <= 59 ∧ 0 <= dt_sec t <= 61 ∧ 0 <= dt_msec t <= 999)%Z.
Proof. unfold dt_valid. intros H. repeat rewrite andb_true_iff in H. lia. Qed.

Ltac zpad2_fixed_all :=
  repeat match goal with
  | |- context [zpad 2 ?z] => rewrite (zpad2_fixed z) by lia
  end.

Arguments fixed_digits : simpl never.

(** ** Theorems *)

(** C33: a timestamp of the file handler of [create_logger] has exactly 20
    characters for every valid time of a four-digit year:
    [YYYY-Mon-DD HH:MM:SS]. *)
Theorem file_timestamp_length t :
  dt_valid t = true -> (1000 <= dt_year t <= 9999)%Z ->
  String.length (formatTime (Some file_datefmt) t) = 20.
Proof.
  intros Hv Hy. pose proof (dt_valid_ranges t Hv).
  change (formatTime (Some file_datefmt) t) with (strftime file_datefmt t).
  rewrite strftime_file_datefmt.
  rewrite (pretty_Z_fixed 4) by (simpl; lia). zpad2_fixed_all.
  repeat progress (rewrite ?length_append_str, ?length_fixed_digits,
    ?length_month_abbr; cbn [String.length]).
  lia.
Qed.

(** C34: the file timestamp is parsed back to the year, month, day, hour,
    minute and second it was printed from. *)
Theorem file_timestamp_roundtrip t :
  dt_valid t = true -> (1000 <= dt_year t <= 9999)%Z ->
  parse_file_time (formatTime (Some file_datefmt) t)
  = Some (dt_year t, dt_mon t, dt_mday t, dt_hour t, dt_min t, dt_sec t).
Proof.
  intros Hv Hy. pose proof (dt_valid_ranges t Hv).
  change (formatTime (Some file_datefmt) t) with (strftime file_datefmt t).
  rewrite strftime_file_datefmt.
  rewrite (pretty_Z_fixed 4) by (simpl; lia). zpad2_fixed_all.
  unfold parse_file_time.
  repeat (first [ rewrite read_digits_fixed_exact | rewrite expect_same
                | rewrite read_month_abbr by lia ]; cbn [mbind option_bind]).
  rewrite !fixed_value by (simpl; lia). done.
Qed.

(** Witness of C15 and C16 at 2026-Nov-09 01:13:05. *)
Definition sample_time : DateTime := mkDateTime 2026 11 9 1 13 5 250.

Lemma file_timestamp_length_witness :
  formatTime (Some file_datefmt) sample_time = "2026-Nov-09 01:13:05" ∧
  String.length (formatTime (Some file_datefmt) sample_time) = 20.
Proof.
  split; [reflexivity|].
  apply file_timestamp_length; [reflexivity | simpl; lia].
Defined.

Lemma file_timestamp_roundtrip_witness :
  parse_file_time (formatTime (Some file_datefmt) sample_time)
  = Some (2026, 11, 9, 1, 13, 5)%Z.
Proof. apply (file_timestamp_roundtrip sample_time); [reflexivity | simpl; lia]. Defined.

Example default_time_sample :
  formatTime None sample_time = "2026-11-09 01:13:05,250".
Proof. reflexivity. Qed.
