(* ===== verification/PercentFormat.v ===== *)
(** * The [%]-style templates of [logging.Formatter]

    [create_logger] (lines 22-26 of [general.py]) builds its formatters from
    three templates such as ["%(name)s - %(levelname)s: %(message)s"].
    [logging.PercentStyle] checks a template when the [Formatter] is built
    (the regular expression [validation_pattern]) and formats a record with
    [fmt % record.__dict__].

    This file models the fragment of Python's [str % mapping] the templates
    use: literal characters, [%%], and fields [%(key)c] with the conversions
    [s] and [d], keys read with Python's count of nested parentheses. Other
    conversions ([r], [x], widths, ...) are outside the fragment: the
    parser returns [None] for them. It holds the parser, the printer, the
    round trips between them, the renderer with its [KeyError] and
    [TypeError] paths, and the validation scan. *)

From S2P Require Import Prelude.

(** ** Templates *)

Inductive Seg :=
| SLit (c : ascii)
| SPct
| SField (key : string) (conv : ascii).

#[export] Instance Seg_eq_dec : EqDecision Seg.
Proof. solve_decision. Defined.

Definition conv_ok (c : ascii) : bool :=
  bool_decide (c = "s"%char) || bool_decide (c = "d"%char).

(** The states of the scanner: text, after [%], inside a key at a nesting
    depth with the key read so far, and after the key. *)
Inductive pmode :=
| PText
| PPct
| PKey (depth : nat) (acc : string)
| PConv (key : string).

Definition snoc_str (s : string) (c : ascii) : string := s +:+ String c "".

Fixpoint pf_go (m : pmode) (s : string) : option (list Seg) :=
  match s with
  | "" => match m with PText => Some [] | _ => None end
  | String c r =>
      match m with
      | PText =>
          if bool_decide (c = "%"%char) then pf_go PPct r
          else cons (SLit c) <$> pf_go PText r
      | PPct =>
          if bool_decide (c = "%"%char) then cons SPct <$> pf_go PText r
          else if bool_decide (c = "("%char) then pf_go (PKey 0 "") r
          else None
      | PKey d acc =>
          if bool_decide (c = ")"%char) then
            match d with
            | O => pf_go (PConv acc) r
            | S d' => pf_go (PKey d' (snoc_str acc c)) r
            end
          else if bool_decide (c = "("%char) then pf_go (PKey (S d) (snoc_str acc c)) r
          else pf_go (PKey d (snoc_str acc c)) r
      | PConv k => if conv_ok c then cons (SField k c) <$> pf_go PText r else None
      end
  end.

Definition pf_parse (fmt : string) : option (list Seg) := pf_go PText fmt.

Definition seg_print (g : Seg) : string :=
  match g with
  | SLit c => String c ""
  | SPct => "%%"
  | SField k c => "%(" +:+ k +:+ ")" +:+ String c ""
  end.

Fixpoint pf_print (gs : list Seg) : string :=
  match gs with
  | [] => ""
  | g :: gs' => seg_print g +:+ pf_print gs'
  end.

(** ** Rendering *)

(** [str(v)]. *)
Definition py_str (v : PyVal) : string :=
  match v with
  | VNone => "None"
  | VBool b => if b then "True" else "False"
  | VInt z => pretty z
  | VStr s => s
  | VObj r => r
  end.

Definition py_type_name (v : PyVal) : string :=
  match v with
  | VNone => "NoneType" | VBool _ => "bool" | VInt _ => "int"
  | VStr _ => "str" | VObj _ => "object"
  end.

(** One segment under the mapping [d] ([record.__dict__]). *)
Definition render_seg (d : string -> option PyVal) (g : Seg) : outcome string :=
  match g with
  | SLit c => Ret (String c "")
  | SPct => Ret "%"
  | SField k c =>
      match d k with
      | None => Exc (KeyError k)
      | Some v =>
          if bool_decide (c = "s"%char) then Ret (py_str v)
          else match v with
               | VInt z => Ret (pretty z)
               | VBool b => Ret (if b then "1" else "0")
               | _ => Exc (TypeError ("%d format: a real number is required, not "
                                      +:+ py_type_name v))
               end
      end
  end.

(** The segments left to right; the first error is raised. *)
Fixpoint pf_render (d : string -> option PyVal) (gs : list Seg) : outcome string :=
  match gs with
  | [] => Ret ""
  | g :: gs' =>
      match render_seg d g with
      | Exc e => Exc e
      | Ret s =>
          match pf_render d gs' with
          | Exc e => Exc e
          | Ret s' => Ret (s +:+ s')
          end
      end
  end.

(** [fmt % d] on a template of the fragment. *)
Definition percent_format (fmt : string) (d : string -> option PyVal) : outcome string :=
  match pf_parse fmt with
  | Some gs => pf_render d gs
  | None => Exc (ValueError ("unsupported format: " +:+ fmt))
  end.

(** ** Validation when a [Formatter] is built *)

Definition is_word_char (c : ascii) : bool :=
  let n := nat_of_ascii c in
  ((48 <=? n) && (n <=? 57)) || ((65 <=? n) && (n <=? 90))
  || ((97 <=? n) && (n <=? 122)) || (n =? 95).

Definition is_digit_char (c : ascii) : bool :=
  let n := nat_of_ascii c in (48 <=? n) && (n <=? 57).

Definition in_str (c : ascii) (s : string) : bool :=
  bool_decide (c ∈ String.list_ascii_of_string s).

Fixpoint skip_while (p : ascii -> bool) (s : string) : string :=
  match s with
  | String c r => if p c then skip_while p r else s
  | "" => ""
  end.

(** [%\(\w+\)[#0+ -]*(\*|\d+)?(\.(\*|\d+))?[diouxefgcrsa%]] with [re.I],
    matched at the front of [s]. *)
Definition field_at (s : string) : bool :=
  match s with
  | String "%"%char (String "("%char r) =>
      let r1 := skip_while is_word_char r in
      (String.length r1 <? String.length r) &&
      match r1 with
      | String ")"%char r2 =>
          let r3 := skip_while (fun c => in_str c "#0+ -") r2 in
          let r4 := match r3 with
                    | String "*"%char r => r
                    | _ => skip_while is_digit_char r3
                    end in
          let r5 := match r4 with
                    | String "."%char (String "*"%char r) => r
                    | String "."%char r =>
                        let r' := skip_while is_digit_char r in
                        if String.length r' <? String.length r then r' else r4
                    | _ => r4
                    end in
          match r5 with
          | String c _ => in_str c "diouxefgcrsaDIOUXEFGCRSA%"
          | "" => false
          end
      | _ => false
      end
  | _ => false
  end.

(** [validation_pattern.search(fmt)]: a field somewhere in [fmt]. *)
Fixpoint percent_validate (fmt : string) : bool :=
  field_at fmt || match fmt with String _ r => percent_validate r | "" => false end.

(** ** Lemmas *)

(** The text a scanner state stands for. *)
Definition mode_prefix (m : pmode) : string :=
  match m with
  | PText => ""
  | PPct => "%"
  | PKey _ acc => "%(" +:+ acc
  | PConv k => "%(" +:+ k +:+ ")"
  end.

Lemma pf_go_print m s gs :
  pf_go m s = Some gs -> mode_prefix m +:+ s = pf_print gs.
Proof.
  revert m gs. induction s as [|c r IH]; intros m gs Hgo.
  - destruct m; simplify_eq/=. done.
  - destruct m as [| |d acc|k]; simpl in Hgo.
    + case_bool_decide; subst.
      * apply IH in Hgo. done.
      * destruct (pf_go PText r) as [gs'|] eqn:E; simplify_eq/=.
        apply IH in E. simpl in E. by rewrite <- E.
    + case_bool_decide; subst; [|case_bool_decide; subst; [|done]].
      * destruct (pf_go PText r) as [gs'|] eqn:E; simplify_eq/=.
        apply IH in E. simpl in E. by rewrite <- E.
      * apply IH in Hgo. done.
    + unfold snoc_str in Hgo.
      repeat case_bool_decide; subst; [destruct d|..];
        apply IH in Hgo; simpl in Hgo; rewrite <- Hgo;
        rewrite ?append_assoc_str; done.
    + destruct (conv_ok c) eqn:Hc; [|done].
      destruct (pf_go PText r) as [gs'|] eqn:E; simplify_eq/=.
      apply IH in E. simpl in E. rewrite <- E. by rewrite !append_assoc_str.
Qed.

(** A segment the printer and the parser agree on: a literal is not [%],
    a key holds no parenthesis, a conversion is [s] or [d]. *)
Definition seg_wf (g : Seg) : bool :=
  match g with
  | SLit c => negb (bool_decide (c = "%"%char))
  | SPct => true
  | SField k c =>
      conv_ok c && negb (in_str "(" k) && negb (in_str ")" k)
  end.

Lemma in_str_cons c x s : in_str c (String x s) = bool_decide (c = x) || in_str c s.
Proof.
  unfold in_str. simpl. apply eq_bool_prop_intro. rewrite orb_True.
  rewrite !bool_decide_spec. rewrite elem_of_cons. done.
Qed.

(** Reading a key without parentheses up to its closing [)]. *)
Lemma pf_go_key acc k r :
  in_str "(" k = false -> in_str ")" k = false ->
  pf_go (PKey 0 acc) (k +:+ String ")" r) = pf_go (PConv (acc +:+ k)) r.
Proof.
  revert acc. induction k as [|x k IH]; intros acc H1 H2.
  - simpl. by rewrite append_nil_str.
  - rewrite in_str_cons, orb_false_iff in H1, H2.
    destruct H1 as [H1a H1b], H2 as [H2a H2b].
    rewrite append_cons_str. simpl.
    rewrite bool_decide_eq_false in H1a, H2a.
    rewrite !bool_decide_false by congruence.
    rewrite IH by done. unfold snoc_str. by rewrite append_assoc_str.
Qed.

Lemma pf_print_cons g gs : pf_print (g :: gs) = seg_print g +:+ pf_print gs.
Proof. reflexivity. Qed.

(** ** Round trips *)

(** Parsing loses nothing. *)
Lemma pf_print_parse fmt gs :
  pf_parse fmt = Some gs -> pf_print gs = fmt.
Proof. intros H. symmetry. apply (pf_go_print PText fmt gs H). Qed.

(** Well-formed segments are parsed back. *)
Lemma pf_parse_print gs :
  forallb seg_wf gs = true -> pf_parse (pf_print gs) = Some gs.
Proof.
  unfold pf_parse. induction gs as [|g gs IH]; intros Hwf; [done|].
  simpl in Hwf. apply andb_true_iff in Hwf as [Hg Hgs].
  specialize (IH Hgs). destruct g as [c| |k c]; simpl in Hg; rewrite pf_print_cons.
  - apply negb_true_iff, bool_decide_eq_false in Hg.
    cbn [seg_print]. rewrite append_cons_str, append_empty_str. cbn [pf_go].
    rewrite bool_decide_false by done. by rewrite IH.
  - cbn [seg_print]. rewrite !append_cons_str, append_empty_str. cbn [pf_go].
    by rewrite IH.
  - apply andb_true_iff in Hg as [Hg H2]. apply andb_true_iff in Hg as [Hc H1].
    apply negb_true_iff in H1, H2.
    cbn [seg_print]. rewrite !append_assoc_str, !append_cons_str, !append_empty_str.
    cbn [pf_go]. rewrite !bool_decide_true by done.
    rewrite pf_go_key by done. rewrite append_empty_str. cbn [pf_go].
    by rewrite Hc, IH.
Qed.
