(* ===== verification/Runtime.v ===== *)
(** * The interpreter state shared by the components

    Every function of [general.py] acts on process-wide state: the logging
    registry ([logging.Logger.manager] and the root logger), the file
    system (log files opened in append mode), the modules [__import__] can
    find, the programs [subprocess.run] can start, and what the process
    has observably done. This file declares that state as the record
    [World] with its parts: severity levels, formatters, handlers, loggers,
    the registry, the events of the trace, and the process table. *)

From S2P Require Import Prelude Strftime PercentFormat.

(** ** Severity levels of [logging] *)

Definition NOTSET : Z := 0.
Definition DEBUG : Z := 10.
Definition INFO : Z := 20.
Definition WARNING : Z := 30.
Definition ERROR : Z := 40.
Definition CRITICAL : Z := 50.

(** [logging.getLevelName(level)] for an int level. *)
Definition getLevelName (lvl : Z) : string :=
  if bool_decide (lvl = CRITICAL) then "CRITICAL"
  else if bool_decide (lvl = ERROR) then "ERROR"
  else if bool_decide (lvl = WARNING) then "WARNING"
  else if bool_decide (lvl = INFO) then "INFO"
  else if bool_decide (lvl = DEBUG) then "DEBUG"
  else if bool_decide (lvl = NOTSET) then "NOTSET"
  else "Level " +:+ pretty lvl.

(** ** Formatters, handlers, loggers *)

(** [logging.Formatter(fmt, datefmt)] with the percent style. *)
Record Formatter := mkFormatter {
  fmt_fmt : string;
  fmt_datefmt : option string
}.

(** [logging._defaultFormatter = Formatter()]. *)
Definition default_formatter : Formatter := mkFormatter "%(message)s" None.

(** Where a handler writes: [sys.stderr] or a file opened in append mode
    (by the path given to [FileHandler]; [os.path.abspath] is not
    modelled). *)
Inductive Sink :=
| Stderr
| LogFile (path : string).

#[export] Instance Sink_eq_dec : EqDecision Sink.
Proof. solve_decision. Defined.

(** A handler object; [h_id] is its identity, which [addHandler] compares. *)
Record Handler := mkHandler {
  h_id : nat;
  h_sink : Sink;
  h_level : Z;
  h_formatter : option Formatter
}.

(** A [logging.Logger]. *)
Record Logger := mkLogger {
  lg_level : Z;
  lg_handlers : list Handler;
  lg_propagate : bool;
  lg_disabled : bool
}.

(** [Logger(name)] as [Manager.getLogger] creates it. *)
Definition new_logger : Logger := mkLogger NOTSET [] true false.

(** [logging.root = RootLogger(WARNING)]. *)
Definition new_root : Logger := mkLogger WARNING [] true false.

(** The registry: [Logger.manager.loggerDict] without its placeholders (a
    logger's parent is computed from the names present), the root logger,
    [manager.disable] set by [logging.disable], and the counter that gives
    each new handler object its identity. *)
Record Registry := mkRegistry {
  reg_loggers : gmap string Logger;
  reg_root : Logger;
  reg_disable : Z;
  reg_next_id : nat
}.

Definition empty_registry : Registry := mkRegistry ∅ new_root NOTSET 0.

(** A reference to a logger object. *)
Inductive LoggerRef :=
| LRoot
| LNamed (name : string).

#[export] Instance LoggerRef_eq_dec : EqDecision LoggerRef.
Proof. solve_decision. Defined.

(** ** The world *)

(** What the process observably does, in order. *)
Inductive Event :=
| EWrite (sink : Sink) (text : string)
| EOpen (path : string)
| ESpawn (argv : list string) (status : option Z).

#[export] Instance Event_eq_dec : EqDecision Event.
Proof. solve_decision. Defined.

Inductive Platform := Posix | Windows.

Record World := mkWorld {
  w_reg : Registry;
  w_trace : list Event;
  (** the error of opening a path in append mode, if any *)
  w_open : string -> option PyExc;
  (** the modules [__import__] finds *)
  w_modules : gset string;
  (** the exit status of a program started with an argument vector, or
      [None] when no such executable exists *)
  w_exec : list string -> option Z;
  (** the modules a program makes importable when it exits with 0 *)
  w_installs : list string -> list string;
  w_platform : Platform
}.

Definition set_reg (r : Registry) (w : World) : World :=
  mkWorld r (w_trace w) (w_open w) (w_modules w) (w_exec w) (w_installs w) (w_platform w).

Definition add_event (e : Event) (w : World) : World :=
  mkWorld (w_reg w) (w_trace w ++ [e]) (w_open w) (w_modules w) (w_exec w)
    (w_installs w) (w_platform w).

Definition add_modules (ms : list string) (w : World) : World :=
  mkWorld (w_reg w) (w_trace w) (w_open w) (list_to_set ms ∪ w_modules w) (w_exec w)
    (w_installs w) (w_platform w).

Abbreviation pm := (st World).

(** A fresh interpreter on POSIX: no logger configured, nothing done yet,
    every path opens, no module importable, no program found. *)
Definition fresh_world : World :=
  mkWorld empty_registry [] (fun _ => None) ∅ (fun _ => None) (fun _ => []) Posix.

(** ** Registry updates *)

Definition find_logger (r : Registry) (n : string) : Logger :=
  default new_logger (reg_loggers r !! n).

Definition logger_of (r : Registry) (lr : LoggerRef) : Logger :=
  match lr with
  | LRoot => reg_root r
  | LNamed n => find_logger r n
  end.

Definition update_logger (lr : LoggerRef) (f : Logger -> Logger) (r : Registry) : Registry :=
  match lr with
  | LRoot => mkRegistry (reg_loggers r) (f (reg_root r)) (reg_disable r) (reg_next_id r)
  | LNamed n =>
      mkRegistry (<[n := f (find_logger r n)]> (reg_loggers r)) (reg_root r)
        (reg_disable r) (reg_next_id r)
  end.

(** ** Lemmas *)

Lemma logger_of_update_same r lr f :
  logger_of (update_logger lr f r) lr = f (logger_of r lr).
Proof.
  destruct lr as [|n]; simpl; [done|].
  unfold find_logger. simpl. by rewrite lookup_insert_eq.
Qed.

Lemma logger_of_update_other r lr lr' f :
  lr ≠ lr' -> logger_of (update_logger lr f r) lr' = logger_of r lr'.
Proof.
  intros Hne. destruct lr as [|n], lr' as [|n']; simpl; try done.
  unfold find_logger. simpl. rewrite lookup_insert_ne; [done|]. congruence.
Qed.

Lemma update_logger_next r lr f : reg_next_id (update_logger lr f r) = reg_next_id r.
Proof. by destruct lr. Qed.

Lemma update_logger_disable r lr f : reg_disable (update_logger lr f r) = reg_disable r.
Proof. by destruct lr. Qed.

#[export] Hint Rewrite logger_of_update_same logger_of_update_other update_logger_next update_logger_disable
  : pyrw.
