(* ===== verification/Logging.v ===== *)
(** * The parts of CPython's [logging] that [general.py] calls

    [create_logger] calls [logging.getLogger], [Logger.setLevel],
    [StreamHandler()], [FileHandler(path, mode="a")], [Handler.setLevel],
    [Formatter(fmt, datefmt)], [Handler.setFormatter] and
    [Logger.addHandler]; [_install_package] calls [logger.info] and
    [logger.error]. This file models those operations on the [World] of
    [Runtime], from CPython's [Lib/logging/__init__.py]:
    - the dotted hierarchy ([Manager._fixupParents]): a logger's parent is
      its nearest registered ancestor, found along the prefixes that
      [name.rfind(".")] visits;
    - [getEffectiveLevel], [isEnabledFor] (without its cache, which
      [setLevel] clears), [callHandlers] with propagation and
      [lastResort], and [Handler.handle] writing [format(record)] and the terminator;
    - [Formatter.format]: [usesTime], [formatTime], and the [%] template
      over the record's attributes.
    A log call takes the record's creation time and caller as inputs. *)

From S2P Require Import Prelude Strftime PercentFormat Runtime.

(** ** The dotted hierarchy *)

Fixpoint dot_positions_from (i : nat) (s : string) : list nat :=
  match s with
  | "" => []
  | String c r =>
      (if bool_decide (c = "."%char) then [i] else []) ++ dot_positions_from (S i) r
  end.

(** [s.rfind(".", 0, e)]: the last dot that ends within [s[0:e]]. *)
Definition rfind_dot (s : string) (e : nat) : option nat :=
  last (filter (fun p => bool_decide (p + 1 <= e)) (dot_positions_from 0 s)).

(** The loop of [_fixupParents]: [i = name.rfind(".")], then while
    [i > 0], visit [name[:i]] and continue with [name.rfind(".", 0, i - 1)].
    Each step moves [i] left, so [String.length s] rounds suffice. *)
Fixpoint prefix_chain (fuel : nat) (s : string) (i : option nat) : list string :=
  match fuel, i with
  | S f, Some p =>
      if bool_decide (0 < p) then String.substring 0 p s :: prefix_chain f s (rfind_dot s (p - 1))
      else []
  | _, _ => []
  end.

Definition ancestor_names (s : string) : list string :=
  prefix_chain (String.length s) s (rfind_dot s (String.length s)).

(** [alogger.parent]: the first registered ancestor, else the root. *)
Definition parent_of (r : Registry) (n : string) : LoggerRef :=
  match List.find (fun a => bool_decide (is_Some (reg_loggers r !! a))) (ancestor_names n) with
  | Some a => LNamed a
  | None => LRoot
  end.

Definition ref_length (lr : LoggerRef) : nat :=
  match lr with LRoot => 0 | LNamed n => String.length n end.

(** The logger and its ancestors up to the root, the order in which
    [getEffectiveLevel] and [callHandlers] walk [c = c.parent]. *)
Fixpoint chain_from (fuel : nat) (r : Registry) (lr : LoggerRef) : list Logger :=
  match fuel with
  | O => []
  | S f =>
      logger_of r lr ::
      match lr with
      | LRoot => []
      | LNamed n => chain_from f r (parent_of r n)
      end
  end.

Definition chain (r : Registry) (lr : LoggerRef) : list Logger :=
  chain_from (S (S (ref_length lr))) r lr.

(** [Logger.getEffectiveLevel]: the first level that is not [NOTSET]. *)
Definition effective_level (r : Registry) (lr : LoggerRef) : Z :=
  default NOTSET (List.find (fun z => negb (Z.eqb z NOTSET)) (map lg_level (chain r lr))).

(** [Logger.isEnabledFor(level)]. *)
Definition is_enabled_for (r : Registry) (lr : LoggerRef) (lvl : Z) : bool :=
  negb (lg_disabled (logger_of r lr)) && negb (lvl <=? reg_disable r)%Z
  && (effective_level r lr <=? lvl)%Z.

(** The loggers [callHandlers] visits: it stops after a logger whose
    [propagate] is false. *)
Fixpoint visited (ls : list Logger) : list Logger :=
  match ls with
  | [] => []
  | l :: ls' => l :: (if lg_propagate l then visited ls' else [])
  end.

(** ** Records and formatting *)

(** The caller's frame and the creation time of a record. *)
Record LogCtx := mkLogCtx {
  ctx_time : DateTime;
  ctx_func : string;
  ctx_lineno : Z
}.

Record LogRecord := mkLogRecord {
  rec_name : string;
  rec_levelno : Z;
  rec_msg : string;
  rec_ctx : LogCtx
}.

Definition logger_name (lr : LoggerRef) : string :=
  match lr with LRoot => "root" | LNamed n => n end.

(** [record.__dict__] after [record.message = record.getMessage()] (a
    message without arguments) and, when the formatter uses the time,
    [record.asctime]; of the attributes of a [LogRecord], those a
    template of [general.py] can name (others, such as [process] or
    [pathname], are not modelled and read as missing). *)
Definition record_dict (rec : LogRecord) (asctime : option string) (k : string)
    : option PyVal :=
  if bool_decide (k = "name") then Some (VStr (rec_name rec))
  else if bool_decide (k = "levelname") then Some (VStr (getLevelName (rec_levelno rec)))
  else if bool_decide (k = "levelno") then Some (VInt (rec_levelno rec))
  else if bool_decide (k = "msg") then Some (VStr (rec_msg rec))
  else if bool_decide (k = "message") then Some (VStr (rec_msg rec))
  else if bool_decide (k = "funcName") then Some (VStr (ctx_func (rec_ctx rec)))
  else if bool_decide (k = "lineno") then Some (VInt (ctx_lineno (rec_ctx rec)))
  else if bool_decide (k = "msecs") then Some (VInt (dt_msec (ctx_time (rec_ctx rec))))
  else if bool_decide (k = "asctime") then VStr <$> asctime
  else None.

Fixpoint str_prefix (p s : string) : bool :=
  match p, s with
  | "", _ => true
  | String a p', String b s' => bool_decide (a = b) && str_prefix p' s'
  | _, _ => false
  end.

(** [s.find(p) >= 0]. *)
Fixpoint str_contains (p s : string) : bool :=
  str_prefix p s || match s with String _ s' => str_contains p s' | "" => false end.

(** [PercentStyle.usesTime]. *)
Definition uses_time (f : Formatter) : bool := str_contains "%(asctime)" (fmt_fmt f).

(** [Formatter.format(record)]. *)
Definition format_record (f : Formatter) (rec : LogRecord) : outcome string :=
  let asct := if uses_time f then Some (formatTime (fmt_datefmt f) (ctx_time (rec_ctx rec)))
              else None in
  percent_format (fmt_fmt f) (record_dict rec asct).

(** [StreamHandler.terminator], the newline character. *)
Definition terminator : string := String "010"%char "".

(** [Handler.handle] after the level test: [emit] writes the formatted
    record and the terminator; a formatting error goes to
    [handleError], which reports on stderr. *)
Definition handler_output (h : Handler) (rec : LogRecord) : Event :=
  match format_record (default default_formatter (h_formatter h)) rec with
  | Ret s => EWrite (h_sink h) (s +:+ terminator)
  | Exc _ => EWrite Stderr ("--- Logging error ---" +:+ terminator)
  end.

(** [Logger.callHandlers(record)]: every handler of the visited loggers
    whose level the record reaches; [lastResort] (level [WARNING], bare
    message on stderr) when no handler was found at all. *)
Definition call_handlers (r : Registry) (lr : LoggerRef) (rec : LogRecord) : list Event :=
  match concat (map lg_handlers (visited (chain r lr))) with
  | [] =>
      if (WARNING <=? rec_levelno rec)%Z then [EWrite Stderr (rec_msg rec +:+ terminator)] else []
  | hs =>
      map (fun h => handler_output h rec)
        (filter (fun h => bool_decide (h_level h <= rec_levelno rec)%Z) hs)
  end.

Definition add_events (es : list Event) (w : World) : World := foldl (fun w e => add_event e w) w es.

(** [logger.log(level, msg)], and [logger.info] / [logger.error]. *)
Definition log (lr : LoggerRef) (lvl : Z) (msg : string) (ctx : LogCtx) : pm unit :=
  fun w =>
    let r := w_reg w in
    if is_enabled_for r lr lvl
    then (Ret tt, add_events (call_handlers r lr (mkLogRecord (logger_name lr) lvl msg ctx)) w)
    else (Ret tt, w).

(** ** Configuration operations *)

(** [logging.getLogger(name)]. *)
Definition getLogger (name : PyVal) : pm LoggerRef :=
  if negb (truthy name) then st_ret LRoot
  else match name with
       | VStr n =>
           if bool_decide (n = "root") then st_ret LRoot
           else fun w =>
             let r := w_reg w in
             match reg_loggers r !! n with
             | Some _ => (Ret (LNamed n), w)
             | None =>
                 (Ret (LNamed n),
                  set_reg (mkRegistry (<[n := new_logger]> (reg_loggers r)) (reg_root r)
                             (reg_disable r) (reg_next_id r)) w)
             end
       | _ => st_raise (TypeError "A logger name must be a string")
       end.

(** [Logger.setLevel(level)] for an int level. *)
Definition setLevel (lr : LoggerRef) (lvl : Z) : pm unit :=
  st_modify (fun w => set_reg (update_logger lr
    (fun l => mkLogger lvl (lg_handlers l) (lg_propagate l) (lg_disabled l)) (w_reg w)) w).

(** [Logger.addHandler(hdlr)]: [if not (hdlr in self.handlers)], where
    [in] compares handler objects by identity. *)
Definition addHandler (lr : LoggerRef) (h : Handler) : pm unit :=
  st_modify (fun w => set_reg (update_logger lr
    (fun l => if bool_decide (h_id h ∈ map h_id (lg_handlers l)) then l
              else mkLogger (lg_level l) (lg_handlers l ++ [h]) (lg_propagate l) (lg_disabled l))
    (w_reg w)) w).

(** A new handler object writing to [sink], level [NOTSET], no formatter. *)
Definition new_handler (sink : Sink) : pm Handler :=
  fun w =>
    let r := w_reg w in
    (Ret (mkHandler (reg_next_id r) sink NOTSET None),
     set_reg (mkRegistry (reg_loggers r) (reg_root r) (reg_disable r) (S (reg_next_id r))) w).

(** [logging.StreamHandler()]: writes to [sys.stderr]. *)
Definition StreamHandler : pm Handler := new_handler Stderr.

(** [logging.FileHandler(filename, mode="a")]: [os.fspath] of the name,
    then the file is opened at once; an [OSError] of the open propagates
    before the handler exists. *)
Definition FileHandler (filename : PyVal) : pm Handler :=
  match filename with
  | VStr p =>
      fun w =>
        match w_open w p with
        | Some e => (Exc e, w)
        | None => new_handler (LogFile p) (add_event (EOpen p) w)
        end
  | v => st_raise (TypeError ("expected str, bytes or os.PathLike object, not "
                               +:+ py_type_name v))
  end.

(** [Handler.setLevel] and [Handler.setFormatter] on a handler that no
    logger holds yet. *)
Definition handler_setLevel (h : Handler) (lvl : Z) : Handler :=
  mkHandler (h_id h) (h_sink h) lvl (h_formatter h).

Definition handler_setFormatter (h : Handler) (f : Formatter) : Handler :=
  mkHandler (h_id h) (h_sink h) (h_level h) (Some f).

(** [logging.Formatter(fmt, datefmt)]: [PercentStyle.validate] raises
    [ValueError] when the template has no field. *)
Definition make_Formatter (fmt : string) (datefmt : option string) : pm Formatter :=
  if percent_validate fmt then st_ret (mkFormatter fmt datefmt)
  else st_raise (ValueError ("Invalid format '" +:+ fmt +:+ "' for '%' style")).

(** ** Registry well-formedness *)

(** Every handler a logger holds was created before (its identity is
    below the counter), and no logger holds the same handler twice. *)
Definition logger_wf (next : nat) (l : Logger) : Prop :=
  Forall (fun h => h_id h < next) (lg_handlers l) ∧ NoDup (map h_id (lg_handlers l)).

Definition reg_wf (r : Registry) : Prop :=
  map_Forall (fun _ => logger_wf (reg_next_id r)) (reg_loggers r)
  ∧ logger_wf (reg_next_id r) (reg_root r).

(** [Manager.getLogger] registering a name. *)
Definition ensure_logger (n : string) (r : Registry) : Registry :=
  match reg_loggers r !! n with
  | Some _ => r
  | None => mkRegistry (<[n := new_logger]> (reg_loggers r)) (reg_root r)
              (reg_disable r) (reg_next_id r)
  end.

Definition bump (r : Registry) : Registry :=
  mkRegistry (reg_loggers r) (reg_root r) (reg_disable r) (S (reg_next_id r)).

Definition set_level (lvl : Z) (l : Logger) : Logger :=
  mkLogger lvl (lg_handlers l) (lg_propagate l) (lg_disabled l).

Definition push_handler (h : Handler) (l : Logger) : Logger :=
  mkLogger (lg_level l) (lg_handlers l ++ [h]) (lg_propagate l) (lg_disabled l).

(** ** Lemmas on the registry *)

Lemma logger_wf_new next : logger_wf next new_logger.
Proof. split; constructor. Qed.

Lemma logger_wf_mono n m l : n <= m -> logger_wf n l -> logger_wf m l.
Proof. intros Hle [Hf Hn]. split; [|done]. eapply Forall_impl; [done|]. simpl. lia. Qed.

#[export] Hint Resolve logger_wf_new logger_wf_mono : py.

Lemma reg_wf_logger_of r lr : reg_wf r -> logger_wf (reg_next_id r) (logger_of r lr).
Proof.
  intros [Hm Hr]. destruct lr as [|n]; simpl; [done|]. unfold find_logger.
  destruct (reg_loggers r !! n) eqn:E; simpl; [|apply logger_wf_new].
  by apply (Hm n).
Qed.

Lemma reg_wf_update r lr f :
  reg_wf r -> logger_wf (reg_next_id r) (f (logger_of r lr)) ->
  reg_wf (update_logger lr f r).
Proof.
  intros [Hm Hr] Hf. destruct lr as [|n]; split; simpl in *; try done.
  apply map_Forall_insert_2; done.
Qed.

Lemma reg_wf_ensure n r : reg_wf r -> reg_wf (ensure_logger n r).
Proof.
  intros [Hm Hr]. unfold ensure_logger. destruct (reg_loggers r !! n); [by split|].
  split; simpl; [|done]. apply map_Forall_insert_2; [apply logger_wf_new|done].
Qed.

Lemma reg_wf_bump r : reg_wf r -> reg_wf (bump r).
Proof.
  intros [Hm Hr]. split; simpl.
  - eapply map_Forall_impl; [done|]. intros ??. apply logger_wf_mono. lia.
  - eapply logger_wf_mono; [|done]. lia.
Qed.

Lemma logger_wf_set_level next lvl l : logger_wf next l -> logger_wf next (set_level lvl l).
Proof. done. Qed.

Lemma logger_wf_push next h l :
  h_id h < next -> h_id h ∉ map h_id (lg_handlers l) -> logger_wf next l ->
  logger_wf next (push_handler h l).
Proof.
  intros Hlt Hnin [Hf Hn]. split; simpl.
  - apply Forall_app. split; [done|]. by constructor.
  - rewrite map_app. apply NoDup_app. split; [done|]. split; [|apply NoDup_singleton].
    intros x Hx Hy. apply list_elem_of_singleton in Hy. subst. done.
Qed.

#[export] Hint Resolve reg_wf_logger_of reg_wf_update reg_wf_ensure reg_wf_bump
  logger_wf_set_level logger_wf_push : py.

(** A fresh handler identity is not among the handlers of a well-formed
    registry. *)
Lemma fresh_id_notin r lr :
  reg_wf r -> reg_next_id r ∉ map h_id (lg_handlers (logger_of r lr)).
Proof.
  intros Hwf Hin. destruct (reg_wf_logger_of r lr Hwf) as [Hf _].
  rewrite list_elem_of_In, in_map_iff in Hin. destruct Hin as (h & Hid & Hh).
  rewrite Forall_forall in Hf. apply list_elem_of_In in Hh. specialize (Hf h Hh). lia.
Qed.

(** ** Running the primitives *)

Lemma set_reg_reg r w : w_reg (set_reg r w) = r.
Proof. done. Qed.

Lemma set_reg_set_reg r1 r2 w : set_reg r2 (set_reg r1 w) = set_reg r2 w.
Proof. done. Qed.

Lemma set_reg_trace r w : w_trace (set_reg r w) = w_trace w.
Proof. done. Qed.

#[export] Hint Rewrite set_reg_reg set_reg_set_reg set_reg_trace : pyrw.

Lemma getLogger_str n w :
  n ≠ "" -> n ≠ "root" ->
  getLogger (VStr n) w = (Ret (LNamed n), set_reg (ensure_logger n (w_reg w)) w).
Proof.
  intros H1 H2. unfold getLogger, ensure_logger. simpl.
  destruct (String.eqb_spec n ""); [done|]. simpl.
  rewrite bool_decide_false by done.
  destruct (reg_loggers (w_reg w) !! n); [|done]. by destruct w.
Qed.

Lemma getLogger_nonstr v w :
  truthy v = true -> (forall n, v ≠ VStr n) ->
  getLogger v w = (Exc (TypeError "A logger name must be a string"), w).
Proof.
  intros Ht Hs. unfold getLogger. rewrite Ht. simpl.
  destruct v; try done. by destruct (Hs s).
Qed.

(** [getLogger] touches only the registry, and the one exception it
    raises is the [TypeError] of a name that is not a string. *)
Lemma getLogger_result v w o w' :
  getLogger v w = (o, w') ->
  w_open w' = w_open w ∧ ∀ e, o = Exc e -> e = TypeError "A logger name must be a string".
Proof.
  unfold getLogger. destruct (truthy v); cbn [negb].
  - destruct v; try (intros [= <- <-]; split; [done|by intros ? [= <-]]).
    case_bool_decide; [intros [= <- <-]; split; [done|by intros ? [=]]|].
    destruct (reg_loggers _ !! _); intros [= <- <-]; split; try done; by intros ? [=].
  - intros [= <- <-]. split; [done|by intros ? [=]].
Qed.

Lemma setLevel_run lr lvl w :
  setLevel lr lvl w = (Ret tt, set_reg (update_logger lr (set_level lvl) (w_reg w)) w).
Proof. done. Qed.

Lemma StreamHandler_run w :
  StreamHandler w = (Ret (mkHandler (reg_next_id (w_reg w)) Stderr NOTSET None),
                     set_reg (bump (w_reg w)) w).
Proof. done. Qed.

Lemma FileHandler_run p w :
  w_open w p = None ->
  FileHandler (VStr p) w = (Ret (mkHandler (reg_next_id (w_reg w)) (LogFile p) NOTSET None),
                            set_reg (bump (w_reg w)) (add_event (EOpen p) w)).
Proof. intros H. unfold FileHandler. by rewrite H. Qed.

Lemma FileHandler_fail p w e :
  w_open w p = Some e -> FileHandler (VStr p) w = (Exc e, w).
Proof. intros H. unfold FileHandler. by rewrite H. Qed.

Lemma addHandler_fresh lr h w :
  h_id h ∉ map h_id (lg_handlers (logger_of (w_reg w) lr)) ->
  addHandler lr h w = (Ret tt, set_reg (update_logger lr (push_handler h) (w_reg w)) w).
Proof.
  intros Hn. unfold addHandler, st_modify.
  destruct lr as [|n]; simpl in *; rewrite bool_decide_false; done.
Qed.

Lemma make_Formatter_ok fmt d w :
  percent_validate fmt = true -> make_Formatter fmt d w = (Ret (mkFormatter fmt d), w).
Proof. intros H. unfold make_Formatter. by rewrite H. Qed.

(** The primitives keep the registry well-formed. *)
Lemma getLogger_wf v w o w' :
  reg_wf (w_reg w) -> getLogger v w = (o, w') -> reg_wf (w_reg w').
Proof.
  intros Hwf. unfold getLogger, st_ret, st_raise.
  destruct (truthy v); simpl; [|by intros [= <- <-]].
  destruct v; try by intros [= <- <-].
  case_bool_decide; [by intros [= <- <-]|].
  destruct (reg_loggers (w_reg w) !! s) eqn:E; intros [= <- <-]; [done|].
  simpl. pose proof (reg_wf_ensure s _ Hwf) as Hens. unfold ensure_logger in Hens.
  by rewrite E in Hens.
Qed.

(** ** The hierarchy walk terminates *)

Lemma dot_positions_bound i s p :
  p ∈ dot_positions_from i s -> i <= p < i + String.length s.
Proof.
  revert i. induction s as [|c s IH]; intros i Hp; simpl in *.
  - by apply not_elem_of_nil in Hp.
  - apply elem_of_app in Hp as [Hp|Hp].
    + case_bool_decide; [apply list_elem_of_singleton in Hp; lia|].
      by apply not_elem_of_nil in Hp.
    + apply IH in Hp. lia.
Qed.

Lemma rfind_dot_bound s e p : rfind_dot s e = Some p -> p < String.length s.
Proof.
  unfold rfind_dot. intros H. apply last_Some_elem_of in H.
  apply list_elem_of_filter in H as [_ H]. apply dot_positions_bound in H. lia.
Qed.

Lemma length_substring0 p s :
  p <= String.length s -> String.length (String.substring 0 p s) = p.
Proof.
  revert p. induction s as [|c s IH]; intros [|p] Hp; simpl in *; try lia.
  rewrite IH; lia.
Qed.

Lemma prefix_chain_shorter f s i a :
  (forall p, i = Some p -> p < String.length s) ->
  a ∈ prefix_chain f s i -> String.length a < String.length s.
Proof.
  revert i. induction f as [|f IH]; intros i Hi Ha; simpl in Ha.
  - by apply not_elem_of_nil in Ha.
  - destruct i as [p|]; [|by apply not_elem_of_nil in Ha].
    specialize (Hi p eq_refl). case_bool_decide; [|by apply not_elem_of_nil in Ha].
    apply elem_of_cons in Ha as [->|Ha].
    + rewrite length_substring0; lia.
    + eapply IH; [|done]. intros q Hq. by eapply rfind_dot_bound.
Qed.

(** Every ancestor name is a proper prefix, hence shorter. *)
Lemma ancestor_names_shorter s a :
  a ∈ ancestor_names s -> String.length a < String.length s.
Proof.
  apply prefix_chain_shorter. intros p Hp. by eapply rfind_dot_bound.
Qed.

Lemma parent_of_shorter r n a :
  parent_of r n = LNamed a -> String.length a < String.length n.
Proof.
  unfold parent_of. destruct (List.find _ _) as [b|] eqn:E; [|done].
  intros [= <-]. apply find_some in E as [Hin _].
  apply ancestor_names_shorter, list_elem_of_In, Hin.
Qed.

(** With no ancestor registered, the parent is the root. *)
Lemma parent_of_none r n :
  (forall a, a ∈ ancestor_names n -> reg_loggers r !! a = None) -> parent_of r n = LRoot.
Proof.
  intros H. unfold parent_of. destruct (List.find _ _) as [b|] eqn:E; [|done].
  apply find_some in E as [Hin Hb]. apply list_elem_of_In, H in Hin.
  rewrite Hin in Hb. by apply bool_decide_eq_true in Hb as [? ?].
Qed.

(** A name without dots. *)
Definition no_dot (s : string) : bool :=
  forallb (fun c => negb (bool_decide (c = "."%char))) (String.list_ascii_of_string s).

Lemma dot_positions_from_app i a b :
  dot_positions_from i (a +:+ b)
  = dot_positions_from i a ++ dot_positions_from (i + String.length a) b.
Proof.
  revert i. induction a as [|c a IH]; intros i; simpl.
  - by rewrite Nat.add_0_r.
  - rewrite IH, app_assoc. by replace (S i + String.length a) with (i + S (String.length a)) by lia.
Qed.

Lemma dot_positions_no_dot i m : no_dot m = true -> dot_positions_from i m = [].
Proof.
  revert i. induction m as [|c m IH]; intros i Hm; [done|].
  unfold no_dot in Hm. simpl in Hm. apply andb_true_iff in Hm as [Hc Hm].
  simpl. rewrite bool_decide_false by (by apply negb_true_iff, bool_decide_eq_false in Hc).
  by apply IH.
Qed.

Lemma substring0_app n r : String.substring 0 (String.length n) (n +:+ r) = n.
Proof. induction n as [|c n IH]; [by destruct r|]. simpl. by rewrite IH. Qed.

Lemma no_dot_child n m : no_dot (n +:+ String "." m) = false.
Proof. induction n as [|c n IH]; [done|]. unfold no_dot in *. simpl. by rewrite IH, andb_false_r. Qed.

(** The parent of [n.m], for a name [m] without dots, is [n] once [n] is
    registered. *)
Lemma parent_of_child r n m :
  n ≠ "" -> no_dot m = true -> is_Some (reg_loggers r !! n) ->
  parent_of r (n +:+ String "." m) = LNamed n.
Proof.
  intros Hn Hm Hreg. unfold parent_of, ancestor_names.
  assert (Hr : rfind_dot (n +:+ String "." m) (String.length (n +:+ String "." m))
               = Some (String.length n)).
  { unfold rfind_dot. rewrite dot_positions_from_app. simpl.
    rewrite (dot_positions_no_dot _ m Hm).
    rewrite filter_app, filter_cons_True, filter_nil.
    - by rewrite last_snoc.
    - apply bool_decide_pack. rewrite length_append_str. simpl. lia. }
  rewrite Hr. rewrite length_append_str. simpl.
  replace (String.length n + S (String.length m)) with (S (String.length n + String.length m)) by lia.
  simpl. destruct n as [|c n']; [done|]. cbn [String.length].
  rewrite bool_decide_true by lia.
  change (String.substring 0 (S (String.length n')) (String c n' +:+ String "." m))
    with (String.substring 0 (String.length (String c n')) (String c n' +:+ String "." m)).
  rewrite substring0_app. cbn [List.find]. by rewrite bool_decide_true.
Qed.

Lemma chain_from_last f r lr :
  S (ref_length lr) < f -> last (chain_from f r lr) = Some (reg_root r).
Proof.
  revert lr. induction f as [|f IH]; intros lr Hf; [lia|].
  destruct lr as [|n]; simpl; [done|].
  destruct (parent_of r n) as [|a] eqn:Ep.
  - destruct f; [simpl in Hf; lia|]. done.
  - pose proof (parent_of_shorter r n a Ep). rewrite <- Ep.
    assert (S (ref_length (parent_of r n)) < f) as Hlt by (rewrite Ep; simpl in *; lia).
    specialize (IH _ Hlt). destruct (chain_from f r (parent_of r n)); [done|].
    rewrite last_cons. by rewrite IH.
Qed.

(** ** Specifications of the primitives *)

Definition wf_world (w : World) : Prop := reg_wf (w_reg w).

(** A handler object no logger holds yet. *)
Definition fresh_handler (h : Handler) (w : World) : Prop :=
  h_id h < reg_next_id (w_reg w)
  ∧ forall lr, h_id h ∉ map h_id (lg_handlers (logger_of (w_reg w) lr)).

Lemma getLogger_spec v :
  hoare wf_world (getLogger v) (fun _ => wf_world) (fun _ => wf_world).
Proof.
  intros w Hw. pose proof (getLogger_wf v w) as H.
  destruct (getLogger v w) as [[a|e] w'] eqn:E; eapply H; eauto.
Qed.

Lemma setLevel_spec lr lvl :
  hoare wf_world (setLevel lr lvl) (fun _ => wf_world) (fun _ => wf_world).
Proof.
  intros w Hw. rewrite setLevel_run. unfold wf_world. simpl.
  eauto with py.
Qed.

Lemma new_handler_spec sink :
  hoare wf_world (new_handler sink)
    (fun h w => wf_world w ∧ fresh_handler h w ∧ h_sink h = sink) (fun _ => wf_world).
Proof.
  intros w Hw. unfold new_handler. simpl. split; [by apply reg_wf_bump|].
  split; [|done]. split; [simpl; lia|]. intros lr. apply (fresh_id_notin _ lr Hw).
Qed.

Lemma StreamHandler_spec :
  hoare wf_world StreamHandler
    (fun h w => wf_world w ∧ fresh_handler h w ∧ h_sink h = Stderr) (fun _ => wf_world).
Proof. apply new_handler_spec. Qed.

Lemma FileHandler_spec v :
  hoare wf_world (FileHandler v) (fun h w => wf_world w ∧ fresh_handler h w) (fun _ => wf_world).
Proof.
  intros w Hw. unfold FileHandler. destruct v; try done.
  destruct (w_open w s); [done|].
  pose proof (new_handler_spec (LogFile s) (add_event (EOpen s) w) Hw) as H.
  destruct (new_handler _ _) as [[h|e] w']; [|done]. destruct H as (? & ? & _). by split.
Qed.

Lemma addHandler_spec lr h :
  hoare (fun w => wf_world w ∧ fresh_handler h w) (addHandler lr h)
    (fun _ => wf_world) (fun _ => wf_world).
Proof.
  intros w [Hw [Hlt Hfr]]. rewrite addHandler_fresh by apply Hfr.
  apply reg_wf_update; [done|]. apply logger_wf_push; auto using reg_wf_logger_of.
Qed.

Lemma make_Formatter_spec (P : World -> Prop) (E : PyExc -> World -> Prop) fmt d :
  (forall e w, P w -> E e w) -> hoare P (make_Formatter fmt d) (fun _ => P) E.
Proof.
  intros HE w Hw. unfold make_Formatter, st_ret, st_raise.
  destruct (percent_validate fmt); simpl; auto.
Qed.

(** Logging a message changes nothing but the trace. *)
Lemma add_events_reg es w : w_reg (add_events es w) = w_reg w.
Proof.
  unfold add_events. revert w. induction es as [|e es IH]; intros w; [done|].
  simpl. by rewrite IH.
Qed.

Lemma add_events_trace es w : w_trace (add_events es w) = w_trace w ++ es.
Proof.
  unfold add_events. revert w. induction es as [|e es IH]; intros w; simpl.
  - by rewrite app_nil_r.
  - rewrite IH. simpl. by rewrite <- app_assoc.
Qed.

#[export] Hint Rewrite add_events_reg add_events_trace : pyrw.

Lemma log_spec (P : Registry -> Prop) lr lvl msg ctx :
  hoare (fun w => P (w_reg w)) (log lr lvl msg ctx)
    (fun _ w => P (w_reg w)) (fun _ w => P (w_reg w)).
Proof.
  intros w Hw. unfold log. destruct (is_enabled_for _ _ _); [|done].
  by rewrite add_events_reg.
Qed.

(** ** Theorems *)

(** The walk from a logger to its parents ([getEffectiveLevel],
    [callHandlers]) ends at the root logger within the fuel [chain]
    gives it, for every registry and every logger: parents have strictly
    shorter names. *)
Theorem chain_reaches_root r lr : last (chain r lr) = Some (reg_root r).
Proof. apply chain_from_last. lia. Qed.

Lemma logger_of_bump r lr : logger_of (bump r) lr = logger_of r lr.
Proof. by destruct lr. Qed.

#[export] Hint Rewrite logger_of_bump : pyrw.

(** The identity [new_handler] hands out is fresh for the registry it
    bumps. *)
Lemma fresh_after_bump r lr :
  reg_wf r -> reg_next_id r ∉ map h_id (lg_handlers (logger_of (bump r) lr)).
Proof. rewrite logger_of_bump. apply fresh_id_notin. Qed.

(** ** What a log call writes *)

Definition emitted (r : Registry) (lr : LoggerRef) (lvl : Z) (msg : string) (ctx : LogCtx)
    : list Event :=
  if is_enabled_for r lr lvl
  then call_handlers r lr (mkLogRecord (logger_name lr) lvl msg ctx) else [].

Lemma log_run lr lvl msg ctx w :
  log lr lvl msg ctx w = (Ret tt, add_events (emitted (w_reg w) lr lvl msg ctx) w).
Proof. unfold log, emitted. by destruct (is_enabled_for _ _ _). Qed.

(** A registry holding one named logger [l] and a root without handlers:
    the walk is [l] then the root, and the handlers of [l] decide. *)
Lemma emitted_single r n l lvl msg ctx :
  reg_loggers r = {[n := l]} -> lg_handlers (reg_root r) = [] ->
  lg_handlers l ≠ [] -> lg_level l ≠ NOTSET ->
  emitted r (LNamed n) lvl msg ctx =
  if negb (lg_disabled l) && negb (lvl <=? reg_disable r)%Z && (lg_level l <=? lvl)%Z
  then map (fun h => handler_output h (mkLogRecord n lvl msg ctx))
         (filter (fun h => bool_decide (h_level h <= lvl)%Z) (lg_handlers l))
  else [].
Proof.
  intros Hr Hroot Hhs Hlvl.
  assert (Hl : logger_of r (LNamed n) = l)
    by (simpl; unfold find_logger; rewrite Hr, lookup_singleton_eq; reflexivity).
  assert (Hp : parent_of r n = LRoot).
  { apply parent_of_none. intros a Ha. rewrite Hr. apply lookup_singleton_ne.
    intros ->. apply ancestor_names_shorter in Ha. lia. }
  assert (Hc : chain r (LNamed n) = [l; reg_root r]).
  { unfold chain. simpl. rewrite Hp. unfold find_logger.
    rewrite Hr, lookup_singleton_eq. reflexivity. }
  unfold emitted, is_enabled_for, effective_level, call_handlers.
  rewrite Hc, Hl. simpl. apply Z.eqb_neq in Hlvl. rewrite Hlvl. simpl.
  destruct (negb _ && _ && _); [|done].
  destruct (lg_propagate l), (lg_propagate (reg_root r)); simpl;
    rewrite ?Hroot, ?app_nil_r; destruct (lg_handlers l); done.
Qed.

(** A registry holding [n] and its child [n.m], and a root without
    handlers: the walk is the child, [n], then the root, and the record
    reaches the handlers of both loggers. *)
Lemma emitted_child r n m l1 l2 lvl msg ctx :
  n ≠ "" -> no_dot m = true ->
  reg_loggers r = <[n +:+ String "." m := l2]> {[n := l1]} ->
  lg_handlers (reg_root r) = [] -> lg_handlers l2 ≠ [] ->
  lg_propagate l2 = true -> lg_propagate l1 = true -> lg_level l2 ≠ NOTSET ->
  emitted r (LNamed (n +:+ String "." m)) lvl msg ctx =
  if negb (lg_disabled l2) && negb (lvl <=? reg_disable r)%Z && (lg_level l2 <=? lvl)%Z
  then map (fun h => handler_output h (mkLogRecord (n +:+ String "." m) lvl msg ctx))
         (filter (fun h => bool_decide (h_level h <= lvl)%Z) (lg_handlers l2 ++ lg_handlers l1))
  else [].
Proof.
  intros Hn Hm Hr Hroot Hhs Hp2 Hp1 Hlvl. remember (n +:+ String "." m) as child eqn:Ech.
  assert (Hlen : String.length n < String.length child)
    by (rewrite Ech, length_append_str; simpl; lia).
  assert (Hne : child ≠ n) by (intros E; rewrite E in Hlen; lia).
  assert (Hl2 : logger_of r (LNamed child) = l2)
    by (simpl; unfold find_logger; rewrite Hr, lookup_insert_eq; reflexivity).
  assert (Hl1 : logger_of r (LNamed n) = l1)
    by (simpl; unfold find_logger; rewrite Hr, lookup_insert_ne, lookup_singleton_eq by done;
        reflexivity).
  assert (Hpc : parent_of r child = LNamed n).
  { rewrite Ech. apply parent_of_child; [done|done|]. rewrite Hr, lookup_insert_ne by done.
    rewrite lookup_singleton_eq. by eexists. }
  assert (Hpn : parent_of r n = LRoot).
  { apply parent_of_none. intros a Ha. apply ancestor_names_shorter in Ha.
    rewrite Hr, lookup_insert_ne, lookup_singleton_ne; [done| |]; intros E; rewrite <- E in Ha; lia. }
  assert (Hc : chain r (LNamed child) = [l2; l1; reg_root r]).
  { unfold chain. simpl ref_length. destruct (String.length child) as [|k] eqn:E; [lia|].
    cbn [chain_from]. rewrite Hpc. destruct k as [|k]; [destruct n; simpl in *; [done|lia]|].
    cbn [chain_from]. rewrite Hpn, Hl1. simpl in Hl2 |- *. by rewrite Hl2. }
  unfold emitted, is_enabled_for, effective_level, call_handlers.
  rewrite Hc, Hl2. simpl. apply Z.eqb_neq in Hlvl. rewrite Hlvl. simpl.
  destruct (negb _ && _ && _); [|done].
  rewrite Hp2, Hp1. simpl. rewrite Hroot.
  replace (concat (map lg_handlers (if lg_propagate (reg_root r) then [] else []))) with (@nil Handler)
    by (destruct (lg_propagate (reg_root r)); reflexivity).
  rewrite app_nil_r. by destruct (lg_handlers l2).
Qed.

