(* ===== verification/CreateLogger.v ===== *)
(** * [create_logger] (src/thutil/general.py, lines 5-57)

    The function maps the level names and the format name through two
    dicts (falling back to [INFO] and to the ["info"] template), gets the
    logger by name (the module's [__name__] when the name is falsy), sets
    its level, appends a new console handler and, when a log file is
    given, a new file handler with the timestamped template.

    The file holds the translation, the state it leaves (run lemmas), and
    the theorems: the thresholds of both
    handlers, the fallbacks, the formatted lines, the duplicated output
    of repeated calls and the error paths. *)

From S2P Require Import Prelude Strftime PercentFormat Runtime Logging.

(** ** The function *)

(** [level_map] (lines 15-21). *)
Definition level_map : pydict Z :=
  [(VStr "DEBUG", DEBUG); (VStr "INFO", INFO); (VStr "WARNING", WARNING);
   (VStr "ERROR", ERROR); (VStr "CRITICAL", CRITICAL)].

(** [format_map] (lines 22-26). *)
Definition format_map : pydict string :=
  [(VStr "debug", "%(name)s - %(levelname)s: %(message)s | %(funcName)s:%(lineno)d");
   (VStr "info", "%(name)s - %(levelname)s: %(message)s");
   (VStr "file", "%(asctime)s | %(name)s - %(levelname)s: %(message)s")].

(** [__name__] of [thutil/general.py]. *)
Definition module_name : string := "thutil.general".

(** [c_level = level_map.get(level, logging.INFO)] (line 29). *)
Definition c_level_of (level : PyVal) : Z := dict_get level_map level INFO.

(** [f_level = level_map.get(level_logfile, c_level)] (line 30). *)
Definition f_level_of (level level_logfile : PyVal) : Z :=
  dict_get level_map level_logfile (c_level_of level).

(** [format_console = format_map.get(format_, format_map["info"])] (line 33);
    the key ["info"] is present, so the subscript does not raise. *)
Definition format_console_of (format_ : PyVal) : string :=
  dict_get format_map format_ (dict_get format_map (VStr "info") "").

(** [format_file = format_map["file"]] (line 34). *)
Definition format_file : string := dict_get format_map (VStr "file") "".

(** [if not logger_name: logger_name = __name__] (lines 37-38). *)
Definition resolve_name (logger_name : PyVal) : PyVal :=
  if truthy logger_name then logger_name else VStr module_name.

Definition create_logger (logger_name log_file level level_logfile format_ : PyVal)
    : pm LoggerRef :=
  let c_level := c_level_of level in
  let f_level := f_level_of level level_logfile in
  let format_console := format_console_of format_ in
  let* logger := getLogger (resolve_name logger_name) in
  do* setLevel logger c_level;
  let* c_handler := StreamHandler in
  let c_handler := handler_setLevel c_handler c_level in
  let* fmt_c := make_Formatter format_console None in
  do* addHandler logger (handler_setFormatter c_handler fmt_c);
  if truthy log_file then
    let* f_handler := FileHandler log_file in
    let f_handler := handler_setLevel f_handler f_level in
    let* fmt_f := make_Formatter format_file (Some file_datefmt) in
    do* addHandler logger (handler_setFormatter f_handler fmt_f);
    st_ret logger
  else st_ret logger.

(** ** The handlers it builds *)

Definition console_handler (id : nat) (lvl : Z) (fmt : string) : Handler :=
  mkHandler id Stderr lvl (Some (mkFormatter fmt None)).

Definition file_handler (id : nat) (p : string) (lvl : Z) : Handler :=
  mkHandler id (LogFile p) lvl (Some (mkFormatter format_file (Some file_datefmt))).

(** The registry after the console part (lines 41-48) for logger [lr]. *)
Definition reg_after_console (lr : LoggerRef) (c : Z) (fc : string) (r : Registry) : Registry :=
  update_logger lr (push_handler (console_handler (reg_next_id r) c fc))
    (bump (update_logger lr (set_level c) r)).

(** The registry after the file part (lines 51-55). *)
Definition reg_after_file (lr : LoggerRef) (p : string) (f : Z) (r : Registry) : Registry :=
  update_logger lr (push_handler (file_handler (reg_next_id r) p f)) (bump r).

(** ** Lemmas *)

Lemma format_console_valid fmt : percent_validate (format_console_of fmt) = true.
Proof.
  unfold format_console_of, dict_get, format_map.
  by repeat (case_match; try reflexivity).
Qed.

Lemma format_file_valid : percent_validate format_file = true.
Proof. reflexivity. Qed.

(** Every value [level_map.get] can return is a level from [DEBUG] to
    [CRITICAL] when its default is one. *)
Lemma level_map_get_range k (dflt : Z) :
  (DEBUG <= dflt <= CRITICAL)%Z -> (DEBUG <= dict_get level_map k dflt <= CRITICAL)%Z.
Proof.
  intros Hd. destruct (dict_get_cases level_map k dflt) as [->|Hin]; [done|].
  revert Hin. generalize (dict_get level_map k dflt). intros v Hin.
  simpl in Hin. unfold DEBUG, INFO, WARNING, ERROR, CRITICAL in *.
  repeat (destruct Hin as [<-|Hin]; [lia|]). destruct Hin.
Qed.

Lemma c_level_range level : (DEBUG <= c_level_of level <= CRITICAL)%Z.
Proof. apply level_map_get_range. unfold DEBUG, INFO, CRITICAL. lia. Qed.

Lemma reg_after_console_wf lr c fc r : reg_wf r -> reg_wf (reg_after_console lr c fc r).
Proof.
  intros Hr. assert (Hu : reg_wf (update_logger lr (set_level c) r)).
  { eauto with py. }
  unfold reg_after_console. apply reg_wf_update; [by apply reg_wf_bump|].
  apply logger_wf_push.
  - simpl. rewrite update_logger_next. lia.
  - rewrite <- (update_logger_next r lr (set_level c)). by apply fresh_after_bump.
  - by apply reg_wf_logger_of, reg_wf_bump.
Qed.

Lemma reg_after_file_wf lr p f r : reg_wf r -> reg_wf (reg_after_file lr p f r).
Proof.
  intros Hr. unfold reg_after_file. apply reg_wf_update; [by apply reg_wf_bump|].
  apply logger_wf_push.
  - simpl. lia.
  - by apply fresh_after_bump.
  - by apply reg_wf_logger_of, reg_wf_bump.
Qed.

#[export] Hint Resolve reg_after_console_wf reg_after_file_wf : py.

(** ** Theorems *)

(** ** What a call leaves behind *)

Section Run.
Context (ln lf lvl llf fmt : PyVal) (w : World).
Context (Hwf : reg_wf (w_reg w)).

Local Abbreviation c := (c_level_of lvl).
Local Abbreviation f := (f_level_of lvl llf).
Local Abbreviation fc := (format_console_of fmt).

(** The console part, once the logger [lr] is known. *)
Lemma console_part_run lr w1 (k : pm LoggerRef) :
  reg_wf (w_reg w1) ->
  (do* setLevel lr c;
   let* c_handler := StreamHandler in
   let* fmt_c := make_Formatter fc None in
   do* addHandler lr (handler_setFormatter (handler_setLevel c_handler c) fmt_c);
   k) w1
  = k (set_reg (reg_after_console lr c fc (w_reg w1)) w1).
Proof.
  intros Hw1.
  rewrite (bind_Ret _ _ _ _ _ (setLevel_run _ _ _)).
  rewrite (bind_Ret _ _ _ _ _ (StreamHandler_run _)).
  rewrite (bind_Ret _ _ _ _ _ (make_Formatter_ok _ _ _ (format_console_valid fmt))).
  assert (Hfr : reg_next_id (update_logger lr (set_level c) (w_reg w1))
    ∉ map h_id (lg_handlers (logger_of (bump (update_logger lr (set_level c) (w_reg w1))) lr))).
  { apply fresh_after_bump. eauto with py. }
  erewrite bind_Ret by (apply addHandler_fresh; exact Hfr).
  simpl. rewrite update_logger_next. reflexivity.
Qed.

(** The file part (lines 51-55) for a path that opens. *)
Lemma file_part_run lr p w1 :
  reg_wf (w_reg w1) -> w_open w1 p = None ->
  (let* f_handler := FileHandler (VStr p) in
   let* fmt_f := make_Formatter format_file (Some file_datefmt) in
   do* addHandler lr (handler_setFormatter (handler_setLevel f_handler f) fmt_f);
   st_ret lr) w1
  = (Ret lr, set_reg (reg_after_file lr p f (w_reg w1)) (add_event (EOpen p) w1)).
Proof.
  intros Hw1 Hp.
  rewrite (bind_Ret _ _ _ _ _ (FileHandler_run _ _ Hp)).
  rewrite (bind_Ret _ _ _ _ _ (make_Formatter_ok _ _ _ format_file_valid)).
  assert (Hfr : reg_next_id (w_reg w1)
    ∉ map h_id (lg_handlers (logger_of (bump (w_reg w1)) lr))) by
    by apply fresh_after_bump.
  by erewrite bind_Ret by (apply addHandler_fresh; exact Hfr).
Qed.

Context (n : string) (Hn : resolve_name ln = VStr n) (Hroot : n ≠ "root").

Lemma resolve_name_nonempty : n ≠ "".
Proof.
  intros ->. unfold resolve_name in Hn.
  destruct (truthy ln) eqn:Ht; [subst; discriminate|]. discriminate.
Qed.

Local Abbreviation r1 := (ensure_logger n (w_reg w)).

Lemma get_named_logger (k : LoggerRef -> pm LoggerRef) :
  st_bind (getLogger (resolve_name ln)) k w = k (LNamed n) (set_reg r1 w).
Proof.
  rewrite Hn. apply bind_Ret, getLogger_str; [apply resolve_name_nonempty|done].
Qed.

(** Without a log file: the console handler only. *)
Lemma create_logger_run_console :
  truthy lf = false ->
  create_logger ln lf lvl llf fmt w
  = (Ret (LNamed n), set_reg (reg_after_console (LNamed n) c fc r1) w).
Proof.
  intros Hlf. unfold create_logger. cbv beta zeta. rewrite get_named_logger. cbv beta.
  rewrite console_part_run by (simpl; eauto with py).
  by rewrite Hlf.
Qed.

(** With a log file that opens: the console handler, then the file
    handler, and the file is opened. *)
Lemma create_logger_run_file p :
  lf = VStr p -> p ≠ "" -> w_open w p = None ->
  create_logger ln lf lvl llf fmt w
  = (Ret (LNamed n),
     set_reg (reg_after_file (LNamed n) p f (reg_after_console (LNamed n) c fc r1))
       (add_event (EOpen p) w)).
Proof.
  intros -> Hp Hopen. unfold create_logger. cbv beta zeta. rewrite get_named_logger. cbv beta.
  rewrite console_part_run by (simpl; eauto with py).
  replace (truthy (VStr p)) with true by (simpl; by destruct (String.eqb_spec p "")).
  rewrite file_part_run; [done| |done].
  apply reg_after_console_wf. by apply reg_wf_ensure.
Qed.

(** With a log file that does not open: the error propagates after the
    console handler has been attached. *)
Lemma create_logger_run_open_error p e :
  lf = VStr p -> p ≠ "" -> w_open w p = Some e ->
  create_logger ln lf lvl llf fmt w
  = (Exc e, set_reg (reg_after_console (LNamed n) c fc r1) w).
Proof.
  intros -> Hp Hopen. unfold create_logger. cbv beta zeta. rewrite get_named_logger. cbv beta.
  rewrite console_part_run by (simpl; eauto with py).
  replace (truthy (VStr p)) with true by (simpl; by destruct (String.eqb_spec p "")).
  apply bind_Exc. by apply FileHandler_fail.
Qed.
End Run.

(** ** A fresh interpreter *)

Lemma ensure_logger_empty n :
  ensure_logger n empty_registry = mkRegistry {[n := new_logger]} new_root NOTSET 0.
Proof. unfold ensure_logger. simpl. by rewrite lookup_empty. Qed.

Lemma empty_registry_wf : reg_wf empty_registry.
Proof. split; [apply map_Forall_empty|split; constructor]. Qed.

Lemma loggers_update_named n g r :
  reg_loggers (update_logger (LNamed n) g r) = <[n := g (find_logger r n)]> (reg_loggers r).
Proof. done. Qed.

Lemma loggers_bump r : reg_loggers (bump r) = reg_loggers r.
Proof. done. Qed.

Lemma reg_after_console_next lr c fc r :
  reg_next_id (reg_after_console lr c fc r) = S (reg_next_id r).
Proof. unfold reg_after_console. rewrite update_logger_next. simpl. by rewrite update_logger_next. Qed.

Lemma fresh_console_loggers n c fc :
  reg_loggers (reg_after_console (LNamed n) c fc (ensure_logger n empty_registry))
  = {[n := mkLogger c [console_handler 0 c fc] true false]}.
Proof.
  rewrite ensure_logger_empty. simpl. unfold find_logger. simpl.
  rewrite lookup_singleton_eq. simpl. rewrite lookup_insert_eq. simpl.
  by rewrite insert_insert_eq, insert_singleton_eq.
Qed.

Lemma fresh_file_loggers n c fc p f :
  reg_loggers (reg_after_file (LNamed n) p f
    (reg_after_console (LNamed n) c fc (ensure_logger n empty_registry)))
  = {[n := mkLogger c [console_handler 0 c fc; file_handler 1 p f] true false]}.
Proof.
  unfold reg_after_file. rewrite loggers_update_named, reg_after_console_next.
  unfold find_logger. rewrite !loggers_bump, fresh_console_loggers, lookup_singleton_eq.
  simpl. rewrite insert_singleton_eq. rewrite ensure_logger_empty. done.
Qed.

(** C1: on a fresh interpreter, a logger made by [create_logger] without a
    log file writes a message to stderr exactly when its level reaches the
    console level ([level] mapped through [level_map], [INFO] by default),
    once, formatted with the console template. *)
Theorem create_logger_console_threshold ln lf lvl llf fmt w n lr w' L msg ctx :
  w_reg w = empty_registry -> resolve_name ln = VStr n -> n ≠ "root" ->
  truthy lf = false ->
  create_logger ln lf lvl llf fmt w = (Ret lr, w') ->
  emitted (w_reg w') lr L msg ctx =
  if (c_level_of lvl <=? L)%Z
  then [handler_output (console_handler 0 (c_level_of lvl) (format_console_of fmt))
          (mkLogRecord n L msg ctx)]
  else [].
Proof.
  intros Hfresh Hn Hroot Hlf Hrun.
  assert (Hwf : reg_wf (w_reg w)) by (rewrite Hfresh; apply empty_registry_wf).
  rewrite (create_logger_run_console ln lf lvl llf fmt w Hwf n Hn Hroot Hlf) in Hrun.
  injection Hrun as <- <-. simpl. rewrite Hfresh.
  pose proof (c_level_range lvl) as Hc. unfold DEBUG, CRITICAL in Hc.
  rewrite (emitted_single _ _ (mkLogger (c_level_of lvl)
    [console_handler 0 (c_level_of lvl) (format_console_of fmt)] true false));
    [|apply fresh_console_loggers|done|done|simpl; unfold NOTSET; lia].
  simpl. destruct (Z.leb_spec (c_level_of lvl) L); simpl.
  - rewrite ensure_logger_empty. simpl.
    replace (L <=? NOTSET)%Z with false by (symmetry; apply Z.leb_gt; unfold NOTSET; lia).
    rewrite filter_cons_True, filter_nil; [done|]. simpl. by rewrite bool_decide_true.
  - by rewrite andb_false_r.
Qed.

(** C2: on a fresh interpreter, with a log file that opens, a message is
    written to the console when its level reaches the console level, and
    to the file when it reaches both the console level and the file level:
    the logger's own level, set to the console level (line 42), filters
    before the file handler's level is looked at. *)
Theorem create_logger_file_threshold ln p lvl llf fmt w n lr w' L msg ctx :
  w_reg w = empty_registry -> resolve_name ln = VStr n -> n ≠ "root" ->
  p ≠ "" -> w_open w p = None ->
  create_logger ln (VStr p) lvl llf fmt w = (Ret lr, w') ->
  emitted (w_reg w') lr L msg ctx =
  if (c_level_of lvl <=? L)%Z
  then handler_output (console_handler 0 (c_level_of lvl) (format_console_of fmt))
         (mkLogRecord n L msg ctx)
       :: (if (f_level_of lvl llf <=? L)%Z
           then [handler_output (file_handler 1 p (f_level_of lvl llf)) (mkLogRecord n L msg ctx)]
           else [])
  else [].
Proof.
  intros Hfresh Hn Hroot Hp Hopen Hrun.
  assert (Hwf : reg_wf (w_reg w)) by (rewrite Hfresh; apply empty_registry_wf).
  rewrite (create_logger_run_file ln (VStr p) lvl llf fmt w Hwf n Hn Hroot p eq_refl Hp Hopen)
    in Hrun.
  injection Hrun as <- <-. simpl. rewrite Hfresh.
  pose proof (c_level_range lvl) as Hc. unfold DEBUG, CRITICAL in Hc.
  rewrite (emitted_single _ _ (mkLogger (c_level_of lvl)
    [console_handler 0 (c_level_of lvl) (format_console_of fmt);
     file_handler 1 p (f_level_of lvl llf)] true false));
    [|apply fresh_file_loggers|done|done|simpl; unfold NOTSET; lia].
  simpl. destruct (Z.leb_spec (c_level_of lvl) L); simpl.
  - rewrite ensure_logger_empty. simpl.
    replace (L <=? NOTSET)%Z with false by (symmetry; apply Z.leb_gt; unfold NOTSET; lia).
    rewrite filter_cons_True; [|simpl; by rewrite bool_decide_true].
    destruct (Z.leb_spec (f_level_of lvl llf) L).
    + rewrite filter_cons_True, filter_nil; [done|]. simpl. by rewrite bool_decide_true.
    + rewrite filter_cons_False, filter_nil; [done|]. simpl.
      rewrite bool_decide_false by lia. simpl. tauto.
  - by rewrite andb_false_r.
Qed.

(** ** Fallbacks *)

Lemma keys_str_level kv : kv ∈ level_map -> ∃ s, kv.1 = VStr s.
Proof.
  intros Hkv. repeat (apply elem_of_cons in Hkv as [->|Hkv]; [by eexists|]).
  by apply not_elem_of_nil in Hkv.
Qed.

Lemma keys_str_format kv : kv ∈ format_map -> ∃ s, kv.1 = VStr s.
Proof.
  intros Hkv. repeat (apply elem_of_cons in Hkv as [->|Hkv]; [by eexists|]).
  by apply not_elem_of_nil in Hkv.
Qed.

Lemma level_map_unknown v d : v ∉ level_map.*1 -> dict_get level_map v d = d.
Proof.
  intros Hv. apply dict_get_absent; [|apply keys_str_level].
  intros s Hs ->. by apply Hv.
Qed.

Lemma format_map_unknown v d : v ∉ format_map.*1 -> dict_get format_map v d = d.
Proof.
  intros Hv. apply dict_get_absent; [|apply keys_str_format].
  intros s Hs ->. by apply Hv.
Qed.

(** C18: unrecognised names fall back silently: a level that is not one
    of the five names of [level_map] (another string, [None], or an int
    such as [logging.DEBUG]) behaves exactly as ["INFO"]; a format name
    other than ["debug"], ["info"] and ["file"] behaves exactly as
    ["info"]; and an unrecognised file level, [None] by default, is the
    console level. *)
Theorem create_logger_unknown_names ln lf lvl llf fmt w :
  (lvl ∉ level_map.*1 ->
   create_logger ln lf lvl llf fmt w = create_logger ln lf (VStr "INFO") llf fmt w)
  ∧ (fmt ∉ format_map.*1 ->
     create_logger ln lf lvl llf fmt w = create_logger ln lf lvl llf (VStr "info") w)
  ∧ (llf ∉ level_map.*1 -> f_level_of lvl llf = c_level_of lvl).
Proof.
  split; [|split]; intros Hn.
  - unfold create_logger, f_level_of, c_level_of. by rewrite (level_map_unknown lvl INFO Hn).
  - unfold create_logger, format_console_of. by rewrite (format_map_unknown fmt _ Hn).
  - unfold f_level_of. by apply level_map_unknown.
Qed.

(** ** The lines the handlers write *)

(** C20: the console handler writes [name - LEVEL: message] with the
    ["info"] template, and adds [ | function:line] with ["debug"]. *)
Theorem console_line_presets i c rec :
  handler_output (console_handler i c (format_console_of (VStr "info"))) rec
  = EWrite Stderr (rec_name rec +:+ " - " +:+ getLevelName (rec_levelno rec) +:+ ": "
                   +:+ rec_msg rec +:+ terminator)
  ∧ handler_output (console_handler i c (format_console_of (VStr "debug"))) rec
  = EWrite Stderr (rec_name rec +:+ " - " +:+ getLevelName (rec_levelno rec) +:+ ": "
                   +:+ rec_msg rec +:+ " | " +:+ ctx_func (rec_ctx rec) +:+ ":"
                   +:+ pretty (ctx_lineno (rec_ctx rec)) +:+ terminator).
Proof.
  split; unfold handler_output, format_record; simpl; by autorewrite with pyrw.
Qed.

(** C19: the file handler writes the timestamp [YYYY-Mon-DD HH:MM:SS] of
    the record first, whatever console template the call chose. *)
Theorem file_line_timestamp i p f rec :
  handler_output (file_handler i p f) rec
  = EWrite (LogFile p) (formatTime (Some file_datefmt) (ctx_time (rec_ctx rec)) +:+ " | "
                        +:+ rec_name rec +:+ " - " +:+ getLevelName (rec_levelno rec) +:+ ": "
                        +:+ rec_msg rec +:+ terminator).
Proof. unfold handler_output, format_record. simpl. by autorewrite with pyrw. Qed.

(** ** Repeated calls and error paths *)

Lemma ensure_logger_present n r : is_Some (reg_loggers r !! n) -> ensure_logger n r = r.
Proof. intros [l Hl]. unfold ensure_logger. by rewrite Hl. Qed.

Lemma handlers_ensure n r lr :
  lg_handlers (logger_of (ensure_logger n r) lr) = lg_handlers (logger_of r lr).
Proof.
  unfold ensure_logger. destruct (reg_loggers r !! n) eqn:E; [done|].
  destruct lr as [|m]; [done|]. simpl. unfold find_logger. simpl.
  destruct (decide (n = m)) as [->|Hne].
  - by rewrite lookup_insert_eq, E.
  - by rewrite lookup_insert_ne.
Qed.

Lemma root_after_console_named n c fc r :
  reg_root (reg_after_console (LNamed n) c fc r) = reg_root r.
Proof. done. Qed.

Lemma disable_after_console lr c fc r :
  reg_disable (reg_after_console lr c fc r) = reg_disable r.
Proof. unfold reg_after_console. rewrite update_logger_disable. simpl. by rewrite update_logger_disable. Qed.

Lemma logger_after_console lr c fc r :
  logger_of (reg_after_console lr c fc r) lr
  = push_handler (console_handler (reg_next_id r) c fc) (set_level c (logger_of r lr)).
Proof.
  unfold reg_after_console. by rewrite logger_of_update_same, logger_of_bump, logger_of_update_same.
Qed.

Lemma next_ensure n r : reg_next_id (ensure_logger n r) = reg_next_id r.
Proof. unfold ensure_logger. by destruct (reg_loggers r !! n). Qed.

Lemma root_ensure n r : reg_root (ensure_logger n r) = reg_root r.
Proof. unfold ensure_logger. by destruct (reg_loggers r !! n). Qed.

Lemma disable_ensure n r : reg_disable (ensure_logger n r) = reg_disable r.
Proof. unfold ensure_logger. by destruct (reg_loggers r !! n). Qed.

#[export] Hint Rewrite root_after_console_named disable_after_console root_ensure
  disable_ensure : pyrw.

Lemma fresh_twice_loggers n c fc :
  reg_loggers (reg_after_console (LNamed n) c fc
    (ensure_logger n (reg_after_console (LNamed n) c fc (ensure_logger n empty_registry))))
  = {[n := mkLogger c [console_handler 0 c fc; console_handler 1 c fc] true false]}.
Proof.
  rewrite (ensure_logger_present n);
    [|rewrite fresh_console_loggers, lookup_singleton_eq; by eexists].
  unfold reg_after_console at 1. rewrite loggers_update_named, reg_after_console_next.
  unfold find_logger. rewrite loggers_bump, loggers_update_named, lookup_insert_eq.
  unfold find_logger. rewrite fresh_console_loggers, lookup_singleton_eq. simpl.
  rewrite insert_insert_eq, insert_singleton_eq, ensure_logger_empty. done.
Qed.

(** C5: calling [create_logger] twice with the same arguments on a fresh
    interpreter attaches two console handlers to the same logger, so every
    message that passes writes the same line twice. *)
Theorem create_logger_twice_duplicates ln lf lvl llf fmt w n lr1 w1 lr2 w2 L msg ctx :
  w_reg w = empty_registry -> resolve_name ln = VStr n -> n ≠ "root" ->
  truthy lf = false ->
  create_logger ln lf lvl llf fmt w = (Ret lr1, w1) ->
  create_logger ln lf lvl llf fmt w1 = (Ret lr2, w2) ->
  lr2 = lr1 ∧
  emitted (w_reg w2) lr2 L msg ctx =
  if (c_level_of lvl <=? L)%Z
  then let o := handler_output (console_handler 0 (c_level_of lvl) (format_console_of fmt))
                  (mkLogRecord n L msg ctx) in [o; o]
  else [].
Proof.
  intros Hfresh Hn Hroot Hlf Hrun1 Hrun2.
  assert (Hwf : reg_wf (w_reg w)) by (rewrite Hfresh; apply empty_registry_wf).
  rewrite (create_logger_run_console ln lf lvl llf fmt w Hwf n Hn Hroot Hlf) in Hrun1.
  apply pair_equal_spec in Hrun1 as [Hlr1 Hw1]. subst w1.
  rewrite (create_logger_run_console ln lf lvl llf fmt
    (set_reg (reg_after_console (LNamed n) (c_level_of lvl) (format_console_of fmt)
      (ensure_logger n (w_reg w))) w)
    (reg_after_console_wf _ _ _ _ (reg_wf_ensure _ _ Hwf)) n Hn Hroot Hlf) in Hrun2.
  apply pair_equal_spec in Hrun2 as [Hlr2 Hw2]. subst w2.
  injection Hlr1 as <-. injection Hlr2 as <-. split; [done|].
  rewrite !set_reg_reg, Hfresh.
  pose proof (c_level_range lvl) as Hc. unfold DEBUG, CRITICAL in Hc.
  rewrite (emitted_single _ _ (mkLogger (c_level_of lvl)
    [console_handler 0 (c_level_of lvl) (format_console_of fmt);
     console_handler 1 (c_level_of lvl) (format_console_of fmt)] true false));
    [|apply fresh_twice_loggers|by autorewrite with pyrw|done|simpl; unfold NOTSET; lia].
  autorewrite with pyrw. simpl. destruct (Z.leb_spec (c_level_of lvl) L); simpl.
  - replace (L <=? NOTSET)%Z with false by (symmetry; apply Z.leb_gt; unfold NOTSET; lia).
    rewrite !filter_cons_True, filter_nil; [done|..]; simpl; by rewrite bool_decide_true.
  - by rewrite andb_false_r.
Qed.

(** C29: a truthy logger name that is not a string raises [TypeError]
    from [logging.getLogger] before anything is changed. *)
Theorem create_logger_name_type_error ln lf lvl llf fmt w :
  truthy ln = true -> (forall s, ln ≠ VStr s) ->
  create_logger ln lf lvl llf fmt w = (Exc (TypeError "A logger name must be a string"), w).
Proof.
  intros Ht Hs. unfold create_logger. cbv beta zeta. unfold resolve_name. rewrite Ht.
  apply bind_Exc. by apply getLogger_nonstr.
Qed.

(** C30: whatever the level and format names, [create_logger] raises
    only the [TypeError] of a logger name that is not a string, the error
    of opening the log file, or the [TypeError] of a log file that is not
    a path: every template it can pick from [format_map] passes the
    validation of [logging.Formatter], so it never raises the
    [ValueError] of an invalid format. *)
Theorem create_logger_raises ln lf lvl llf fmt w e w' :
  create_logger ln lf lvl llf fmt w = (Exc e, w') ->
  e = TypeError "A logger name must be a string"
  ∨ (∃ p, lf = VStr p ∧ w_open w p = Some e)
  ∨ e = TypeError ("expected str, bytes or os.PathLike object, not " +:+ py_type_name lf).
Proof.
  unfold create_logger. cbv beta zeta.
  destruct (getLogger (resolve_name ln) w) as [[lr|e1] w1] eqn:Hg;
    destruct (getLogger_result _ _ _ _ Hg) as [Ho He].
  2:{ rewrite (bind_Exc _ _ _ _ _ Hg). intros [= <- _]. left. by apply He. }
  rewrite (bind_Ret _ _ _ _ _ Hg).
  unfold setLevel, st_modify, StreamHandler, new_handler, make_Formatter, addHandler.
  rewrite format_console_valid, format_file_valid.
  unfold st_bind, st_ret, st_raise. cbn.
  destruct (truthy lf); [|done].
  unfold FileHandler. destruct lf as [| | |p|]; cbn; try (intros [= <- _]; by right; right).
  destruct (w_open w1 p) as [e2|] eqn:Hop; cbn; [|done].
  intros [= <- _]. right. left. exists p. by rewrite <- Ho.
Qed.

(** C28: when the log file cannot be opened, the open error propagates,
    but the logger level is set and the console handler stays attached;
    the file is not recorded as opened. *)
Theorem create_logger_open_error ln p lvl llf fmt w n e :
  reg_wf (w_reg w) -> resolve_name ln = VStr n -> n ≠ "root" -> p ≠ "" ->
  w_open w p = Some e ->
  exists w', create_logger ln (VStr p) lvl llf fmt w = (Exc e, w')
  ∧ w_trace w' = w_trace w
  ∧ lg_level (logger_of (w_reg w') (LNamed n)) = c_level_of lvl
  ∧ lg_handlers (logger_of (w_reg w') (LNamed n))
    = lg_handlers (logger_of (w_reg w) (LNamed n))
      ++ [console_handler (reg_next_id (w_reg w)) (c_level_of lvl) (format_console_of fmt)].
Proof.
  intros Hwf Hn Hroot Hp Hopen. eexists. split.
  { apply (create_logger_run_open_error ln (VStr p) lvl llf fmt w Hwf n Hn Hroot p e);
      done. }
  rewrite set_reg_trace, set_reg_reg, logger_after_console, next_ensure.
  split; [done|]. split; [done|]. unfold push_handler. cbn [lg_handlers set_level].
  by rewrite handlers_ensure.
Qed.

(** C31: without a logger name (or with an empty one) the logger
    configured is the module's own, ["thutil.general"], not the caller's. *)
Theorem create_logger_default_name ln lf lvl llf fmt w :
  reg_wf (w_reg w) -> truthy ln = false -> truthy lf = false ->
  fst (create_logger ln lf lvl llf fmt w) = Ret (LNamed "thutil.general").
Proof.
  intros Hwf Hln Hlf.
  rewrite (create_logger_run_console ln lf lvl llf fmt w Hwf module_name); [done| |done|done].
  unfold resolve_name. by rewrite Hln.
Qed.

(** C32: [logger_name="root"] configures the root logger itself:
    [logging.getLogger("root")] returns it, so its level is set and the
    console handler is appended to the handlers every logger of the
    process propagates to. *)
Theorem create_logger_root_name lvl llf fmt w :
  reg_wf (w_reg w) ->
  create_logger (VStr "root") VNone lvl llf fmt w
  = (Ret LRoot,
     set_reg (reg_after_console LRoot (c_level_of lvl) (format_console_of fmt) (w_reg w)) w).
Proof.
  intros Hw. unfold create_logger. cbv beta zeta.
  change (getLogger (resolve_name (VStr "root"))) with (@st_ret World _ LRoot).
  rewrite bind_ret_l. by rewrite console_part_run.
Qed.

(** The loggers after the console part for a name not registered yet. *)
Lemma console_loggers_new m c fc r :
  reg_loggers r !! m = None ->
  reg_loggers (reg_after_console (LNamed m) c fc (ensure_logger m r))
  = <[m := mkLogger c [console_handler (reg_next_id r) c fc] true false]> (reg_loggers r).
Proof.
  intros Hm. unfold ensure_logger. rewrite Hm.
  unfold reg_after_console, update_logger, bump, find_logger. cbn [reg_loggers reg_next_id].
  rewrite !lookup_insert_eq. cbn [default]. by rewrite !insert_insert_eq.
Qed.

(** The registry after [create_logger(n)] and then [create_logger(n.m)]
    on a fresh interpreter. *)
Lemma create_logger_child_run n m lvl1 fmt1 lvl2 fmt2 w lr1 w1 lr2 w2 :
  w_reg w = empty_registry -> n ≠ "" -> n ≠ "root" -> no_dot m = true ->
  create_logger (VStr n) VNone lvl1 VNone fmt1 w = (Ret lr1, w1) ->
  create_logger (VStr (n +:+ String "." m)) VNone lvl2 VNone fmt2 w1 = (Ret lr2, w2) ->
  lr2 = LNamed (n +:+ String "." m) ∧
  w_reg w2 = reg_after_console (LNamed (n +:+ String "." m)) (c_level_of lvl2) (format_console_of fmt2)
               (ensure_logger (n +:+ String "." m)
                  (reg_after_console (LNamed n) (c_level_of lvl1) (format_console_of fmt1)
                     (ensure_logger n empty_registry))).
Proof.
  intros Hfresh Hn Hroot Hm Hrun1 Hrun2.
  assert (Hwf : reg_wf (w_reg w)) by (rewrite Hfresh; apply empty_registry_wf).
  assert (Hname : ∀ s, s ≠ "" -> resolve_name (VStr s) = VStr s)
    by (intros s Hs; unfold resolve_name; simpl; by destruct (String.eqb_spec s "")).
  rewrite (create_logger_run_console (VStr n) VNone lvl1 VNone fmt1 w Hwf n (Hname n Hn) Hroot eq_refl)
    in Hrun1.
  apply pair_equal_spec in Hrun1 as [Hlr1 Hw1]. subst w1. rewrite Hfresh in Hrun2.
  assert (Hwf1 : reg_wf (w_reg (set_reg (reg_after_console (LNamed n) (c_level_of lvl1)
                   (format_console_of fmt1) (ensure_logger n empty_registry)) w)))
    by (apply reg_after_console_wf, reg_wf_ensure, empty_registry_wf).
  assert (Hchild : n +:+ String "." m ≠ "root")
    by (intros E; pose proof (no_dot_child n m) as D; by rewrite E in D).
  assert (Hcn : n +:+ String "." m ≠ "")
    by (intros E; apply (f_equal String.length) in E; rewrite length_append_str in E; simpl in E; lia).
  rewrite (create_logger_run_console (VStr (n +:+ String "." m)) VNone lvl2 VNone fmt2 _ Hwf1 _
             (Hname _ Hcn) Hchild eq_refl) in Hrun2.
  apply pair_equal_spec in Hrun2 as [Hlr2 Hw2]. subst w2. injection Hlr2 as <-.
  split; [done|]. by rewrite !set_reg_reg.
Qed.

(** C17: a logger configured below one configured before (first
    [create_logger("app")], then [create_logger("app.db")]) propagates its
    records to the parent's console handler as well: a message of the
    child that reaches both console levels is written twice, by the
    child's handler and then by the parent's, both lines naming the
    child. *)
Theorem create_logger_child_propagates n m lvl1 fmt1 lvl2 fmt2 w lr1 w1 lr2 w2 L msg ctx :
  w_reg w = empty_registry -> n ≠ "" -> n ≠ "root" -> no_dot m = true ->
  create_logger (VStr n) VNone lvl1 VNone fmt1 w = (Ret lr1, w1) ->
  create_logger (VStr (n +:+ String "." m)) VNone lvl2 VNone fmt2 w1 = (Ret lr2, w2) ->
  emitted (w_reg w2) lr2 L msg ctx =
  if (c_level_of lvl2 <=? L)%Z
  then handler_output (console_handler 1 (c_level_of lvl2) (format_console_of fmt2))
         (mkLogRecord (n +:+ String "." m) L msg ctx)
       :: (if (c_level_of lvl1 <=? L)%Z
           then [handler_output (console_handler 0 (c_level_of lvl1) (format_console_of fmt1))
                   (mkLogRecord (n +:+ String "." m) L msg ctx)]
           else [])
  else [].
Proof.
  intros Hfresh Hn Hroot Hm Hrun1 Hrun2.
  destruct (create_logger_child_run n m lvl1 fmt1 lvl2 fmt2 w lr1 w1 lr2 w2 Hfresh Hn Hroot Hm
              Hrun1 Hrun2) as [-> ->].
  set (r1 := reg_after_console (LNamed n) (c_level_of lvl1) (format_console_of fmt1)
               (ensure_logger n empty_registry)).
  pose proof (c_level_range lvl1) as Hc1. pose proof (c_level_range lvl2) as Hc2.
  unfold DEBUG, CRITICAL in Hc1, Hc2.
  assert (Hnew : reg_loggers r1 !! (n +:+ String "." m) = None).
  { unfold r1. rewrite fresh_console_loggers. apply lookup_singleton_ne.
    intros E. apply (f_equal String.length) in E. rewrite length_append_str in E. simpl in E. lia. }
  rewrite (emitted_child _ n m
             (mkLogger (c_level_of lvl1) [console_handler 0 (c_level_of lvl1) (format_console_of fmt1)] true false)
             (mkLogger (c_level_of lvl2) [console_handler 1 (c_level_of lvl2) (format_console_of fmt2)] true false));
    [|done|done| | |done|done|done|simpl; unfold NOTSET; lia].
  - cbn [lg_disabled lg_level lg_handlers negb app].
    rewrite disable_after_console, disable_ensure. unfold r1. rewrite disable_after_console, disable_ensure.
    destruct (Z.leb_spec (c_level_of lvl2) L); [|by rewrite andb_false_r].
    replace (L <=? reg_disable empty_registry)%Z with false
      by (symmetry; apply Z.leb_gt; cbv [reg_disable empty_registry NOTSET]; lia).
    cbn [andb]. rewrite filter_cons_True by (apply bool_decide_pack; simpl; lia).
    destruct (Z.leb_spec (c_level_of lvl1) L).
    + rewrite filter_cons_True, filter_nil by (apply bool_decide_pack; simpl; lia). done.
    + rewrite filter_cons_False, filter_nil; [done|]. simpl. rewrite bool_decide_false by lia. tauto.
  - rewrite console_loggers_new by done. unfold r1.
    rewrite reg_after_console_next, next_ensure, fresh_console_loggers. done.
  - rewrite root_after_console_named, root_ensure. unfold r1.
    by rewrite root_after_console_named, root_ensure.
Qed.

(** ** Witnesses *)

Definition sample_ctx : LogCtx := mkLogCtx sample_time "main" 42.

Definition closed_world (e : PyExc) : World :=
  mkWorld empty_registry [] (fun _ => Some e) ∅ (fun _ => None) (fun _ => []) Posix.

(** An unknown format name and a log file that cannot be opened: the
    open error is what propagates. *)
Lemma create_logger_raises_witness :
  create_logger (VStr "app") (VStr "app.log") (VStr "INFO") VNone (VStr "bogus")
    (closed_world (PermissionError "app.log"))
  = (Exc (PermissionError "app.log"),
     snd (create_logger (VStr "app") (VStr "app.log") (VStr "INFO") VNone (VStr "bogus")
            (closed_world (PermissionError "app.log"))))
  ∧ (PermissionError "app.log" = TypeError "A logger name must be a string"
     ∨ (∃ p, VStr "app.log" = VStr p
             ∧ w_open (closed_world (PermissionError "app.log")) p = Some (PermissionError "app.log"))
     ∨ PermissionError "app.log"
       = TypeError ("expected str, bytes or os.PathLike object, not " +:+ py_type_name (VStr "app.log"))).
Proof.
  assert (H : create_logger (VStr "app") (VStr "app.log") (VStr "INFO") VNone (VStr "bogus")
                (closed_world (PermissionError "app.log"))
              = (Exc (PermissionError "app.log"),
                 snd (create_logger (VStr "app") (VStr "app.log") (VStr "INFO") VNone (VStr "bogus")
                        (closed_world (PermissionError "app.log"))))) by reflexivity.
  split; [exact H|]. exact (create_logger_raises _ _ _ _ _ _ _ _ H).
Defined.

Lemma create_logger_console_threshold_witness :
  emitted (w_reg (snd (create_logger (VStr "app") VNone (VStr "WARNING") VNone (VStr "info")
                         fresh_world)))
    (LNamed "app") ERROR "disk full" sample_ctx
  = [EWrite Stderr ("app - ERROR: disk full" +:+ terminator)].
Proof.
  rewrite (create_logger_console_threshold (VStr "app") VNone (VStr "WARNING") VNone
             (VStr "info") fresh_world "app" (LNamed "app") _ ERROR "disk full" sample_ctx);
    [reflexivity|reflexivity|reflexivity|decide_prop|reflexivity|reflexivity].
Defined.

(** At console level [WARNING] and file level [DEBUG], a [DEBUG] message
    reaches neither handler; an [ERROR] message reaches both. *)
Lemma create_logger_file_threshold_witness :
  emitted (w_reg (snd (create_logger (VStr "app") (VStr "app.log") (VStr "WARNING")
                         (VStr "DEBUG") (VStr "info") fresh_world)))
    (LNamed "app") DEBUG "probe" sample_ctx = []
  ∧ emitted (w_reg (snd (create_logger (VStr "app") (VStr "app.log") (VStr "WARNING")
                           (VStr "DEBUG") (VStr "info") fresh_world)))
      (LNamed "app") ERROR "disk full" sample_ctx
    = [EWrite Stderr ("app - ERROR: disk full" +:+ terminator);
       EWrite (LogFile "app.log") ("2026-Nov-09 01:13:05 | app - ERROR: disk full" +:+ terminator)].
Proof.
  split;
  (rewrite (create_logger_file_threshold (VStr "app") "app.log" (VStr "WARNING")
             (VStr "DEBUG") (VStr "info") fresh_world "app" (LNamed "app") _);
    [reflexivity|reflexivity|reflexivity|decide_prop|decide_prop|reflexivity|reflexivity]).
Defined.

(** [level=logging.DEBUG], [format_="verbose"], no file level. *)
Lemma create_logger_unknown_names_witness :
  create_logger (VStr "app") VNone (VInt DEBUG) VNone (VStr "verbose") fresh_world
  = create_logger (VStr "app") VNone (VStr "INFO") VNone (VStr "verbose") fresh_world
  ∧ create_logger (VStr "app") VNone (VInt DEBUG) VNone (VStr "verbose") fresh_world
    = create_logger (VStr "app") VNone (VInt DEBUG) VNone (VStr "info") fresh_world
  ∧ f_level_of (VInt DEBUG) VNone = c_level_of (VInt DEBUG).
Proof.
  destruct (create_logger_unknown_names (VStr "app") VNone (VInt DEBUG) VNone (VStr "verbose")
              fresh_world) as (H1 & H2 & H3).
  split; [apply H1; decide_prop|split; [apply H2; decide_prop|apply H3; decide_prop]].
Defined.

Lemma create_logger_twice_duplicates_witness :
  let w1 := snd (create_logger (VStr "app") VNone (VStr "INFO") VNone (VStr "info") fresh_world) in
  let w2 := snd (create_logger (VStr "app") VNone (VStr "INFO") VNone (VStr "info") w1) in
  LNamed "app" = LNamed "app" ∧
  emitted (w_reg w2) (LNamed "app") WARNING "low disk" sample_ctx
  = [EWrite Stderr ("app - WARNING: low disk" +:+ terminator); EWrite Stderr ("app - WARNING: low disk" +:+ terminator)].
Proof.
  intros w1 w2.
  destruct (create_logger_twice_duplicates (VStr "app") VNone (VStr "INFO") VNone (VStr "info")
              fresh_world "app" (LNamed "app") w1 (LNamed "app") w2 WARNING "low disk" sample_ctx)
    as [H1 H2]; [reflexivity|reflexivity|decide_prop|reflexivity|reflexivity|reflexivity|].
  split; [exact H1|]. rewrite H2. reflexivity.
Defined.

Lemma create_logger_name_type_error_witness :
  create_logger (VInt 5) VNone (VStr "INFO") VNone (VStr "info") fresh_world
  = (Exc (TypeError "A logger name must be a string"), fresh_world).
Proof. apply create_logger_name_type_error; [reflexivity|discriminate]. Defined.

Lemma create_logger_open_error_witness :
  exists w', create_logger (VStr "app") (VStr "/nonexistent/app.log") (VStr "INFO") VNone
               (VStr "info") (closed_world (FileNotFoundError "/nonexistent/app.log"))
             = (Exc (FileNotFoundError "/nonexistent/app.log"), w')
  ∧ w_trace w' = []
  ∧ lg_level (logger_of (w_reg w') (LNamed "app")) = INFO
  ∧ lg_handlers (logger_of (w_reg w') (LNamed "app"))
    = [console_handler 0 INFO "%(name)s - %(levelname)s: %(message)s"].
Proof.
  apply (create_logger_open_error (VStr "app") "/nonexistent/app.log" (VStr "INFO") VNone
           (VStr "info") (closed_world (FileNotFoundError "/nonexistent/app.log")) "app");
    [apply empty_registry_wf|reflexivity|decide_prop|decide_prop|reflexivity].
Defined.

Lemma create_logger_default_name_witness :
  fst (create_logger VNone VNone (VStr "INFO") VNone (VStr "info") fresh_world)
  = Ret (LNamed "thutil.general").
Proof.
  apply create_logger_default_name; [apply empty_registry_wf|reflexivity|reflexivity].
Defined.

Lemma create_logger_root_name_witness :
  create_logger (VStr "root") VNone (VStr "DEBUG") VNone (VStr "info") fresh_world
  = (Ret LRoot,
     set_reg (reg_after_console LRoot DEBUG "%(name)s - %(levelname)s: %(message)s" empty_registry)
       fresh_world).
Proof. apply (create_logger_root_name (VStr "DEBUG") VNone (VStr "info") fresh_world empty_registry_wf). Defined.

(** [app] at [INFO], then [app.db] at [DEBUG]: an [INFO] message of
    [app.db] is written twice. *)
Lemma create_logger_child_propagates_witness :
  let w1 := snd (create_logger (VStr "app") VNone (VStr "INFO") VNone (VStr "info") fresh_world) in
  let w2 := snd (create_logger (VStr "app.db") VNone (VStr "DEBUG") VNone (VStr "info") w1) in
  emitted (w_reg w2) (LNamed "app.db") INFO "connected" sample_ctx
  = [EWrite Stderr ("app.db - INFO: connected" +:+ terminator);
     EWrite Stderr ("app.db - INFO: connected" +:+ terminator)].
Proof.
  intros w1 w2.
  rewrite (create_logger_child_propagates "app" "db" (VStr "INFO") (VStr "info") (VStr "DEBUG")
             (VStr "info") fresh_world (LNamed "app") w1 (LNamed "app.db") w2 INFO "connected"
             sample_ctx);
    [vm_compute; reflexivity|reflexivity|decide_prop|decide_prop|reflexivity
    |subst w1; vm_compute; reflexivity|subst w1 w2; vm_compute; reflexivity].
Defined.
