(* ===== verification/WinCmdline.v ===== *)
(** * Windows command lines

    On Windows, [Popen._execute_child] gives [CreateProcess] one command
    line: a string [args] as it is, a sequence of arguments through
    [subprocess.list2cmdline]. The program that starts reads its argument
    vector back from that line with the rules of the Microsoft C runtime
    ([parse_command_line] of the Universal CRT):
    - the program name runs up to the first space or tab outside double
      quotes; quotes only switch quoting on and off, backslashes are
      literal;
    - the other arguments are separated by spaces and tabs outside quotes;
      [2n] backslashes before a quote give [n] backslashes and the quote
      opens or closes a quoted part, [2n+1] give [n] backslashes and a
      literal quote, other backslashes are literal, and inside a quoted
      part two quotes give one literal quote.

    [list2cmdline] translates CPython's function line by line; [crt_argv]
    is the parser. The round trip [crt_argv_list2cmdline]: every list of
    arguments comes back from its command line, the program name
    included when it has no double quote and, if it needs quoting, does
    not end with a backslash. *)

From S2P Require Import Prelude.

Definition dquote : ascii := "034".
Definition bslash : ascii := "092".

(** Space and tab, the separators of both sides. *)
Definition is_blank (c : ascii) : bool :=
  bool_decide (c = " "%char) || bool_decide (c = "009"%char).

Definition has_char (c : ascii) (s : string) : bool :=
  existsb (fun d => bool_decide (d = c)) (String.list_ascii_of_string s).

(** [n] backslashes. *)
Fixpoint bsl (n : nat) : string :=
  match n with 0 => "" | S n' => String bslash (bsl n') end.

(** ** [subprocess.list2cmdline] *)

(** [needquote = (" " in arg) or ("\t" in arg) or not arg]. *)
Definition needquote (arg : string) : bool :=
  has_char " " arg || has_char "009" arg || bool_decide (arg = "").

(** The loop over the characters of one argument, with [bs] the length
    of [bs_buf]: backslashes wait in [bs_buf]; before a quote they are
    doubled and the quote escaped; before another character they are
    written as they are; at the end they are written, twice when the
    argument is quoted, and the closing quote follows. *)
Fixpoint l2c_chars (needq : bool) (bs : nat) (s : string) : string :=
  match s with
  | "" => bsl bs +:+ (if needq then bsl bs +:+ String dquote "" else "")
  | String c r =>
      if bool_decide (c = bslash) then l2c_chars needq (S bs) r
      else if bool_decide (c = dquote) then
        bsl (2 * bs) +:+ String bslash (String dquote (l2c_chars needq 0 r))
      else bsl bs +:+ String c (l2c_chars needq 0 r)
  end.

Definition quote_arg (arg : string) : string :=
  (if needquote arg then String dquote "" else "") +:+ l2c_chars (needquote arg) 0 arg.

(** The loop over [seq]: a space before every argument but the first. *)
Fixpoint list2cmdline_go (result : string) (seq : list string) : string :=
  match seq with
  | [] => result
  | arg :: seq' =>
      let result' := if bool_decide (result = "") then result else result +:+ " " in
      list2cmdline_go (result' +:+ quote_arg arg) seq'
  end.

Definition list2cmdline (seq : list string) : string := list2cmdline_go "" seq.

(** ** The C runtime's parser *)

(** The program name: the name and the rest of the line after the blank
    that ends it. *)
Fixpoint crt_prog (inq : bool) (acc : string) (s : string) : string * string :=
  match s with
  | "" => (acc, "")
  | String c r =>
      if bool_decide (c = dquote) then crt_prog (negb inq) acc r
      else if is_blank c && negb inq then (acc, r)
      else crt_prog inq (acc +:+ String c "") r
  end.

(** Between two arguments, or inside one: what it holds so far, whether a
    quoted part is open, and the backslashes not yet written. *)
Inductive ArgState :=
| Between
| InArg (a : string) (inq : bool) (bs : nat).

Fixpoint crt_args (st : ArgState) (s : string) {struct s} : list string :=
  match s with
  | "" => match st with Between => [] | InArg a _ bs => [a +:+ bsl bs] end
  | String c r =>
      match st, is_blank c with
      | Between, true => crt_args Between r
      | _, _ =>
          let '(a, inq, bs) :=
            match st with Between => ("", false, 0) | InArg a inq bs => (a, inq, bs) end in
          if bool_decide (c = bslash) then crt_args (InArg a inq (S bs)) r
          else if bool_decide (c = dquote) then
            if Nat.even bs then
              match r with
              | String d r' =>
                  if inq && bool_decide (d = dquote)
                  then crt_args (InArg (a +:+ bsl (bs / 2) +:+ String dquote "") inq 0) r'
                  else crt_args (InArg (a +:+ bsl (bs / 2)) (negb inq) 0) r
              | "" => crt_args (InArg (a +:+ bsl (bs / 2)) (negb inq) 0) r
              end
            else crt_args (InArg (a +:+ bsl (bs / 2) +:+ String dquote "") inq 0) r
          else if is_blank c && negb inq then (a +:+ bsl bs) :: crt_args Between r
          else crt_args (InArg (a +:+ bsl bs +:+ String c "") inq 0) r
      end
  end.

(** The argument vector the program reads from its command line. *)
Definition crt_argv (cmdline : string) : list string :=
  let '(prog, rest) := crt_prog false "" cmdline in prog :: crt_args Between rest.

(** The last character of a string. *)
Fixpoint last_char (s : string) : option ascii :=
  match s with
  | "" => None
  | String c r => match r with "" => Some c | _ => last_char r end
  end.

Definition no_blank (s : string) : bool :=
  forallb (fun c => negb (is_blank c)) (String.list_ascii_of_string s).

(** The rest of [list2cmdline]'s output after its first argument. *)
Fixpoint tail_enc (xs : list string) : string :=
  match xs with [] => "" | x :: xs' => String " " (quote_arg x +:+ tail_enc xs') end.

(** ** Lemmas on numbers of backslashes *)

Lemma bsl_snoc k s : bsl k +:+ String bslash s = String bslash (bsl k +:+ s).
Proof. induction k as [|k IH]; [done|]. cbn [bsl]. by rewrite append_cons_str, IH. Qed.

Lemma even_double k : Nat.even (k + k) = true.
Proof. rewrite Nat.even_add. by destruct (Nat.even k). Qed.

Lemma half_double k : (k + k) / 2 = k.
Proof. replace (k + k) with (k * 2) by lia. apply Nat.div_mul. lia. Qed.

Lemma even_double_S k : Nat.even (S (k + k)) = false.
Proof. rewrite Nat.even_succ, <- Nat.negb_even, even_double. done. Qed.

Lemma half_double_S k : S (k + k) / 2 = k.
Proof. replace (S (k + k)) with (k * 2 + 1) by lia. rewrite Nat.div_add_l by lia. done. Qed.

(** ** One step of the parser *)

Section Steps.
Implicit Types (a s : string) (q : bool) (j : nat).

Lemma step_bslash a q j s :
  crt_args (InArg a q j) (String bslash s) = crt_args (InArg a q (S j)) s.
Proof. reflexivity. Qed.

Lemma step_escaped_quote a q j s :
  Nat.even j = false ->
  crt_args (InArg a q j) (String dquote s)
  = crt_args (InArg (a +:+ bsl (j / 2) +:+ String dquote "") q 0) s.
Proof. intros Hj. cbn -[bsl Nat.div Nat.even]. by rewrite Hj. Qed.

Lemma step_open a j s :
  Nat.even j = true ->
  crt_args (InArg a false j) (String dquote s) = crt_args (InArg (a +:+ bsl (j / 2)) true 0) s.
Proof. intros Hj. cbn -[bsl Nat.div Nat.even]. rewrite Hj. by destruct s. Qed.

Lemma step_close a j s :
  Nat.even j = true -> (∀ d s', s = String d s' -> d ≠ dquote) ->
  crt_args (InArg a true j) (String dquote s) = crt_args (InArg (a +:+ bsl (j / 2)) false 0) s.
Proof.
  intros Hj Hs. cbn -[bsl Nat.div Nat.even]. rewrite Hj.
  destruct s as [|d s']; [done|]. by rewrite (bool_decide_false (d = dquote)) by (by eapply Hs).
Qed.

Lemma step_char a q j c s :
  c ≠ bslash -> c ≠ dquote -> (q = false -> is_blank c = false) ->
  crt_args (InArg a q j) (String c s) = crt_args (InArg (a +:+ bsl j +:+ String c "") q 0) s.
Proof.
  intros Hb Hd Hq. cbn -[bsl]. rewrite !bool_decide_false by done.
  destruct q; [by destruct (is_blank c)|]. rewrite Hq by done. by destruct (is_blank c).
Qed.

Lemma step_between_blank c s :
  is_blank c = true -> crt_args Between (String c s) = crt_args Between s.
Proof. intros Hc. cbn. by rewrite Hc. Qed.

Lemma step_between_start c s :
  is_blank c = false -> crt_args Between (String c s) = crt_args (InArg "" false 0) (String c s).
Proof. intros Hc. cbn. by rewrite Hc. Qed.
End Steps.

(** ** Lemmas *)

(** A run of backslashes only counts up. *)
Lemma crt_args_bsl a q j k s :
  crt_args (InArg a q j) (bsl k +:+ s) = crt_args (InArg a q (k + j)) s.
Proof.
  revert j. induction k as [|k IH]; intros j; [by rewrite append_empty_str|].
  cbn [bsl]. rewrite append_cons_str, step_bslash, IH. by rewrite Nat.add_succ_r.
Qed.

(** What comes after an argument: the end of the line, or a blank. *)
Definition arg_end (t : string) : Prop :=
  t = "" ∨ ∃ b t', t = String b t' ∧ is_blank b = true.

Definition after_arg (x t : string) : list string :=
  match t with "" => [x] | String _ t' => x :: crt_args Between t' end.

Lemma arg_end_not_dquote t : arg_end t -> ∀ d t', t = String d t' -> d ≠ dquote.
Proof. intros [->|(b & t0 & -> & Hb)] d t' E; [done|]. injection E as <- _. by intros ->. Qed.

(** The parser ends an argument at a blank outside quotes, or at the end. *)
Lemma crt_args_end a k t :
  arg_end t -> crt_args (InArg a false k) t = after_arg (a +:+ bsl k) t.
Proof.
  intros [->|(b & t' & -> & Hb)]; [done|]. cbn -[bsl].
  rewrite !bool_decide_false by (intros ->; discriminate Hb). rewrite Hb. done.
Qed.


Lemma has_char_cons c d r : has_char c (String d r) = bool_decide (d = c) || has_char c r.
Proof. reflexivity. Qed.

Lemma no_blank_cons c r : no_blank (String c r) = negb (is_blank c) && no_blank r.
Proof. reflexivity. Qed.

(** An argument that [list2cmdline] leaves unquoted has no blank and is
    not empty. *)
Lemma needquote_false y : needquote y = false -> no_blank y = true ∧ y ≠ "".
Proof.
  unfold needquote. intros H. apply orb_false_iff in H as [H Hne].
  apply orb_false_iff in H as [Hs Ht]. split; [|by apply bool_decide_eq_false in Hne].
  clear Hne. induction y as [|c r IH]; [done|].
  rewrite !has_char_cons in Hs, Ht. apply orb_false_iff in Hs as [Hs1 Hs2].
  apply orb_false_iff in Ht as [Ht1 Ht2].
  rewrite no_blank_cons, IH by done. unfold is_blank. by rewrite Hs1, Ht1.
Qed.

(** A quote after an even run of backslashes, followed by the end of the
    argument, closes the quoted part. *)
Lemma crt_args_close a k t :
  arg_end t -> crt_args (InArg a true (k + k)) (String dquote t) = after_arg (a +:+ bsl k) t.
Proof.
  intros Ht. rewrite step_close; [|apply even_double|by apply arg_end_not_dquote].
  rewrite half_double, crt_args_end by done. cbn [bsl]. by rewrite append_nil_str.
Qed.

(** The parser reads back what the loop of [list2cmdline] wrote for one
    argument, with [k] backslashes still waiting in [bs_buf]. *)
Lemma crt_args_l2c nq y k a t :
  arg_end t -> (nq = false -> no_blank y = true) ->
  crt_args (InArg a nq 0) (l2c_chars nq k y +:+ t) = after_arg (a +:+ bsl k +:+ y) t.
Proof.
  revert k a. induction y as [|c r IH]; intros k a Ht Hy.
  - cbn [l2c_chars]. rewrite append_nil_str. destruct nq.
    + rewrite !append_assoc_str, append_cons_str, append_empty_str, !crt_args_bsl.
      replace (k + (k + 0)) with (k + k) by lia. by rewrite crt_args_close.
    + rewrite append_nil_str, crt_args_bsl, Nat.add_0_r. by apply crt_args_end.
  - assert (Hr : nq = false -> no_blank r = true).
    { intros E. specialize (Hy E). rewrite no_blank_cons in Hy. by apply andb_true_iff in Hy as [_ ?]. }
    cbn [l2c_chars]. case_bool_decide as Hb; [|case_bool_decide as Hq].
    + subst c. rewrite IH by done. cbn [bsl]. by rewrite append_cons_str, bsl_snoc.
    + subst c. autorewrite with pyrw. rewrite crt_args_bsl, step_bslash.
      replace (S (2 * k + 0)) with (S (k + k)) by lia.
      rewrite step_escaped_quote, half_double_S, IH by (done || apply even_double_S).
      cbn [bsl]. by autorewrite with pyrw.
    + autorewrite with pyrw. rewrite crt_args_bsl, Nat.add_0_r, step_char; [|done|done|].
      * rewrite IH by done. cbn [bsl]. by autorewrite with pyrw.
      * intros E. specialize (Hy E). rewrite no_blank_cons in Hy.
        apply andb_true_iff in Hy as [Hc _]. by apply negb_true_iff in Hc.
Qed.

(** The first character of an unquoted argument's encoding starts it. *)
Lemma l2c_head k y :
  (k ≠ 0 ∨ y ≠ "") -> no_blank y = true ->
  ∃ c s, l2c_chars false k y = String c s ∧ is_blank c = false.
Proof.
  revert k. induction y as [|c r IH]; intros k Hk Hy.
  - destruct k as [|k]; [by destruct Hk|]. cbn. by eexists _, _.
  - rewrite no_blank_cons in Hy. apply andb_true_iff in Hy as [Hc Hy].
    apply negb_true_iff in Hc. cbn [l2c_chars]. case_bool_decide; [apply IH; auto|].
    case_bool_decide.
    + destruct (2 * k); cbn; by eexists _, _.
    + destruct k; cbn; by eexists _, _.
Qed.

(** One argument, read from the separator state. *)
Lemma crt_args_quote_arg y t :
  arg_end t -> crt_args Between (quote_arg y +:+ t) = after_arg y t.
Proof.
  intros Ht. unfold quote_arg. destruct (needquote y) eqn:Hq.
  - rewrite append_assoc_str, append_cons_str, append_empty_str.
    rewrite step_between_start, (step_open "" 0) by done.
    rewrite (crt_args_l2c true y 0) by done. done.
  - destruct (needquote_false y Hq) as [Hnb Hne]. rewrite append_empty_str.
    destruct (l2c_head 0 y (or_intror Hne) Hnb) as (c & s & Hs & Hc).
    rewrite Hs, append_cons_str, step_between_start, <- append_cons_str, <- Hs by done.
    by rewrite crt_args_l2c.
Qed.

Lemma arg_end_tail xs : arg_end (tail_enc xs).
Proof. destruct xs; [by left|right; by eexists _, _]. Qed.

(** The arguments after the first come back. *)
Lemma crt_args_tail xs : crt_args Between (tail_enc xs) = xs.
Proof.
  induction xs as [|x xs IH]; [done|]. cbn [tail_enc].
  rewrite step_between_blank, crt_args_quote_arg by (done || apply arg_end_tail).
  destruct xs as [|x2 xs']; [done|]. cbn [after_arg tail_enc]. f_equal.
  rewrite <- IH. cbn [tail_enc]. by rewrite step_between_blank.
Qed.

Lemma list2cmdline_go_tail r xs : r ≠ "" -> list2cmdline_go r xs = r +:+ tail_enc xs.
Proof.
  revert r. induction xs as [|x xs IH]; intros r Hr; cbn [list2cmdline_go tail_enc].
  - by rewrite append_nil_str.
  - rewrite bool_decide_false by done. rewrite IH; [by autorewrite with pyrw|].
    destruct r; [done|]. by rewrite !append_cons_str.
Qed.

(** ** The program name *)

Lemma crt_prog_word inq acc x s :
  has_char dquote x = false -> (inq = false -> no_blank x = true) ->
  crt_prog inq acc (x +:+ s) = crt_prog inq (acc +:+ x) s.
Proof.
  revert acc. induction x as [|c r IH]; intros acc Hd Hb.
  - by rewrite append_empty_str, append_nil_str.
  - rewrite has_char_cons in Hd. apply orb_false_iff in Hd as [Hc Hr].
    assert (Hbl : is_blank c && negb inq = false).
    { destruct inq; [by rewrite andb_false_r|]. specialize (Hb eq_refl).
      rewrite no_blank_cons in Hb. apply andb_true_iff in Hb as [Hb _].
      apply negb_true_iff in Hb. by rewrite Hb. }
    rewrite append_cons_str. cbn [crt_prog]. rewrite Hc, Hbl, IH; [by autorewrite with pyrw|done|].
    intros E. specialize (Hb E). rewrite no_blank_cons in Hb. by apply andb_true_iff in Hb as [_ ?].
Qed.

Lemma crt_prog_end acc t :
  arg_end t -> crt_prog false acc t = (acc, match t with "" => "" | String _ t' => t' end).
Proof.
  intros [->|(b & t' & -> & Hb)]; [done|]. cbn [crt_prog].
  rewrite bool_decide_false by (intros ->; discriminate Hb). by rewrite Hb.
Qed.

Lemma l2c_plain k x : has_char dquote x = false -> l2c_chars false k x = bsl k +:+ x.
Proof.
  revert k. induction x as [|c r IH]; intros k Hd; cbn [l2c_chars].
  - by rewrite !append_nil_str.
  - rewrite has_char_cons in Hd. apply orb_false_iff in Hd as [Hc Hr].
    apply bool_decide_eq_false in Hc.
    destruct (decide (c = bslash)) as [->|Hb].
    + rewrite bool_decide_true, IH by done. cbn [bsl]. by rewrite append_cons_str, bsl_snoc.
    + rewrite !bool_decide_false, IH by done. done.
Qed.

Lemma last_char_cons c r : r ≠ "" -> last_char (String c r) = last_char r.
Proof. by destruct r. Qed.

Lemma l2c_quoted k x :
  has_char dquote x = false -> (k = 0 ∨ x ≠ "") -> last_char x ≠ Some bslash ->
  l2c_chars true k x = bsl k +:+ x +:+ String dquote "".
Proof.
  revert k. induction x as [|c r IH]; intros k Hd Hk Hl; cbn [l2c_chars].
  - by destruct Hk as [->|].
  - rewrite has_char_cons in Hd. apply orb_false_iff in Hd as [Hc Hr].
    apply bool_decide_eq_false in Hc.
    destruct (decide (c = bslash)) as [->|Hb].
    + rewrite bool_decide_true by done. destruct (decide (r = "")) as [->|Hne]; [done|].
      rewrite last_char_cons in Hl by done. rewrite IH by auto. cbn [bsl].
      by rewrite !append_cons_str, bsl_snoc.
    + rewrite !bool_decide_false by done.
      rewrite IH; [by autorewrite with pyrw|done|by left|].
      destruct (decide (r = "")) as [->|Hne]; [done|]. by rewrite last_char_cons in Hl.
Qed.

(** What [list2cmdline] writes for a program name without quotes. *)
Lemma quote_arg_prog x :
  has_char dquote x = false -> (needquote x = true -> last_char x ≠ Some bslash) ->
  quote_arg x = if needquote x then String dquote (x +:+ String dquote "") else x.
Proof.
  intros Hd Hl. unfold quote_arg. destruct (needquote x) eqn:Hq.
  - rewrite l2c_quoted by auto. by autorewrite with pyrw.
  - by rewrite l2c_plain, append_empty_str.
Qed.

Lemma crt_prog_first x t :
  has_char dquote x = false -> (needquote x = true -> last_char x ≠ Some bslash) -> arg_end t ->
  crt_prog false "" (quote_arg x +:+ t) = (x, match t with "" => "" | String _ t' => t' end).
Proof.
  intros Hd Hl Ht. rewrite quote_arg_prog by done. destruct (needquote x) eqn:Hq.
  - rewrite append_cons_str. cbn [crt_prog]. rewrite bool_decide_true by done. cbn [negb].
    rewrite append_assoc_str, append_cons_str, append_empty_str, crt_prog_word by done.
    cbn [crt_prog]. rewrite bool_decide_true by done. cbn [negb].
    rewrite append_empty_str. by apply crt_prog_end.
  - destruct (needquote_false x Hq) as [Hnb _].
    rewrite crt_prog_word, append_empty_str by done. by apply crt_prog_end.
Qed.

Lemma quote_arg_nonempty x :
  has_char dquote x = false -> (needquote x = true -> last_char x ≠ Some bslash) ->
  quote_arg x ≠ "".
Proof.
  intros Hd Hl. rewrite quote_arg_prog by done. destruct (needquote x) eqn:Hq; [done|].
  by destruct (needquote_false x Hq).
Qed.

Lemma list2cmdline_cons x xs : list2cmdline (x :: xs) = list2cmdline_go (quote_arg x) xs.
Proof. unfold list2cmdline. cbn [list2cmdline_go]. by rewrite bool_decide_true, append_empty_str. Qed.

(** ** The round trip *)

(** Every list of arguments comes back from the command line
    [list2cmdline] makes of it, when its first element, the program,
    has no double quote and, if it needs quoting, does not end with a
    backslash. *)
Theorem crt_argv_list2cmdline x xs :
  has_char dquote x = false -> (needquote x = true -> last_char x ≠ Some bslash) ->
  crt_argv (list2cmdline (x :: xs)) = x :: xs.
Proof.
  intros Hd Hl. rewrite list2cmdline_cons. unfold crt_argv.
  rewrite list2cmdline_go_tail by (by apply quote_arg_nonempty).
  rewrite crt_prog_first by (done || apply arg_end_tail). f_equal.
  destruct xs as [|x2 xs']; [done|]. cbn [tail_enc].
  rewrite <- (step_between_blank " " (quote_arg x2 +:+ tail_enc xs')) by done.
  apply (crt_args_tail (x2 :: xs')).
Qed.

(** ** Plain words *)

(** A word that needs no quoting and has no quote. *)
Definition plain_word (s : string) : bool :=
  bool_decide (s ≠ "") && no_blank s && negb (has_char dquote s).

Lemma plain_word_spec s :
  plain_word s = true -> s ≠ "" ∧ no_blank s = true ∧ has_char dquote s = false ∧ needquote s = false.
Proof.
  unfold plain_word, needquote. intros H. apply andb_true_iff in H as [H Hd].
  apply andb_true_iff in H as [Hne Hnb]. apply bool_decide_eq_true in Hne. apply negb_true_iff in Hd.
  repeat split; [done..|]. rewrite bool_decide_false by done. rewrite orb_false_r.
  clear Hd Hne. induction s as [|c r IH]; [done|].
  rewrite no_blank_cons in Hnb. apply andb_true_iff in Hnb as [Hc Hnb].
  rewrite !has_char_cons. unfold is_blank in Hc.
  destruct (bool_decide (c = " "%char)), (bool_decide (c = "009"%char)); try done. by apply IH.
Qed.

(** [list2cmdline] joins plain words with spaces. *)
Lemma quote_arg_plain s : plain_word s = true -> quote_arg s = s.
Proof.
  intros (_ & _ & Hd & Hq)%plain_word_spec. unfold quote_arg. rewrite Hq, append_empty_str.
  by rewrite l2c_plain.
Qed.

(** A command line that starts with a plain word and goes on as
    [list2cmdline] writes arguments is read as that word and those
    arguments. *)
Lemma crt_argv_plain_head w ws :
  plain_word w = true -> crt_argv (w +:+ tail_enc ws) = w :: ws.
Proof.
  intros Hw. destruct (plain_word_spec w Hw) as (Hne & _ & Hd & Hq).
  rewrite <- (quote_arg_plain w Hw) at 1.
  rewrite <- list2cmdline_go_tail by (by rewrite quote_arg_plain).
  rewrite <- list2cmdline_cons. apply crt_argv_list2cmdline; [done|intros E; by rewrite Hq in E].
Qed.
