(* ===== verification/Subprocess.v ===== *)
(** * [subprocess.run(command, check=True)]

    [check_installation] (line 74) and [_install_package] (line 101) run
    commands with [subprocess.run(command, check=True)], [shell] left
    [False]. [Popen] turns [command] into an argument vector differently
    by platform: on POSIX a string is the whole program name ([args =
    [args]] in [Popen._execute_child]) and a list is the vector itself; on
    Windows [CreateProcess] gets one command line, the string itself or
    [list2cmdline] of the list, and the program reads its vector from it
    with the rules of the C runtime ([WinCmdline.crt_argv]). A program that cannot
    be found raises [FileNotFoundError]; a nonzero exit status raises
    [CalledProcessError(returncode, args)] because of [check=True]; a zero
    status returns, and the modules the program installed become
    importable. Every attempt is recorded in the trace as an [ESpawn]
    event. The file also gives [str()] of a [CalledProcessError]. *)

From S2P Require Import Prelude Strftime PercentFormat Runtime WinCmdline.

(** ** From a command to an argument vector *)

(** The argument vector [Popen] starts for [args] with [shell=False]. *)
Definition popen_argv (p : Platform) (c : Cmd) : list string :=
  match c with
  | CArgv xs => match p with Posix => xs | Windows => crt_argv (list2cmdline xs) end
  | CStr s => match p with Posix => [s] | Windows => crt_argv s end
  end.

(** [subprocess.run(c, check=True)]: the exit status, or the exception. *)
Definition subprocess_run (c : Cmd) : pm Z :=
  fun w =>
    let argv := popen_argv (w_platform w) c in
    match w_exec w argv with
    | None =>
        (Exc (FileNotFoundError (default "" (head argv))), add_event (ESpawn argv None) w)
    | Some rc =>
        let w1 := add_event (ESpawn argv (Some rc)) w in
        if bool_decide (rc = 0%Z) then (Ret rc, add_modules (w_installs w argv) w1)
        else (Exc (CalledProcessError rc c), w1)
    end.

(** ** [str()] of a [CalledProcessError] *)

(** [repr] of a list of strings without quotes in them. *)
Definition repr_str_list (xs : list string) : string :=
  "[" +:+ String.concat ", " (map (fun x => "'" +:+ x +:+ "'") xs) +:+ "]".

(** [%s] of [self.cmd]. *)
Definition cmd_str (c : Cmd) : string :=
  match c with CStr s => s | CArgv xs => repr_str_list xs end.

(** [repr(signal.Signals(n))] on Linux for the signals it names. *)
Definition signal_name (n : Z) : option string :=
  match n with
  | 1 => Some "SIGHUP" | 2 => Some "SIGINT" | 3 => Some "SIGQUIT"
  | 4 => Some "SIGILL" | 5 => Some "SIGTRAP" | 6 => Some "SIGABRT"
  | 7 => Some "SIGBUS" | 8 => Some "SIGFPE" | 9 => Some "SIGKILL"
  | 10 => Some "SIGUSR1" | 11 => Some "SIGSEGV" | 12 => Some "SIGUSR2"
  | 13 => Some "SIGPIPE" | 14 => Some "SIGALRM" | 15 => Some "SIGTERM"
  | _ => None
  end%Z.

(** [CalledProcessError.__str__]. *)
Definition cpe_str (rc : Z) (c : Cmd) : string :=
  if bool_decide (rc < 0)%Z then
    match signal_name (- rc) with
    | Some sig =>
        "Command '" +:+ cmd_str c +:+ "' died with <Signals." +:+ sig +:+ ": "
          +:+ pretty (- rc)%Z +:+ ">."
    | None =>
        "Command '" +:+ cmd_str c +:+ "' died with unknown signal " +:+ pretty (- rc)%Z +:+ "."
    end
  else "Command '" +:+ cmd_str c +:+ "' returned non-zero exit status " +:+ pretty rc +:+ ".".

(** [str(e)] for the exceptions of this development. *)
Definition exc_str (e : PyExc) : string :=
  match e with
  | ImportError m => m
  | ModuleNotFoundError n => "No module named '" +:+ n +:+ "'"
  | CalledProcessError rc c => cpe_str rc c
  | FileNotFoundError f => "[Errno 2] No such file or directory: '" +:+ f +:+ "'"
  | PermissionError f => "[Errno 13] Permission denied: '" +:+ f +:+ "'"
  | TypeError m => m
  | ValueError m => m
  | KeyError k => "'" +:+ k +:+ "'"
  end.

(** ** What a command does in a world *)

Definition cmd_argv (w : World) (c : Cmd) : list string := popen_argv (w_platform w) c.

Definition cmd_status (w : World) (c : Cmd) : option Z := w_exec w (cmd_argv w c).

(** The exception [subprocess.run(c, check=True)] raises when [c] does
    not exit with 0. *)
Definition spawn_exc (w : World) (c : Cmd) : PyExc :=
  match cmd_status w c with
  | None => FileNotFoundError (default "" (head (cmd_argv w c)))
  | Some rc => CalledProcessError rc c
  end.

(** ** Lemmas *)

(** The registry and the platform are not touched by a spawn. *)
Lemma subprocess_run_reg c w :
  w_reg (snd (subprocess_run c w)) = w_reg w ∧
  w_platform (snd (subprocess_run c w)) = w_platform w.
Proof.
  unfold subprocess_run. destruct (w_exec w _) as [rc|]; [|done].
  by case_bool_decide.
Qed.

(** The only exceptions [subprocess.run] raises here. *)
Lemma subprocess_run_exc c w e w' :
  subprocess_run c w = (Exc e, w') ->
  (∃ f, e = FileNotFoundError f) ∨ (∃ rc, rc ≠ 0%Z ∧ e = CalledProcessError rc c).
Proof.
  unfold subprocess_run. destruct (w_exec w _) as [rc|]; intros H.
  - case_bool_decide; simplify_eq; eauto.
  - simplify_eq. eauto.
Qed.

(** Every run in one equation: the outcome, and the world with the spawn
    recorded and, after a zero status, the installed modules. *)
Lemma subprocess_run_eq c w :
  subprocess_run c w
  = (if bool_decide (cmd_status w c = Some 0%Z) then Ret 0%Z else Exc (spawn_exc w c),
     (if bool_decide (cmd_status w c = Some 0%Z) then add_modules (w_installs w (cmd_argv w c))
      else id) (add_event (ESpawn (cmd_argv w c) (cmd_status w c)) w)).
Proof.
  unfold subprocess_run, spawn_exc, cmd_status, cmd_argv.
  destruct (w_exec w _) as [rc|]; [|by rewrite bool_decide_false].
  repeat case_bool_decide; simplify_eq; done.
Qed.
