(* ===== verification/Install.v ===== *)
(** * [check_installation] and [_install_package]

    [check_installation] (lines 60-78 of [general.py]) imports a package
    with [__import__]. When that raises [ImportError] it either raises its
    own [ImportError] or, with [auto_install], calls [_install_package] and
    then runs the extra commands one after the other.
    [_install_package] (lines 81-106) imports [create_logger] from the
    sibling module [thutil.general_utils]. That module is not part of the
    repository, so the file states what the code needs of it as the
    interface [LoggerFactory] and gives one instance: the logger factory of
    [general.py] called with the defaults, as the specification describes
    it. It then logs, runs [pip install -U ...] with [subprocess.run],
    logs again, and turns a [CalledProcessError] of the installer into a
    logged error.

    The time of the log records is a variable [now] of the section: the
    model has no clock, and the theorems hold at every time. *)

From S2P Require Import Prelude Strftime PercentFormat Runtime Logging CreateLogger WinCmdline Subprocess.

(** ** Importing modules *)

(** The names [__import__] imports in turn: ["a.b.c"] imports ["a"],
    ["a.b"] and ["a.b.c"]. *)
Fixpoint dotted_prefixes_go (acc : string) (s : string) : list string :=
  match s with
  | "" => [acc]
  | String c r =>
      if bool_decide (c = "."%char) then acc :: dotted_prefixes_go (snoc_str acc c) r
      else dotted_prefixes_go (snoc_str acc c) r
  end.

Definition dotted_prefixes (name : string) : list string := dotted_prefixes_go "" name.

(** The exception of [__import__(name)] for an absolute name, if any:
    [ValueError] for the empty name, [ModuleNotFoundError] naming the
    first package of the path that cannot be found. *)
Definition import_error (w : World) (name : string) : option PyExc :=
  if bool_decide (name = "") then Some (ValueError "Empty module name")
  else ModuleNotFoundError <$> find (fun m => bool_decide (m ∉ w_modules w)) (dotted_prefixes name).

Definition import_module (name : string) : pm unit :=
  fun w => (match import_error w name with Some e => Exc e | None => Ret tt end, w).

(** [from .general_utils import create_logger] inside the package
    [thutil], which is loaded already: only the submodule is looked up. *)
Definition general_utils : string := "thutil.general_utils".

Definition import_general_utils : pm unit :=
  fun w =>
    if bool_decide (general_utils ∈ w_modules w) then (Ret tt, w)
    else (Exc (ModuleNotFoundError general_utils), w).

(** ** The logger factory of [thutil.general_utils] *)

(** What [_install_package] relies on: [create_logger()] returns a logger
    and changes nothing but the logging registry, which it keeps
    well-formed. *)
Class LoggerFactory := {
  lf_create : pm LoggerRef;
  lf_create_run w :
    reg_wf (w_reg w) -> ∃ lr r, lf_create w = (Ret lr, set_reg r w) ∧ reg_wf r
}.

(** [create_logger()] of [thutil.general_utils], the logger factory of the
    specification: [create_logger] of [general.py] with its defaults, under
    the module's own name. *)
Definition general_utils_create_logger : pm LoggerRef :=
  create_logger (VStr general_utils) VNone (VStr "INFO") VNone (VStr "info").

(** ** The two functions *)

(** The command [_install_package] runs (lines 96-99). *)
Definition install_command (package_name : string) (git_repo : PyVal) : string :=
  if truthy git_repo then "pip install -U git+" +:+ py_str git_repo
  else "pip install -U " +:+ package_name.

Definition installing_msg (package_name : string) : string :=
  "Installing the required packages: `" +:+ package_name +:+ "` ...".

Definition install_error_msg (e : PyExc) : string :=
  "Error occurred while installing the package: " +:+ exc_str e.

Definition not_installed_msg (package_name : string) : string :=
  "Required package `" +:+ package_name +:+ "` is not installed. Please install the package.".

(** [if extra_commands:] on [None] or a list. *)
Definition extra_list (extra_commands : option (list Cmd)) : list Cmd :=
  default [] extra_commands.

(** One iteration of the loop of line 73-74. *)
Definition run_extra (c : Cmd) : pm unit := do* subprocess_run c; st_ret tt.

Section Install.
Context `{LoggerFactory} (now : DateTime).

Definition install_ctx (lineno : Z) : LogCtx := mkLogCtx now "_install_package" lineno.

Definition _install_package (package_name : string) (git_repo : PyVal) : pm unit :=
  do* import_general_utils;
  let* logger := lf_create in
  st_try
    (do* log logger INFO (installing_msg package_name) (install_ctx 95);
     do* subprocess_run (CStr (install_command package_name git_repo));
     log logger INFO "Installation successful!" (install_ctx 103))
    is_CalledProcessError
    (fun e => log logger ERROR (install_error_msg e) (install_ctx 106)).

Definition check_installation (package_name : string) (git_repo auto_install : PyVal)
    (extra_commands : option (list Cmd)) : pm unit :=
  st_try (import_module package_name) is_ImportError
    (fun _ =>
       if truthy auto_install then
         do* _install_package package_name git_repo;
         if bool_decide (extra_list extra_commands ≠ []) then
           st_iter run_extra (extra_list extra_commands)
         else st_ret tt
       else st_raise (ImportError (not_installed_msg package_name))).
End Install.

(** ** The plan of a call *)

(** The extra commands that run, in order, and the one that failed: the
    loop stops at the first command that does not exit with 0. *)
Fixpoint extras_spec (status : Cmd -> option Z) (cs : list Cmd) : list Cmd * option Cmd :=
  match cs with
  | [] => ([], None)
  | c :: cs' =>
      if bool_decide (status c = Some 0%Z) then
        let '(ran, fl) := extras_spec status cs' in (c :: ran, fl)
      else ([c], Some c)
  end.

(** The installer, then the extra commands: a [CalledProcessError] of the
    installer is swallowed, a missing installer is not. *)
Definition install_spec (status : Cmd -> option Z) (ic : Cmd) (cs : list Cmd)
    : list Cmd * option Cmd :=
  match status ic with
  | None => ([ic], Some ic)
  | Some _ => let '(ran, fl) := extras_spec status cs in (ic :: ran, fl)
  end.

(** What a call of [check_installation] does, as a plan. *)
Inductive CheckPlan :=
| Present
| Refused (e : PyExc)
| Runs (ran : list Cmd) (failed : option Cmd).

Definition check_spec (w : World) (package_name : string) (git_repo auto_install : PyVal)
    (extra_commands : option (list Cmd)) : CheckPlan :=
  match import_error w package_name with
  | None => Present
  | Some e =>
      if negb (is_ImportError e) then Refused e
      else if negb (truthy auto_install) then Refused (ImportError (not_installed_msg package_name))
      else if bool_decide (general_utils ∉ w_modules w) then Refused (ModuleNotFoundError general_utils)
      else let '(ran, fl) :=
             install_spec (cmd_status w) (CStr (install_command package_name git_repo))
               (extra_list extra_commands) in
           Runs ran fl
  end.

Definition plan_outcome (w : World) (fl : option Cmd) : outcome unit :=
  match fl with None => Ret tt | Some c => Exc (spawn_exc w c) end.

(** ** Moves of the world *)

(** The argument vectors of the processes a trace spawned. *)
Definition spawns (es : list Event) : list (list string) :=
  omap (fun e => match e with ESpawn argv _ => Some argv | _ => None end) es.

(** [w'] follows [w]: the same programs and platform, a well-formed
    registry, a trace extended by events that spawned [xs], and modules
    that only grow, with those of each process of [xs] that exited with 0
    among them. *)
Record moves (w w' : World) (xs : list (list string)) : Prop := {
  mv_exec : w_exec w' = w_exec w;
  mv_platform : w_platform w' = w_platform w;
  mv_wf : reg_wf (w_reg w');
  mv_trace : ∃ es, w_trace w' = w_trace w ++ es ∧ spawns es = xs;
  mv_installs : w_installs w' = w_installs w;
  mv_modules : w_modules w ⊆ w_modules w';
  mv_installed : ∀ argv, argv ∈ xs -> w_exec w argv = Some 0%Z ->
                 list_to_set (w_installs w argv) ⊆ w_modules w'
}.

(** ** Lemmas on moves *)

Lemma add_events_eq es w :
  add_events es w
  = mkWorld (w_reg w) (w_trace w ++ es) (w_open w) (w_modules w) (w_exec w) (w_installs w)
      (w_platform w).
Proof.
  unfold add_events. revert w. induction es as [|e es IH]; intros w; simpl.
  - destruct w; simpl. by rewrite app_nil_r.
  - rewrite IH. simpl. by rewrite <- app_assoc.
Qed.

Lemma spawns_app xs ys : spawns (xs ++ ys) = spawns xs ++ spawns ys.
Proof. apply omap_app. Qed.

(** Logging writes, it spawns nothing. *)
Lemma spawns_emitted r lr lvl msg ctx : spawns (emitted r lr lvl msg ctx) = [].
Proof.
  unfold emitted, call_handlers. destruct (is_enabled_for _ _ _); [|done].
  destruct (concat _) as [|h hs]; [by case_match|].
  match goal with |- context [map ?f (filter ?p ?l)] => generalize (filter p l) end.
  intros l. induction l as [|h' l IH]; [done|].
  cbn. unfold handler_output at 1. by destruct (format_record _ _).
Qed.

Lemma moves_refl w : reg_wf (w_reg w) -> moves w w [].
Proof.
  intros Hw. split; try done.
  - exists []. by rewrite app_nil_r.
  - by intros argv ?%not_elem_of_nil.
Qed.

Lemma moves_trans w1 w2 w3 xs ys zs :
  moves w1 w2 xs -> moves w2 w3 ys -> zs = xs ++ ys -> moves w1 w3 zs.
Proof.
  intros [E1 P1 _ (es1 & T1 & S1) I1 Mo1 In1] [E2 P2 W2 (es2 & T2 & S2) I2 Mo2 In2] ->.
  split; [congruence|congruence|done| |congruence|set_solver|].
  - exists (es1 ++ es2). by rewrite T2, T1, app_assoc, spawns_app, S1, S2.
  - intros argv [Hin|Hin]%elem_of_app Hx; [set_solver|].
    rewrite <- I1. apply In2; [done|by rewrite E1].
Qed.

Lemma moves_set_reg r w : reg_wf r -> moves w (set_reg r w) [].
Proof.
  intros Hr. split; try done.
  - exists []. simpl. by rewrite app_nil_r.
  - by intros argv ?%not_elem_of_nil.
Qed.

(** Commands behave the same in the worlds a move connects. *)
Lemma moves_shell w w' xs :
  moves w w' xs ->
  cmd_status w' = cmd_status w ∧ cmd_argv w' = cmd_argv w ∧ spawn_exc w' = spawn_exc w.
Proof.
  intros M. unfold spawn_exc, cmd_status, cmd_argv. by rewrite (mv_exec _ _ _ M), (mv_platform _ _ _ M).
Qed.

Lemma log_moves lr lvl msg ctx w :
  reg_wf (w_reg w) ->
  ∃ w', log lr lvl msg ctx w = (Ret tt, w') ∧ moves w w' [] ∧ w_reg w' = w_reg w.
Proof.
  intros Hw. rewrite log_run. eexists. split; [done|].
  rewrite add_events_eq. split; [|done]. split; try done.
  - eexists. split; [done|]. apply spawns_emitted.
  - by intros argv ?%not_elem_of_nil.
Qed.

Lemma spawn_moves c w :
  reg_wf (w_reg w) ->
  ∃ w', subprocess_run c w
        = (if bool_decide (cmd_status w c = Some 0%Z) then Ret 0%Z else Exc (spawn_exc w c), w')
      ∧ moves w w' [cmd_argv w c] ∧ w_reg w' = w_reg w.
Proof.
  intros Hw. rewrite subprocess_run_eq. eexists. split; [done|].
  case_bool_decide as Hs; (split; [|done]); split; cbn; try done;
    try (eexists; split; done).
  - apply union_subseteq_r.
  - intros argv ->%list_elem_of_singleton _. apply union_subseteq_l.
  - intros argv ->%list_elem_of_singleton Hx. by unfold cmd_status in Hs.
Qed.

(** ** The loop over the extra commands *)

Lemma extras_run cs w :
  reg_wf (w_reg w) ->
  ∃ w', st_iter run_extra cs w = (plan_outcome w (extras_spec (cmd_status w) cs).2, w')
      ∧ moves w w' (map (cmd_argv w) (extras_spec (cmd_status w) cs).1)
      ∧ w_reg w' = w_reg w.
Proof.
  revert w. induction cs as [|c cs IH]; intros w Hw; simpl.
  - eexists. split; [done|]. split; [by apply moves_refl|done].
  - destruct (spawn_moves c w Hw) as (w1 & Hrun & M1 & R1).
    destruct (moves_shell _ _ _ M1) as (Es & Ea & Ee).
    unfold run_extra. rewrite bind_assoc. case_bool_decide as Hs.
    + rewrite (bind_Ret _ _ _ _ _ Hrun), bind_ret_l.
      destruct (IH w1 (mv_wf _ _ _ M1)) as (w2 & H2 & M2 & R2).
      rewrite Es, Ea in M2. rewrite Es in H2.
      destruct (extras_spec (cmd_status w) cs) as [ran fl]. cbn [fst snd map] in *.
      exists w2. split; [unfold plan_outcome in *; rewrite Ee in H2; exact H2|].
      split; [by eapply moves_trans; [exact M1|exact M2|]|congruence].
    + rewrite (bind_Exc _ _ _ _ _ Hrun). by exists w1.
Qed.

(** ** The instance of the interface *)

Lemma general_utils_create_logger_eq w :
  reg_wf (w_reg w) ->
  general_utils_create_logger w
  = (Ret (LNamed general_utils),
     set_reg (reg_after_console (LNamed general_utils) INFO (format_console_of (VStr "info"))
                (ensure_logger general_utils (w_reg w))) w).
Proof.
  intros Hw. unfold general_utils_create_logger.
  refine (create_logger_run_console (VStr general_utils) VNone (VStr "INFO") VNone (VStr "info")
            w Hw general_utils eq_refl _ eq_refl).
  decide_prop.
Qed.

Lemma general_utils_create_logger_run w :
  reg_wf (w_reg w) ->
  ∃ lr r, general_utils_create_logger w = (Ret lr, set_reg r w) ∧ reg_wf r.
Proof.
  intros Hw. do 2 eexists. split; [by apply general_utils_create_logger_eq|].
  eauto with py.
Qed.

#[export] Instance general_utils_factory : LoggerFactory :=
  {| lf_create_run := general_utils_create_logger_run |}.

(** The registry after [create_logger()] of [thutil.general_utils] on a
    fresh interpreter: one logger at [INFO] with one console handler. *)
Definition gu_registry : Registry :=
  reg_after_console (LNamed general_utils) INFO (format_console_of (VStr "info"))
    (ensure_logger general_utils empty_registry).

Lemma gu_registry_emits lvl msg ctx :
  (INFO <= lvl)%Z ->
  emitted gu_registry (LNamed general_utils) lvl msg ctx
  = [EWrite Stderr (general_utils +:+ " - " +:+ getLevelName lvl +:+ ": " +:+ msg +:+ terminator)].
Proof.
  intros Hl. unfold gu_registry.
  rewrite (emitted_single _ general_utils
             (mkLogger INFO [console_handler 0 INFO (format_console_of (VStr "info"))] true false));
    [|apply fresh_console_loggers|done|done|done].
  cbn [lg_disabled lg_level lg_handlers negb]. rewrite disable_after_console, disable_ensure.
  replace (lvl <=? reg_disable empty_registry)%Z with false
    by (symmetry; apply Z.leb_gt; cbv [reg_disable empty_registry NOTSET INFO] in *; lia).
  replace (INFO <=? lvl)%Z with true by (symmetry; by apply Z.leb_le).
  cbn [andb filter list_filter]. rewrite bool_decide_true by done. cbn [map].
  unfold handler_output, format_record. simpl. by autorewrite with pyrw.
Qed.

(** ** The plan on its own *)

Lemma extras_spec_all st cs :
  Forall (fun c => st c = Some 0%Z) cs -> extras_spec st cs = (cs, None).
Proof.
  induction 1 as [|c cs Hc _ IH]; [done|]. simpl. by rewrite bool_decide_true, IH.
Qed.

Lemma extras_spec_stop st pre c post :
  Forall (fun x => st x = Some 0%Z) pre -> st c ≠ Some 0%Z ->
  extras_spec st (pre ++ c :: post) = (pre ++ [c], Some c).
Proof.
  intros Hpre Hc. induction Hpre as [|x pre Hx _ IH]; simpl.
  - by rewrite bool_decide_false.
  - by rewrite bool_decide_true, IH.
Qed.

(** ** The installer *)

Section Runs.
Context `{LoggerFactory} (now : DateTime).

Lemma import_general_utils_ok w :
  general_utils ∈ w_modules w -> import_general_utils w = (Ret tt, w).
Proof. intros Hgu. unfold import_general_utils. by rewrite bool_decide_true. Qed.

(** [_install_package] logs, spawns the installer and logs again; only
    a missing installer escapes. *)
Lemma install_run p g w :
  reg_wf (w_reg w) -> general_utils ∈ w_modules w ->
  ∃ w', _install_package now p g w
        = (match cmd_status w (CStr (install_command p g)) with
           | None => Exc (spawn_exc w (CStr (install_command p g)))
           | Some _ => Ret tt
           end, w')
      ∧ moves w w' [cmd_argv w (CStr (install_command p g))]
      ∧ w_reg w' = w_reg (snd (lf_create w)).
Proof.
  intros Hw Hgu. set (ic := CStr (install_command p g)).
  unfold _install_package. rewrite (bind_Ret _ _ _ _ _ (import_general_utils_ok w Hgu)).
  destruct (lf_create_run w Hw) as (lr & r & Hc & Hr). rewrite Hc.
  rewrite (bind_Ret _ _ _ _ _ Hc). cbn [snd]. rewrite set_reg_reg.
  pose proof (moves_set_reg r w Hr) as M0.
  destruct (log_moves lr INFO (installing_msg p) (install_ctx now 95) (set_reg r w) Hr)
    as (w1 & L1 & M1 & R1).
  rewrite set_reg_reg in R1.
  assert (M01 : moves w w1 []) by (by eapply moves_trans; [exact M0|exact M1|]).
  destruct (moves_shell _ _ _ M01) as (Es & Ea & Ee).
  destruct (spawn_moves ic w1 (mv_wf _ _ _ M01)) as (w2 & S2 & M2 & R2).
  rewrite Es, Ea, Ee in *.
  assert (M02 : moves w w2 [cmd_argv w ic]) by (by eapply moves_trans; [exact M01|exact M2|]).
  unfold st_try. rewrite (bind_Ret _ _ _ _ _ L1).
  destruct (cmd_status w ic) as [rc|] eqn:Hs.
  - case_bool_decide as H0.
    + rewrite (bind_Ret _ _ _ _ _ S2).
      destruct (log_moves lr INFO "Installation successful!" (install_ctx now 103) w2
                  (mv_wf _ _ _ M02)) as (w3 & L3 & M3 & R3).
      rewrite L3. exists w3. split; [done|].
      split; [by eapply moves_trans; [exact M02|exact M3|]|congruence].
    + rewrite (bind_Exc _ _ _ _ _ S2).
      assert (Hcpe : is_CalledProcessError (spawn_exc w ic) = true)
        by (unfold spawn_exc; by rewrite Hs).
      rewrite Hcpe.
      destruct (log_moves lr ERROR (install_error_msg (spawn_exc w ic)) (install_ctx now 106) w2
                  (mv_wf _ _ _ M02)) as (w3 & L3 & M3 & R3).
      rewrite L3. exists w3. split; [done|].
      split; [by eapply moves_trans; [exact M02|exact M3|]|congruence].
  - rewrite bool_decide_false in S2 by done.
    rewrite (bind_Exc _ _ _ _ _ S2).
    assert (Hcpe : is_CalledProcessError (spawn_exc w ic) = false)
      by (unfold spawn_exc; by rewrite Hs).
    rewrite Hcpe. exists w2. split; [done|]. split; [done|congruence].
Qed.
End Runs.

Section Check.
Context `{LoggerFactory} (now : DateTime).

Lemma check_import_caught p g auto ex w e :
  import_error w p = Some e -> is_ImportError e = true ->
  check_installation now p g auto ex w
  = (if truthy auto then
       (do* _install_package now p g;
        if bool_decide (extra_list ex ≠ []) then st_iter run_extra (extra_list ex)
        else st_ret tt) w
     else (Exc (ImportError (not_installed_msg p)), w)).
Proof.
  intros He Hie. unfold check_installation, st_try, import_module. rewrite He, Hie.
  by destruct (truthy auto).
Qed.

(** With [auto_install], an importable [general_utils] and a package
    that does not import: the processes of [install_spec]. *)
Lemma auto_install_run p g auto ex w e :
  reg_wf (w_reg w) -> import_error w p = Some e -> is_ImportError e = true ->
  truthy auto = true -> general_utils ∈ w_modules w ->
  let plan := install_spec (cmd_status w) (CStr (install_command p g)) (extra_list ex) in
  ∃ w', check_installation now p g auto ex w = (plan_outcome w plan.2, w')
      ∧ moves w w' (map (cmd_argv w) plan.1).
Proof.
  intros Hw He Hie Hauto Hgu plan. subst plan. rewrite (check_import_caught _ _ _ _ _ e He Hie), Hauto.
  destruct (install_run now p g w Hw Hgu) as (w1 & I1 & M1 & R1).
  destruct (moves_shell _ _ _ M1) as (Es & Ea & Ee). unfold install_spec.
  destruct (cmd_status w _) as [rc|] eqn:Hs.
  - rewrite (bind_Ret _ _ _ _ _ I1). case_bool_decide as Hne.
    + destruct (extras_run (extra_list ex) w1 (mv_wf _ _ _ M1)) as (w2 & E2 & M2 & R2).
      rewrite Es, Ea in M2. rewrite Es in E2. unfold plan_outcome in *. rewrite Ee in E2.
      destruct (extras_spec (cmd_status w) (extra_list ex)) as [ran fl]. cbn [fst snd map] in *.
      exists w2. split; [exact E2|]. by eapply moves_trans; [exact M1|exact M2|].
    + rewrite Hne. by exists w1.
  - rewrite (bind_Exc _ _ _ _ _ I1). by exists w1.
Qed.
Lemma install_no_utils p g w :
  general_utils ∉ w_modules w ->
  _install_package now p g w = (Exc (ModuleNotFoundError general_utils), w).
Proof.
  intros Hgu. unfold _install_package. apply bind_Exc.
  unfold import_general_utils. by rewrite bool_decide_false.
Qed.
End Check.

(** ** Present and missing packages *)

Definition package_present (w : World) (p : string) : Prop :=
  p ≠ "" ∧ ∀ m, m ∈ dotted_prefixes p -> m ∈ w_modules w.

Definition package_missing (w : World) (p : string) : Prop :=
  p ≠ "" ∧ ∃ m, m ∈ dotted_prefixes p ∧ m ∉ w_modules w.

Lemma import_error_present w p : package_present w p -> import_error w p = None.
Proof.
  intros [Hp Hall]. unfold import_error. rewrite bool_decide_false by done.
  destruct (find _ _) as [m|] eqn:Hf; [|done].
  apply find_some in Hf as [Hin Hm]. apply bool_decide_eq_true in Hm.
  rewrite <- list_elem_of_In in Hin. by apply Hall in Hin.
Qed.

Lemma import_error_missing w p :
  package_missing w p -> ∃ m, import_error w p = Some (ModuleNotFoundError m).
Proof.
  intros [Hp (m & Hin & Hm)]. unfold import_error. rewrite bool_decide_false by done.
  destruct (find _ _) as [m'|] eqn:Hf; [by eexists|].
  pose proof (find_none _ _ Hf m) as Hn. rewrite list_elem_of_In in Hin.
  specialize (Hn Hin). by apply bool_decide_eq_false in Hn.
Qed.

(** ** Specifications of the steps *)

Lemma import_module_spec (P : World -> Prop) n :
  hoare P (import_module n) (fun _ => P) (fun _ => P).
Proof. intros w Hw. unfold import_module. by destruct (import_error w n). Qed.

Lemma import_general_utils_spec (P : World -> Prop) :
  hoare P import_general_utils (fun _ => P) (fun _ => P).
Proof. intros w Hw. unfold import_general_utils. by case_bool_decide. Qed.

Lemma subprocess_run_spec c :
  hoare wf_world (subprocess_run c) (fun _ => wf_world) (fun _ => wf_world).
Proof.
  intros w Hw. unfold wf_world in *. destruct (subprocess_run_reg c w) as [Hr _].
  destruct (subprocess_run c w) as [[] w']; simpl in Hr; by rewrite Hr.
Qed.

Lemma lf_create_spec `{LoggerFactory} :
  hoare wf_world lf_create (fun _ => wf_world) (fun _ => wf_world).
Proof. intros w Hw. by destruct (lf_create_run w Hw) as (lr & r & -> & Hr). Qed.

Lemma log_wf lr lvl msg ctx :
  hoare wf_world (log lr lvl msg ctx) (fun _ => wf_world) (fun _ => wf_world).
Proof. apply (log_spec reg_wf). Qed.

#[export] Hint Resolve import_module_spec import_general_utils_spec subprocess_run_spec
  lf_create_spec log_wf : py.

Lemma install_package_wf `{LoggerFactory} now p g :
  hoare wf_world (_install_package now p g) (fun _ => wf_world) (fun _ => wf_world).
Proof.
  unfold _install_package.
  hoare_step; [auto with py|intros []]. hoare_step; [auto with py|intros lr].
  eapply (hoare_try _ _ _ (fun _ => wf_world)); [|intros e _; auto with py|done].
  hoare_step; [auto with py|intros u]. hoare_step; [auto with py|intros rc]. auto with py.
Qed.

(** ** Theorems *)

Section Claims.
Context `{LoggerFactory} (now : DateTime).

(** The plan of every call, shared by the refinement theorems of this
    file and of [CheckMachine]. *)
Lemma check_installation_plan p g auto ex w :
  reg_wf (w_reg w) ->
  match check_spec w p g auto ex with
  | Present => check_installation now p g auto ex w = (Ret tt, w)
  | Refused e => check_installation now p g auto ex w = (Exc e, w)
  | Runs ran fl =>
      ∃ w', check_installation now p g auto ex w = (plan_outcome w fl, w')
          ∧ moves w w' (map (cmd_argv w) ran)
  end.
Proof.
  intros Hw. unfold check_spec.
  destruct (import_error w p) as [e|] eqn:He;
    [|unfold check_installation, st_try, import_module; by rewrite He].
  destruct (is_ImportError e) eqn:Hie;
    [|unfold check_installation, st_try, import_module; by rewrite He, Hie].
  destruct (truthy auto) eqn:Hauto; cbn [negb];
    [|by rewrite (check_import_caught now _ _ _ _ _ _ He Hie), Hauto].
  case_bool_decide as Hgu.
  - rewrite (check_import_caught now _ _ _ _ _ _ He Hie), Hauto.
    apply bind_Exc, (install_no_utils now), Hgu.
  - destruct (auto_install_run now p g auto ex w e Hw He Hie Hauto Hgu) as (w' & R & M).
    destruct (install_spec _ _ _) as [ran fl]. by exists w'.
Qed.

(** C3: [check_installation] refines its plan [check_spec]: an
    importable package returns with the world unchanged; a refusal
    raises before anything happens; otherwise the processes of the plan
    are spawned in order and the call returns or raises as the plan
    says. *)
Theorem check_installation_refines p g auto ex w :
  reg_wf (w_reg w) ->
  match check_spec w p g auto ex with
  | Present => check_installation now p g auto ex w = (Ret tt, w)
  | Refused e => check_installation now p g auto ex w = (Exc e, w)
  | Runs ran fl =>
      ∃ w', check_installation now p g auto ex w = (plan_outcome w fl, w')
          ∧ moves w w' (map (cmd_argv w) ran)
  end.
Proof. apply check_installation_plan. Qed.

(** C6: on POSIX the installer command is one string, so [Popen] looks
    for a program named by the whole line ["pip install -U <pkg>"].
    Where there is none, the [FileNotFoundError] is not a
    [CalledProcessError]: it escapes [_install_package] and
    [check_installation], and no extra command runs. *)
Theorem check_installation_posix_string p g auto ex w :
  reg_wf (w_reg w) -> w_platform w = Posix -> package_missing w p -> truthy auto = true ->
  general_utils ∈ w_modules w -> w_exec w [install_command p g] = None ->
  ∃ w', check_installation now p g auto ex w
        = (Exc (FileNotFoundError (install_command p g)), w')
      ∧ moves w w' [[install_command p g]].
Proof.
  intros Hw Hp Hmiss Ha Hgu Hx. destruct (import_error_missing w p Hmiss) as [m He].
  destruct (auto_install_run now p g auto ex w _ Hw He eq_refl Ha Hgu) as (w' & R & M).
  assert (Hs : cmd_status w (CStr (install_command p g)) = None)
    by (unfold cmd_status, cmd_argv; by rewrite Hp).
  unfold install_spec in R, M. rewrite Hs in R, M. exists w'.
  unfold plan_outcome, spawn_exc in R. cbn [fst snd] in R, M. rewrite Hs in R.
  unfold cmd_argv in R, M. rewrite Hp in R, M. done.
Qed.

(** C7: the extra commands run in the order given and stop at the first
    one that does not exit with 0, whose exception propagates; the
    installer may have exited with any status. *)
Theorem check_installation_extras_stop p g auto pre c post w rc :
  reg_wf (w_reg w) -> package_missing w p -> truthy auto = true ->
  general_utils ∈ w_modules w -> cmd_status w (CStr (install_command p g)) = Some rc ->
  Forall (fun x => cmd_status w x = Some 0%Z) pre -> cmd_status w c ≠ Some 0%Z ->
  ∃ w', check_installation now p g auto (Some (pre ++ c :: post)) w = (Exc (spawn_exc w c), w')
      ∧ moves w w' (cmd_argv w (CStr (install_command p g)) :: map (cmd_argv w) (pre ++ [c])).
Proof.
  intros Hw Hmiss Ha Hgu Hs Hpre Hc. destruct (import_error_missing w p Hmiss) as [m He].
  destruct (auto_install_run now p g auto (Some (pre ++ c :: post)) w _ Hw He eq_refl Ha Hgu)
    as (w' & R & M).
  unfold install_spec, extra_list in R, M. cbn [default id] in R, M.
  rewrite Hs, (extras_spec_stop _ _ _ _ Hpre Hc) in R, M. by exists w'.
Qed.

(** C8: when every extra command succeeds, they all run after the
    installer, in order, and the call returns. The installer's exit
    status does not matter: after a failed installation, logged and
    swallowed, the extra commands run all the same. *)
Theorem check_installation_extras_all p g auto cs w rc :
  reg_wf (w_reg w) -> package_missing w p -> truthy auto = true ->
  general_utils ∈ w_modules w -> cmd_status w (CStr (install_command p g)) = Some rc ->
  Forall (fun x => cmd_status w x = Some 0%Z) cs ->
  ∃ w', check_installation now p g auto (Some cs) w = (Ret tt, w')
      ∧ moves w w' (cmd_argv w (CStr (install_command p g)) :: map (cmd_argv w) cs).
Proof.
  intros Hw Hmiss Ha Hgu Hs Hall. destruct (import_error_missing w p Hmiss) as [m He].
  destruct (auto_install_run now p g auto (Some cs) w _ Hw He eq_refl Ha Hgu) as (w' & R & M).
  unfold install_spec, extra_list in R, M. cbn [default id] in R, M.
  rewrite Hs, (extras_spec_all _ _ Hall) in R, M. by exists w'.
Qed.

(** C21: [check_installation] installs nothing and writes nothing unless
    the package is missing and [auto_install] is truthy: an importable
    package returns at once, and a missing one without [auto_install]
    raises the [ImportError] naming it; in both cases the world is left
    as it was (no process, no log line). *)
Theorem check_installation_no_install p g auto ex w :
  (package_present w p -> check_installation now p g auto ex w = (Ret tt, w))
  ∧ (package_missing w p -> truthy auto = false ->
     check_installation now p g auto ex w = (Exc (ImportError (not_installed_msg p)), w)).
Proof.
  split.
  - intros Hp. unfold check_installation, st_try, import_module.
    by rewrite (import_error_present w p Hp).
  - intros Hmiss Ha. destruct (import_error_missing w p Hmiss) as [m He].
    by rewrite (check_import_caught now _ _ _ _ _ _ He eq_refl), Ha.
Qed.

(** C22: with [auto_install] but without the module
    [thutil.general_utils], which the repository does not contain, the
    relative import in [_install_package] raises [ModuleNotFoundError]
    (an [ImportError] raised inside the handler, so it propagates) and
    nothing is installed. *)
Theorem check_installation_utils_missing p g auto ex w :
  package_missing w p -> truthy auto = true -> general_utils ∉ w_modules w ->
  check_installation now p g auto ex w = (Exc (ModuleNotFoundError general_utils), w).
Proof.
  intros Hmiss Ha Hgu. destruct (import_error_missing w p Hmiss) as [m He].
  rewrite (check_import_caught now _ _ _ _ _ _ He eq_refl), Ha.
  apply bind_Exc, (install_no_utils now), Hgu.
Qed.

(** The empty package name is not a missing package: [__import__]
    raises [ValueError], which [except ImportError] does not catch,
    whatever [auto_install] says. *)
Lemma check_installation_empty_name g auto ex w :
  check_installation now "" g auto ex w = (Exc (ValueError "Empty module name"), w).
Proof. reflexivity. Qed.

(** C27: on Windows the C runtime splits the installer's command line
    into the words [pip], [install], [-U] and the package or
    [git+<repo>], when that last word has no blank and no double quote. *)
Theorem install_argv_windows w p g :
  w_platform w = Windows ->
  plain_word (if truthy g then "git+" +:+ py_str g else p) = true ->
  cmd_argv w (CStr (install_command p g))
  = ["pip"; "install"; "-U"; if truthy g then "git+" +:+ py_str g else p].
Proof.
  intros Hp Ht. unfold cmd_argv, popen_argv, install_command. rewrite Hp.
  set (t := if truthy g then "git+" +:+ py_str g else p) in *.
  assert (E : (if truthy g then "pip install -U git+" +:+ py_str g else "pip install -U " +:+ p)
              = "pip" +:+ tail_enc ["install"; "-U"; t]).
  { cbn [tail_enc]. rewrite (quote_arg_plain t Ht), (quote_arg_plain "install"), (quote_arg_plain "-U")
      by (vm_compute; reflexivity).
    rewrite append_nil_str. subst t. by destruct (truthy g). }
  rewrite E. apply crt_argv_plain_head. vm_compute. reflexivity.
Qed.

(** C13: auto-install makes progress: when the installer exits with 0
    and installs the packages of [p]'s dotted path that were missing,
    [p] imports after the call, whether the extra commands then succeed
    or fail, and a second call returns at once and changes nothing. *)
Theorem check_installation_installs p g auto ex w :
  reg_wf (w_reg w) -> package_missing w p -> truthy auto = true ->
  general_utils ∈ w_modules w -> cmd_status w (CStr (install_command p g)) = Some 0%Z ->
  (∀ m, m ∈ dotted_prefixes p ->
        m ∈ w_modules w ∨ m ∈ w_installs w (cmd_argv w (CStr (install_command p g)))) ->
  let w' := snd (check_installation now p g auto ex w) in
  import_error w' p = None ∧ check_installation now p g auto ex w' = (Ret tt, w').
Proof.
  intros Hw Hmiss Ha Hgu Hs Hpre w'. destruct (import_error_missing w p Hmiss) as [m He].
  destruct (auto_install_run now p g auto ex w _ Hw He eq_refl Ha Hgu) as (w1 & R & M).
  subst w'. rewrite R. cbn [snd].
  assert (Hpres : package_present w1 p).
  { split; [apply Hmiss|]. intros m' Hm'. destruct (Hpre m' Hm') as [Hin|Hin].
    - by apply (mv_modules _ _ _ M).
    - apply (mv_installed _ _ _ M (cmd_argv w (CStr (install_command p g)))); [| |by apply elem_of_list_to_set].
      + unfold install_spec. rewrite Hs. destruct (extras_spec _ _). apply elem_of_cons. by left.
      + exact Hs. }
  split; [by apply import_error_present|].
  unfold check_installation, st_try, import_module. by rewrite (import_error_present w1 p Hpres).
Qed.
End Claims.

(** C26: every installation attempt builds its logger anew and appends
    one more console handler to the logger ["thutil.general_utils"]; the
    handlers of earlier attempts stay, so each line of a later attempt is
    written once per attempt so far. *)
Theorem install_package_adds_handler now p g w :
  reg_wf (w_reg w) -> general_utils ∈ w_modules w ->
  lg_handlers (logger_of (w_reg (snd (@_install_package general_utils_factory now p g w)))
                 (LNamed general_utils))
  = lg_handlers (logger_of (w_reg w) (LNamed general_utils))
    ++ [console_handler (reg_next_id (w_reg w)) INFO (format_console_of (VStr "info"))].
Proof.
  intros Hw Hgu. destruct (install_run now p g w Hw Hgu) as (w' & I & _ & R).
  rewrite I. cbn [snd]. rewrite R. cbn [lf_create general_utils_factory].
  rewrite (general_utils_create_logger_eq w Hw). cbn [snd].
  rewrite set_reg_reg, logger_after_console, next_ensure. cbn [push_handler set_level lg_handlers].
  by rewrite handlers_ensure.
Qed.

Lemma cmd_status_add_events es w c : cmd_status (add_events es w) c = cmd_status w c.
Proof. by rewrite add_events_eq. Qed.

Lemma cmd_argv_add_events es w c : cmd_argv (add_events es w) c = cmd_argv w c.
Proof. by rewrite add_events_eq. Qed.

(** C9: on a fresh interpreter, one installation writes, in order: the
    line [thutil.general_utils - INFO: Installing ...] to stderr, the
    spawn of the installer, and then [... - INFO: Installation
    successful!] after a zero status, or [... - ERROR: Error occurred
    while installing the package: <str(e)>] after a nonzero one; the
    call returns in both cases. *)
Theorem install_package_trace now p g w rc :
  w_reg w = empty_registry -> general_utils ∈ w_modules w ->
  cmd_status w (CStr (install_command p g)) = Some rc ->
  fst (@_install_package general_utils_factory now p g w) = Ret tt ∧
  w_trace (snd (@_install_package general_utils_factory now p g w))
  = w_trace w ++
    [EWrite Stderr (general_utils +:+ " - INFO: " +:+ installing_msg p +:+ terminator);
     ESpawn (cmd_argv w (CStr (install_command p g))) (Some rc);
     if bool_decide (rc = 0%Z)
     then EWrite Stderr (general_utils +:+ (" - INFO: Installation successful!" +:+ terminator))
     else EWrite Stderr (general_utils +:+ " - ERROR: "
                         +:+ install_error_msg (CalledProcessError rc (CStr (install_command p g)))
                         +:+ terminator)].
Proof.
  intros Hr Hgu Hs. set (ic := CStr (install_command p g)).
  assert (Hw : reg_wf (w_reg w)) by (rewrite Hr; apply empty_registry_wf).
  unfold _install_package. rewrite (bind_Ret _ _ _ _ _ (import_general_utils_ok w Hgu)).
  cbn [lf_create general_utils_factory].
  rewrite (bind_Ret _ _ _ _ _ (general_utils_create_logger_eq w Hw)), Hr. fold gu_registry.
  unfold st_try. rewrite (bind_Ret _ _ _ _ _ (log_run _ _ _ _ _)), set_reg_reg.
  rewrite gu_registry_emits by done.
  match goal with |- context [add_events ?es (set_reg gu_registry w)] =>
    remember (add_events es (set_reg gu_registry w)) as w1 eqn:Hw1 end.
  assert (Hs1 : cmd_status w1 ic = Some rc) by (subst w1; by rewrite cmd_status_add_events).
  assert (Ha1 : cmd_argv w1 ic = cmd_argv w ic) by (subst w1; by rewrite cmd_argv_add_events).
  assert (Hr1 : w_reg w1 = gu_registry) by (subst w1; by rewrite add_events_reg).
  assert (Ht1 : w_trace w1 = w_trace w ++
     [EWrite Stderr (general_utils +:+ " - " +:+ getLevelName INFO +:+ ": " +:+ installing_msg p
                     +:+ terminator)]) by (subst w1; by rewrite add_events_trace).
  pose proof (subprocess_run_eq ic w1) as Hrun. rewrite Hs1, Ha1 in Hrun.
  case_bool_decide as H0.
  - simplify_eq. rewrite (bind_Ret _ _ _ _ _ Hrun), log_run. cbn [w_reg add_modules add_event id].
    rewrite Hr1, gu_registry_emits by done.
    split; [done|]. cbn [snd]. rewrite add_events_trace, bool_decide_true by done.
    cbn [w_trace add_modules add_event]. rewrite Ht1, <- !app_assoc. reflexivity.
  - rewrite (bind_Exc _ _ _ _ _ Hrun).
    unfold spawn_exc. rewrite Hs1. cbn [is_CalledProcessError].
    rewrite log_run. cbn [w_reg add_event id].
    rewrite Hr1, gu_registry_emits by done.
    split; [done|]. cbn [snd]. rewrite add_events_trace, bool_decide_false by congruence.
    cbn [w_trace add_event]. rewrite Ht1, <- !app_assoc. reflexivity.
Qed.

(** ** Witnesses *)

Definition pip_argv (p : string) : list string := ["pip"; "install"; "-U"; p].

(** An interpreter where [thutil.general_utils] imports, [pip install -U
    numpy] exits with [pip_status] and installs [numpy], [make] exits
    with 0 and [false] with 1. *)
Definition demo_world (plat : Platform) (pip_status : Z) : World :=
  mkWorld empty_registry [] (fun _ => None) {[ "thutil"; general_utils ]}
    (fun argv =>
       if bool_decide (argv = pip_argv "numpy") then Some pip_status
       else if bool_decide (argv = ["make"]) then Some 0%Z
       else if bool_decide (argv = ["false"]) then Some 1%Z
       else None)
    (fun argv => if bool_decide (argv = pip_argv "numpy") then ["numpy"] else [])
    plat.

Lemma numpy_missing plat rc : package_missing (demo_world plat rc) "numpy".
Proof. split; [decide_prop|]. exists "numpy". split; decide_prop. Qed.

Lemma check_installation_refines_witness :
  check_spec (demo_world Windows 0) "numpy" VNone (VBool true) (Some [CArgv ["make"]])
  = Runs [CStr "pip install -U numpy"; CArgv ["make"]] None
  ∧ ∃ w', check_installation sample_time "numpy" VNone (VBool true) (Some [CArgv ["make"]])
            (demo_world Windows 0) = (Ret tt, w')
        ∧ moves (demo_world Windows 0) w' [pip_argv "numpy"; ["make"]].
Proof.
  split; [vm_compute; reflexivity|].
  exact (check_installation_refines sample_time "numpy" VNone (VBool true)
           (Some [CArgv ["make"]]) (demo_world Windows 0) empty_registry_wf).
Defined.

Lemma check_installation_posix_string_witness :
  ∃ w', check_installation sample_time "numpy" VNone (VBool true) (Some [CArgv ["make"]])
          (demo_world Posix 0) = (Exc (FileNotFoundError "pip install -U numpy"), w')
      ∧ moves (demo_world Posix 0) w' [["pip install -U numpy"]].
Proof.
  apply (check_installation_posix_string sample_time "numpy" VNone (VBool true));
    [exact empty_registry_wf|reflexivity|apply numpy_missing|reflexivity|decide_prop|reflexivity].
Defined.

Lemma check_installation_extras_stop_witness :
  ∃ w', check_installation sample_time "numpy" VNone (VBool true)
          (Some ([CArgv ["make"]] ++ CArgv ["false"] :: [CArgv ["make"]])) (demo_world Windows 0)
        = (Exc (CalledProcessError 1 (CArgv ["false"])), w')
      ∧ moves (demo_world Windows 0) w' [pip_argv "numpy"; ["make"]; ["false"]].
Proof.
  apply (check_installation_extras_stop sample_time "numpy" VNone (VBool true)
           [CArgv ["make"]] (CArgv ["false"]) [CArgv ["make"]] (demo_world Windows 0) 0);
    [exact empty_registry_wf|apply numpy_missing|reflexivity|decide_prop|reflexivity
    |decide_prop|decide_prop].
Defined.

(** [pip] fails with status 1: the error is logged and [make] still runs. *)
Lemma check_installation_extras_all_witness :
  ∃ w', check_installation sample_time "numpy" VNone (VBool true) (Some [CArgv ["make"]])
          (demo_world Windows 1) = (Ret tt, w')
      ∧ moves (demo_world Windows 1) w' [pip_argv "numpy"; ["make"]].
Proof.
  apply (check_installation_extras_all sample_time "numpy" VNone (VBool true) [CArgv ["make"]]
           (demo_world Windows 1) 1);
    [exact empty_registry_wf|apply numpy_missing|reflexivity|decide_prop|reflexivity|decide_prop].
Defined.

Lemma check_installation_no_install_witness :
  check_installation sample_time "thutil" VNone (VBool true) None (demo_world Posix 0)
  = (Ret tt, demo_world Posix 0)
  ∧ check_installation sample_time "numpy" VNone (VBool false) None (demo_world Posix 0)
    = (Exc (ImportError "Required package `numpy` is not installed. Please install the package."),
       demo_world Posix 0).
Proof.
  split.
  - apply (check_installation_no_install sample_time "thutil" VNone (VBool true) None).
    split; [decide_prop|]. intros m Hm.
    apply list_elem_of_singleton in Hm. subst. decide_prop.
  - apply (check_installation_no_install sample_time "numpy" VNone (VBool false) None);
      [apply numpy_missing|reflexivity].
Defined.

Lemma check_installation_utils_missing_witness :
  check_installation sample_time "numpy" VNone (VBool true) None fresh_world
  = (Exc (ModuleNotFoundError general_utils), fresh_world).
Proof.
  apply check_installation_utils_missing; [|reflexivity|decide_prop].
  split; [decide_prop|]. exists "numpy". split; decide_prop.
Defined.

Lemma install_package_adds_handler_witness :
  lg_handlers (logger_of (w_reg (snd (@_install_package general_utils_factory sample_time "numpy"
                                        VNone (demo_world Windows 0))))
                 (LNamed general_utils))
  = [console_handler 0 INFO "%(name)s - %(levelname)s: %(message)s"].
Proof.
  rewrite (install_package_adds_handler sample_time "numpy" VNone (demo_world Windows 0));
    [reflexivity|exact empty_registry_wf|decide_prop].
Defined.

Lemma install_argv_windows_witness :
  cmd_argv (demo_world Windows 0)
    (CStr (install_command "numpy" (VStr "https://github.com/numpy/numpy")))
  = ["pip"; "install"; "-U"; "git+https://github.com/numpy/numpy"].
Proof. apply install_argv_windows; reflexivity. Defined.

(** [pip] exits with 1 on Windows: the error line quotes the command. *)
Lemma install_package_trace_witness :
  fst (@_install_package general_utils_factory sample_time "numpy" VNone (demo_world Windows 1))
  = Ret tt ∧
  w_trace (snd (@_install_package general_utils_factory sample_time "numpy" VNone
                  (demo_world Windows 1)))
  = [EWrite Stderr ("thutil.general_utils - INFO: Installing the required packages: `numpy` ..."
                    +:+ terminator);
     ESpawn ["pip"; "install"; "-U"; "numpy"] (Some 1%Z);
     EWrite Stderr ("thutil.general_utils - ERROR: Error occurred while installing the package: "
                    +:+ "Command 'pip install -U numpy' returned non-zero exit status 1."
                    +:+ terminator)].
Proof.
  destruct (install_package_trace sample_time "numpy" VNone (demo_world Windows 1) 1)
    as [H1 H2]; [reflexivity|decide_prop|reflexivity|].
  split; [exact H1|]. rewrite H2. vm_compute. reflexivity.
Defined.

(** [pip] installs [numpy]; the extra command [false] then fails. *)
Lemma check_installation_installs_witness :
  let w' := snd (check_installation sample_time "numpy" VNone (VBool true) (Some [CArgv ["false"]])
                   (demo_world Windows 0)) in
  import_error w' "numpy" = None
  ∧ check_installation sample_time "numpy" VNone (VBool true) (Some [CArgv ["false"]]) w'
    = (Ret tt, w').
Proof.
  apply (check_installation_installs sample_time "numpy" VNone (VBool true));
    [exact empty_registry_wf|apply numpy_missing|reflexivity|decide_prop|reflexivity|].
  intros m Hm. right. replace (dotted_prefixes "numpy") with ["numpy"] in Hm by reflexivity.
  apply list_elem_of_singleton in Hm as ->. decide_prop.
Defined.
