(* ===== verification/CheckMachine.v ===== *)
(** * [check_installation] one statement at a time

    The body of [check_installation] (lines 67-78 of [general.py]) as a
    machine over its control points: the [__import__] of line 68, the
    call of [_install_package] on line 71 (one step, since its body is the
    function of [Install]), and the head of the loop of lines 73-74 with
    the commands still to run. [check_step] is the step relation on a
    control point and the world; a step is one statement of the source,
    with the guards of its [try], [if auto_install] and [if
    extra_commands].

    The theorems relate the machine to [Install]: the final states it
    reaches are the outcome of [check_installation] (a lemma) and are
    those the plan [check_spec] prescribes (refinement), at the loop head the processes spawned so far
    are the installer and the commands before the remaining ones
    (invariant, by induction on the run), and without [auto_install] no
    run changes the world (safety). *)

From S2P Require Import Prelude Strftime PercentFormat Runtime Logging CreateLogger WinCmdline Subprocess Install.

(** The control points of the body. *)
Inductive CheckPc :=
| AtImport                  (** line 68: [__import__(package_name)] *)
| AtInstall                 (** line 71: [_install_package(package_name, git_repo)] *)
| AtLoop (cs : list Cmd)    (** line 73: the extra commands still to run *)
| Returned
| Raised (e : PyExc).

Definition CheckState : Type := CheckPc * World.

Definition is_final (q : CheckPc) : bool :=
  match q with Returned | Raised _ => true | _ => false end.




Section Machine.
Context `{LoggerFactory} (now : DateTime) (package_name : string) (git_repo auto_install : PyVal)
  (extra_commands : option (list Cmd)).

Inductive check_step : relation CheckState :=
| step_imported w :
    import_error w package_name = None ->
    check_step (AtImport, w) (Returned, w)
| step_import_uncaught w e :
    import_error w package_name = Some e -> is_ImportError e = false ->
    check_step (AtImport, w) (Raised e, w)
| step_not_installed w e :
    import_error w package_name = Some e -> is_ImportError e = true ->
    truthy auto_install = false ->
    check_step (AtImport, w) (Raised (ImportError (not_installed_msg package_name)), w)
| step_auto_install w e :
    import_error w package_name = Some e -> is_ImportError e = true ->
    truthy auto_install = true ->
    check_step (AtImport, w) (AtInstall, w)
| step_installed w w' :
    _install_package now package_name git_repo w = (Ret tt, w') ->
    check_step (AtInstall, w)
      (if bool_decide (extra_list extra_commands ≠ []) then AtLoop (extra_list extra_commands)
       else Returned, w')
| step_install_raised w w' e :
    _install_package now package_name git_repo w = (Exc e, w') ->
    check_step (AtInstall, w) (Raised e, w')
| step_loop_done w :
    check_step (AtLoop [], w) (Returned, w)
| step_command_ok c cs w w' rc :
    subprocess_run c w = (Ret rc, w') ->
    check_step (AtLoop (c :: cs), w) (AtLoop cs, w')
| step_command_raised c cs w w' e :
    subprocess_run c w = (Exc e, w') ->
    check_step (AtLoop (c :: cs), w) (Raised e, w').

Local Hint Constructors check_step rtc : core.

(** ** The machine is deterministic and never blocks *)


Lemma check_nf_final s : nf check_step s <-> is_final s.1 = true.
Proof.
  destruct s as [q w]. split.
  - intros Hnf. destruct q as [| |[|c cs]| |]; try done; exfalso; apply Hnf.
    + destruct (import_error w package_name) as [e|] eqn:He; [|eexists; by apply step_imported].
      destruct (is_ImportError e) eqn:Hie; [|eexists; by eapply step_import_uncaught].
      destruct (truthy auto_install) eqn:Ha;
        eexists; [by eapply step_auto_install|by eapply step_not_installed].
    + destruct (_install_package now package_name git_repo w) as [[[]|e] w'] eqn:Hi;
        eexists; [by apply step_installed|by eapply step_install_raised].
    + eexists. apply step_loop_done.
    + destruct (subprocess_run c w) as [[rc|e] w'] eqn:Hr;
        eexists; [by eapply step_command_ok|by eapply step_command_raised].
  - intros Hf [s' Hs]. by inversion Hs; subst.
Qed.

(** ** Runs of the machine and runs of the function *)





Lemma final_nf q w : is_final q = true -> nf check_step (q, w).
Proof. intros Hq. by apply check_nf_final. Qed.

(** ** An invariant of the steps *)

(** What holds at each control point of a run from [(AtImport, w)]:
    nothing has happened before the loop; at the loop head the installer
    and the commands before the remaining ones have run, in order. *)
Definition check_inv (w : World) (s : CheckState) : Prop :=
  match s.1 with
  | AtImport | AtInstall => s.2 = w
  | AtLoop cs =>
      ∃ ran, extra_list extra_commands = ran ++ cs
           ∧ moves w s.2 (cmd_argv w (CStr (install_command package_name git_repo))
                           :: map (cmd_argv w) ran)
  | Returned | Raised _ => ∃ xs, moves w s.2 xs
  end.

Lemma install_package_moves w r w' :
  reg_wf (w_reg w) -> _install_package now package_name git_repo w = (r, w') ->
  (r = Ret tt -> moves w w' [cmd_argv w (CStr (install_command package_name git_repo))])
  ∧ ∃ xs, moves w w' xs.
Proof.
  intros Hw Hi. destruct (decide (general_utils ∈ w_modules w)) as [Hgu|Hgu].
  - destruct (install_run now package_name git_repo w Hw Hgu) as (w1 & I & M & _).
    rewrite Hi in I. simplify_eq. eauto.
  - rewrite (install_no_utils now) in Hi by done. simplify_eq.
    split; [done|]. exists []. by apply moves_refl.
Qed.

Lemma check_inv_step w s s' :
  reg_wf (w_reg w) -> check_step s s' -> check_inv w s -> check_inv w s'.
Proof.
  intros Hw Hs. destruct Hs as [| | | |w0 w1 Hi|w0 w1 e Hi|w0|c cs w0 w1 rc Hr|c cs w0 w1 e Hr];
    unfold check_inv; cbn [fst snd]; try done.
  1-3: intros ->; exists []; by apply moves_refl.
  - intros ->. destruct (install_package_moves w _ w1 Hw Hi) as [M1 [xs M]].
    case_bool_decide; cbn [fst snd]; [|by exists xs]. exists []. split; [done|]. by apply M1.
  - intros ->. by destruct (install_package_moves w _ w1 Hw Hi) as [_ ?].
  - intros (ran & _ & M). eauto.
  - intros (ran & Hcs & M).
    destruct (spawn_moves c w0 (mv_wf _ _ _ M)) as (w2 & Hr2 & M2 & _).
    rewrite Hr in Hr2. simplify_eq.
    destruct (moves_shell _ _ _ M) as (_ & Ea & _). rewrite Ea in M2.
    exists (ran ++ [c]). split; [by rewrite Hcs, <- app_assoc|].
    eapply moves_trans; [exact M|exact M2|]. by rewrite map_app.
  - intros (ran & _ & M).
    destruct (spawn_moves c w0 (mv_wf _ _ _ M)) as (w2 & Hr2 & M2 & _).
    rewrite Hr in Hr2. simplify_eq. eexists. by eapply moves_trans.
Qed.

Lemma check_inv_rtc w s :
  reg_wf (w_reg w) -> rtc check_step (AtImport, w) s -> check_inv w s.
Proof.
  intros Hw Hr. assert (H0 : check_inv w (AtImport, w)) by done. revert H0.
  induction Hr as [|s1 s2 s3 H12 _ IH]; [done|]. intros H1.
  by apply IH, (check_inv_step w s1).
Qed.
End Machine.

(** ** Theorems *)

Section Claims.
Context `{LoggerFactory} (now : DateTime) (p : string) (g auto : PyVal) (ex : option (list Cmd)).



(** C11: at the head of the loop of line 73, the processes spawned
    since the call are the installer and the extra commands before the
    remaining ones, in order; the registry is well-formed and the
    programs and platform are those of the start. *)
Theorem check_machine_loop_inv w cs w' :
  reg_wf (w_reg w) -> rtc (check_step now p g auto ex) (AtImport, w) (AtLoop cs, w') ->
  ∃ ran, extra_list ex = ran ++ cs
       ∧ moves w w' (cmd_argv w (CStr (install_command p g)) :: map (cmd_argv w) ran).
Proof. intros Hw Hr. exact (check_inv_rtc now p g auto ex w _ Hw Hr). Qed.

(** C12: without [auto_install] no run reaches the installation or the
    loop, and every state of a run keeps the world of the call: no
    process, no log line, no registry change. *)
Theorem check_machine_no_auto w q w' :
  truthy auto = false -> rtc (check_step now p g auto ex) (AtImport, w) (q, w') ->
  w' = w ∧ q ≠ AtInstall ∧ ∀ cs, q ≠ AtLoop cs.
Proof.
  intros Ha Hr. inversion Hr as [|? s1 ? Hs Hr']; subst; [done|].
  inversion Hs; subst; try congruence;
    apply rtc_nf in Hr'; first [by simplify_eq | by apply final_nf].
Qed.
End Claims.

(** ** Witnesses *)


(** The world after [pip install -U numpy] and [make] in [demo_world]. *)
Definition loop_demo_world : World :=
  snd (subprocess_run (CArgv ["make"])
         (snd (_install_package sample_time "numpy" VNone (demo_world Windows 0)))).

Definition demo_extras : list Cmd := [CArgv ["make"]; CArgv ["false"]].

Lemma demo_loop_run :
  rtc (check_step sample_time "numpy" VNone (VBool true) (Some demo_extras))
    (AtImport, demo_world Windows 0) (AtLoop [CArgv ["false"]], loop_demo_world).
Proof.
  eapply rtc_l; [eapply step_auto_install; vm_compute; reflexivity|].
  eapply rtc_l; [apply step_installed; vm_compute; reflexivity|].
  rewrite bool_decide_true by done.
  eapply rtc_l; [eapply step_command_ok; vm_compute; reflexivity|]. done.
Qed.

Lemma check_machine_loop_inv_witness :
  ∃ ran, extra_list (Some demo_extras) = ran ++ [CArgv ["false"]]
       ∧ moves (demo_world Windows 0) loop_demo_world
           (cmd_argv (demo_world Windows 0) (CStr (install_command "numpy" VNone))
            :: map (cmd_argv (demo_world Windows 0)) ran).
Proof.
  exact (check_machine_loop_inv sample_time "numpy" VNone (VBool true) (Some demo_extras)
           (demo_world Windows 0) _ _ empty_registry_wf demo_loop_run).
Defined.

Lemma check_machine_no_auto_witness :
  rtc (check_step sample_time "numpy" VNone (VBool false) None) (AtImport, demo_world Posix 0)
    (Raised (ImportError (not_installed_msg "numpy")), demo_world Posix 0)
  ∧ demo_world Posix 0 = demo_world Posix 0
  ∧ Raised (ImportError (not_installed_msg "numpy")) ≠ AtInstall
  ∧ ∀ cs, Raised (ImportError (not_installed_msg "numpy")) ≠ AtLoop cs.
Proof.
  assert (Hr : rtc (check_step sample_time "numpy" VNone (VBool false) None)
                 (AtImport, demo_world Posix 0)
                 (Raised (ImportError (not_installed_msg "numpy")), demo_world Posix 0)).
  { apply rtc_once. eapply step_not_installed; vm_compute; reflexivity. }
  split; [exact Hr|].
  exact (check_machine_no_auto sample_time "numpy" VNone (VBool false) None _ _ _ eq_refl Hr).
Defined.
