(* ===== verification/FuncArgs.v ===== *)
(** * [get_func_args] over [inspect.getfullargspec]

    [get_func_args] (lines 109-117 of [general.py]) reads the positional
    parameters and their defaults from [inspect.getfullargspec(func)] and
    builds the dict from each name to its default, or to the marker
    ["no_default_value"] for the leading parameters without one.

    A callable is modelled by what [inspect] reads of it: a function by its
    signature (the list of its parameters with their kinds and defaults,
    in declaration order), a bound method by its function, a class by its
    [__init__], a [functools.wraps] wrapper by its own signature and what
    it wraps, a [functools.partial] by its function and positional
    arguments, and an object without signature metadata. [signature_of]
    is [_signature_from_callable] as [getfullargspec] calls it, without
    skipping the bound argument and without following [__wrapped__];
    [getfullargspec] is then CPython's loop over the parameters.
    Annotations, partials with keyword arguments, metaclasses and
    callable instances are not modelled. The abstract specification
    [func_args_spec] is the mapping of the specification (section 4.3):
    each positional parameter to its default or to the marker, in
    declaration order. *)

From S2P Require Import Prelude.

(** ** Signatures *)

Inductive ParamKind :=
| POSITIONAL_ONLY
| POSITIONAL_OR_KEYWORD
| VAR_POSITIONAL
| KEYWORD_ONLY
| VAR_KEYWORD.

#[export] Instance ParamKind_eq_dec : EqDecision ParamKind.
Proof. solve_decision. Defined.

(** [inspect.Parameter]; [p_default = None] is [Parameter.empty]. *)
Record Param := mkParam {
  p_name : string;
  p_kind : ParamKind;
  p_default : option PyVal
}.

(** The callables [get_func_args] may be given, by what
    [inspect._signature_from_callable] looks at:
    - [CFunc sig]: a function or lambda, with its own signature;
    - [CBoundMethod f]: [obj.method] or [Cls.classmethod], a
      [types.MethodType] over the function [f] ([__func__]);
    - [CClass init]: a class without metaclass [__call__] or [__new__],
      whose [__init__] is [init];
    - [CWraps sig f]: a function with signature [sig] made by
      [functools.wraps(f)], which sets [__wrapped__ = f];
    - [CPartial f args]: [functools.partial(f, *args)], without keywords;
    - [CNoSignature]: an object without signature metadata. *)
Inductive Callable :=
| CFunc (sig : list Param)
| CBoundMethod (func : Callable)
| CClass (init : Callable)
| CWraps (sig : list Param) (wrapped : Callable)
| CPartial (func : Callable) (args : list PyVal)
| CNoSignature.

(** [inspect.FullArgSpec] without [annotations]. *)
Record FullArgSpec := mkFullArgSpec {
  fa_args : list string;
  fa_varargs : option string;
  fa_varkw : option string;
  fa_defaults : option (list PyVal);
  fa_kwonlyargs : list string;
  fa_kwonlydefaults : option (pydict PyVal)
}.

(** ** [inspect.getfullargspec] *)

(** The locals of the loop of [getfullargspec]. *)
Record ArgAcc := mkArgAcc {
  acc_posonly : list string;
  acc_args : list string;
  acc_varargs : option string;
  acc_varkw : option string;
  acc_kwonly : list string;
  acc_defaults : list PyVal;
  acc_kwdefaults : pydict PyVal
}.

Definition acc_init : ArgAcc := mkArgAcc [] [] None None [] [] [].

Definition option_list {A} (o : option A) : list A :=
  match o with Some x => [x] | None => [] end.

(** One iteration: the parameter's name goes to the list of its kind, its
    default to [defaults] or [kwdefaults]. *)
Definition gfa_step (a : ArgAcc) (p : Param) : ArgAcc :=
  match p_kind p with
  | POSITIONAL_ONLY =>
      mkArgAcc (acc_posonly a ++ [p_name p]) (acc_args a) (acc_varargs a) (acc_varkw a)
        (acc_kwonly a) (acc_defaults a ++ option_list (p_default p)) (acc_kwdefaults a)
  | POSITIONAL_OR_KEYWORD =>
      mkArgAcc (acc_posonly a) (acc_args a ++ [p_name p]) (acc_varargs a) (acc_varkw a)
        (acc_kwonly a) (acc_defaults a ++ option_list (p_default p)) (acc_kwdefaults a)
  | VAR_POSITIONAL =>
      mkArgAcc (acc_posonly a) (acc_args a) (Some (p_name p)) (acc_varkw a)
        (acc_kwonly a) (acc_defaults a) (acc_kwdefaults a)
  | KEYWORD_ONLY =>
      mkArgAcc (acc_posonly a) (acc_args a) (acc_varargs a) (acc_varkw a)
        (acc_kwonly a ++ [p_name p]) (acc_defaults a)
        (match p_default p with
         | Some v => dict_set (acc_kwdefaults a) (VStr (p_name p)) v
         | None => acc_kwdefaults a
         end)
  | VAR_KEYWORD =>
      mkArgAcc (acc_posonly a) (acc_args a) (acc_varargs a) (Some (p_name p))
        (acc_kwonly a) (acc_defaults a) (acc_kwdefaults a)
  end.

(** [Signature.bind_partial] and [_signature_get_partial] for
    positional arguments only: each argument binds the next parameter,
    which leaves the signature if it is positional; [*args] takes all the
    arguments left and stays; a keyword-only parameter, [**kwargs] or the
    end of the parameters makes the binding fail ([None]). *)
Fixpoint partial_signature (sig : list Param) (args : list PyVal) {struct args} : option (list Param) :=
  match args with
  | [] => Some sig
  | _ :: args' =>
      match sig with
      | [] => None
      | p :: ps =>
          match p_kind p with
          | POSITIONAL_ONLY | POSITIONAL_OR_KEYWORD => partial_signature ps args'
          | VAR_POSITIONAL => Some sig
          | KEYWORD_ONLY | VAR_KEYWORD => None
          end
      end
  end.

(** [_signature_from_callable(func, follow_wrapper_chains=False,
    skip_bound_arg=False)], as [getfullargspec] calls it: a bound method
    and a class keep their first parameter, a wrapper is not unwrapped;
    [None] is the exception [getfullargspec] turns into [TypeError]. *)
Fixpoint signature_of (func : Callable) : option (list Param) :=
  match func with
  | CFunc sig => Some sig
  | CBoundMethod f => signature_of f
  | CClass init => signature_of init
  | CWraps sig _ => Some sig
  | CPartial f args => sig ← signature_of f; partial_signature sig args
  | CNoSignature => None
  end.

(** [getfullargspec(func)]: [TypeError('unsupported callable')] when no
    signature can be computed; empty [defaults] and [kwdefaults] become
    [None]; [args] is [posonlyargs + args]. *)
Definition argspec_of_sig (sig : list Param) : FullArgSpec :=
  let a := foldl gfa_step acc_init sig in
  mkFullArgSpec (acc_posonly a ++ acc_args a) (acc_varargs a) (acc_varkw a)
    (match acc_defaults a with [] => None | ds => Some ds end)
    (acc_kwonly a)
    (match acc_kwdefaults a with [] => None | kd => Some kd end).

Definition getfullargspec (func : Callable) : outcome FullArgSpec :=
  match signature_of func with
  | None => Exc (TypeError "unsupported callable")
  | Some sig => Ret (argspec_of_sig sig)
  end.

(** ** [get_func_args] *)

(** [xs * n] on a list: [n] copies, none when [n <= 0]. *)
Definition list_mul {A} (xs : list A) (n : Z) : list A := concat (repeat xs (Z.to_nat n)).

Definition no_default_marker : PyVal := VStr "no_default_value".

Definition get_func_args (func : Callable) : outcome (pydict PyVal) :=
  match getfullargspec func with
  | Exc e => Exc e
  | Ret argspec =>
      match fa_defaults argspec with
      | None => Exc (TypeError "object of type 'NoneType' has no len()")
      | Some defaults =>
          let no_default_args :=
            list_mul [no_default_marker]
              (Z.of_nat (length (fa_args argspec)) - Z.of_nat (length defaults)) in
          let all_values := no_default_args ++ defaults in
          Ret (dict_of_pairs (zip (map VStr (fa_args argspec)) all_values))
      end
  end.

(** ** The specification *)

Definition positional (p : Param) : bool :=
  match p_kind p with POSITIONAL_ONLY | POSITIONAL_OR_KEYWORD => true | _ => false end.

Definition has_default (p : Param) : bool :=
  match p_default p with Some _ => true | None => false end.

Definition is_posonly (p : Param) : bool :=
  match p_kind p with POSITIONAL_ONLY => true | _ => false end.

Definition is_poskw (p : Param) : bool :=
  match p_kind p with POSITIONAL_OR_KEYWORD => true | _ => false end.

(** What the specification promises for a parameter: its default, or the
    marker. *)
Definition arg_descriptor (p : Param) : PyVal := default no_default_marker (p_default p).

Definition func_args_spec (sig : list Param) : pydict PyVal :=
  map (fun p => (VStr (p_name p), arg_descriptor p)) (List.filter positional sig).

(** What [inspect.Signature] accepts: kinds in the order of the enum,
    distinct names, and no positional parameter without a default after
    one with a default. *)
Definition kind_rank (k : ParamKind) : nat :=
  match k with
  | POSITIONAL_ONLY => 0 | POSITIONAL_OR_KEYWORD => 1 | VAR_POSITIONAL => 2
  | KEYWORD_ONLY => 3 | VAR_KEYWORD => 4
  end.

Fixpoint kinds_sorted (ps : list Param) : bool :=
  match ps with
  | [] => true
  | p :: ps' =>
      forallb (fun q => kind_rank (p_kind p) <=? kind_rank (p_kind q)) ps' && kinds_sorted ps'
  end.

Fixpoint defaults_closed (ps : list Param) : bool :=
  match ps with
  | [] => true
  | p :: ps' => if has_default p then forallb has_default ps' else defaults_closed ps'
  end.

Definition sig_wf (sig : list Param) : bool :=
  kinds_sorted sig && bool_decide (NoDup (map p_name sig))
  && defaults_closed (List.filter positional sig).

(** ** Lemmas *)

(** What the loop collects, for any start. *)
Lemma foldl_gfa ps a :
  acc_posonly (foldl gfa_step a ps) = acc_posonly a ++ map p_name (List.filter is_posonly ps) ∧
  acc_args (foldl gfa_step a ps) = acc_args a ++ map p_name (List.filter is_poskw ps) ∧
  acc_defaults (foldl gfa_step a ps)
  = acc_defaults a ++ concat (map (fun p => option_list (p_default p)) (List.filter positional ps)).
Proof.
  revert a. induction ps as [|p ps IH]; intros a; simpl.
  - by rewrite !app_nil_r.
  - destruct (IH (gfa_step a p)) as (H1 & H2 & H3). rewrite H1, H2, H3.
    unfold gfa_step, is_posonly, is_poskw, positional.
    destruct (p_kind p); simpl; by rewrite <- ?app_assoc.
Qed.

Lemma filter_no_posonly ps :
  Forall (fun q => 1 <= kind_rank (p_kind q)) ps ->
  List.filter is_posonly ps = [] ∧ List.filter positional ps = List.filter is_poskw ps.
Proof.
  induction 1 as [|q ps Hq _ [IH1 IH2]]; [done|].
  unfold is_posonly, is_poskw, positional in *. simpl.
  destruct (p_kind q); simpl in Hq; try lia; by rewrite ?IH1, ?IH2.
Qed.

(** In a sorted signature the positional-only parameters come first:
    [posonlyargs + args] lists the positional parameters in order. *)
Lemma sorted_positional_names ps :
  kinds_sorted ps = true ->
  map p_name (List.filter is_posonly ps) ++ map p_name (List.filter is_poskw ps)
  = map p_name (List.filter positional ps).
Proof.
  induction ps as [|p ps IH]; intros Hs; [done|].
  simpl in Hs. apply andb_true_iff in Hs as [Hall Hs]. specialize (IH Hs).
  unfold is_posonly, is_poskw, positional in *. simpl.
  destruct (p_kind p) eqn:Hk; simpl; try (by rewrite IH).
  assert (Hr : Forall (fun q => 1 <= kind_rank (p_kind q)) ps).
  { apply Forall_forall. intros q Hq. apply forallb_forall with (x := q) in Hall;
      [|by apply list_elem_of_In]. simpl in Hall. destruct (kind_rank (p_kind q)); [done|lia]. }
  destruct (filter_no_posonly ps Hr) as [H1 H2].
  unfold is_posonly, is_poskw, positional in H1, H2. by rewrite H1, H2.
Qed.

Lemma length_defaults ps :
  length (concat (map (fun p => option_list (p_default p)) ps)) <= length ps.
Proof.
  induction ps as [|p ps IH]; [simpl; lia|]. simpl. rewrite length_app.
  destruct (p_default p); simpl; lia.
Qed.

Lemma defaults_all ps :
  forallb has_default ps = true ->
  concat (map (fun p => option_list (p_default p)) ps) = map arg_descriptor ps.
Proof.
  induction ps as [|p ps IH]; intros H; [done|]. simpl in H.
  apply andb_true_iff in H as [Hp H]. unfold has_default in Hp. simpl.
  rewrite IH by done. unfold arg_descriptor. by destruct (p_default p).
Qed.

Lemma list_mul_succ {A} (xs : list A) (n : Z) :
  (0 <= n)%Z -> list_mul xs (n + 1) = xs ++ list_mul xs n.
Proof.
  intros Hn. unfold list_mul. by rewrite Z2Nat.inj_add, Nat.add_comm by lia.
Qed.

(** The values [get_func_args] pairs with the names: the marker for each
    leading parameter without default, then the defaults. *)
Lemma all_values_spec ps :
  defaults_closed ps = true ->
  let ds := concat (map (fun p => option_list (p_default p)) ps) in
  list_mul [no_default_marker] (Z.of_nat (length ps) - Z.of_nat (length ds)) ++ ds
  = map arg_descriptor ps.
Proof.
  induction ps as [|p ps IH]; intros Hc; [done|]. simpl in Hc.
  destruct (has_default p) eqn:Hp.
  - rewrite (defaults_all (p :: ps)) by (simpl; by rewrite Hp, Hc).
    cbv zeta. rewrite length_map. by replace (_ - _)%Z with 0%Z by lia.
  - specialize (IH Hc). cbv zeta in IH |- *. unfold has_default in Hp. simpl.
    destruct (p_default p) eqn:Hd; [done|]. simpl.
    pose proof (length_defaults ps).
    replace (Z.of_nat (S (length ps)) - _)%Z
      with ((Z.of_nat (length ps) - Z.of_nat (length (concat (map (fun p => option_list (p_default p)) ps)))) + 1)%Z
      by lia.
    rewrite list_mul_succ by lia. simpl. rewrite IH. f_equal. unfold arg_descriptor. by rewrite Hd.
Qed.

Lemma defaults_nonempty ps :
  existsb has_default ps = true -> concat (map (fun p => option_list (p_default p)) ps) ≠ [].
Proof.
  induction ps as [|p ps IH]; [done|]. simpl. unfold has_default.
  destruct (p_default p); simpl; [done|]. exact IH.
Qed.

Lemma defaults_empty ps :
  existsb has_default ps = false -> concat (map (fun p => option_list (p_default p)) ps) = [].
Proof.
  induction ps as [|p ps IH]; [done|]. simpl. unfold has_default.
  destruct (p_default p); simpl; [done|]. exact IH.
Qed.

(** [args] and [defaults] of [getfullargspec], through [get_func_args]. *)
Lemma get_func_args_CFunc sig :
  get_func_args (CFunc sig)
  = let P := List.filter positional sig in
    let names := map p_name (List.filter is_posonly sig) ++ map p_name (List.filter is_poskw sig) in
    match concat (map (fun p => option_list (p_default p)) P) with
    | [] => Exc (TypeError "object of type 'NoneType' has no len()")
    | ds =>
        Ret (dict_of_pairs (zip (map VStr names)
               (list_mul [no_default_marker] (Z.of_nat (length names) - Z.of_nat (length ds)) ++ ds)))
    end.
Proof.
  unfold get_func_args, getfullargspec, argspec_of_sig. cbn [signature_of].
  destruct (foldl_gfa sig acc_init) as (H1 & H2 & H3). cbn [fa_args fa_defaults].
  rewrite H1, H2, H3. cbn. by destruct (concat _).
Qed.

(** The dict [get_func_args] returns for a valid signature with a
    default: each positional parameter with its default or the marker. *)
Lemma get_func_args_positional sig :
  sig_wf sig = true -> existsb has_default (List.filter positional sig) = true ->
  get_func_args (CFunc sig)
  = Ret (str_items (map (fun p => (p_name p, arg_descriptor p)) (List.filter positional sig))).
Proof.
  unfold sig_wf. intros Hwf Hd.
  apply andb_true_iff in Hwf as [Hwf Hc]. apply andb_true_iff in Hwf as [Hs Hn].
  apply bool_decide_eq_true in Hn.
  rewrite get_func_args_CFunc. cbv zeta. rewrite sorted_positional_names by done.
  pose proof (defaults_nonempty _ Hd) as Hne. pose proof (all_values_spec _ Hc) as Hv.
  cbv zeta in Hv. rewrite length_map.
  destruct (concat _) as [|d ds]; [done|]. rewrite Hv.
  rewrite zip_str_items, zip_map_same, dict_of_str_items; [done|].
  rewrite <- list_fmap_compose. by apply NoDup_map_filter.
Qed.

(** Where the keys and values of the result come from. *)
Lemma list_mul_elem {A} (x y : A) n : y ∈ list_mul [x] n -> y = x.
Proof.
  unfold list_mul. rewrite list_elem_of_In. intros (l & Hl & Hin)%in_concat.
  apply repeat_spec in Hl as ->. by destruct Hin as [->|[]].
Qed.

Lemma defaults_elem ps v :
  v ∈ concat (map (fun p => option_list (p_default p)) ps) -> ∃ p, p ∈ ps ∧ p_default p = Some v.
Proof.
  induction ps as [|p ps IH]; cbn [map concat]; [by intros ?%not_elem_of_nil|].
  rewrite elem_of_app. intros [Hv|Hv].
  - exists p. split; [apply elem_of_cons; by left|].
    destruct (p_default p); [by apply list_elem_of_singleton in Hv as ->|].
    by apply not_elem_of_nil in Hv.
  - destruct (IH Hv) as (q & Hq & Hd). exists q. split; [apply elem_of_cons; by right|done].
Qed.

Lemma positional_names_elem sig x :
  x ∈ map p_name (List.filter is_posonly sig) ++ map p_name (List.filter is_poskw sig) ->
  ∃ p, p ∈ List.filter positional sig ∧ x = p_name p.
Proof.
  rewrite elem_of_app, !list_elem_of_In, !in_map_iff.
  intros [(p & <- & Hp)|(p & <- & Hp)]; exists p; (split; [|done]);
    rewrite list_elem_of_In; apply filter_In in Hp as [Hp Hk]; apply filter_In;
    (split; [done|]); unfold is_posonly, is_poskw, positional in *; by destruct (p_kind p).
Qed.

(** Every callable with a signature behaves as the function of that
    signature. *)
Lemma get_func_args_signature func sig :
  signature_of func = Some sig -> get_func_args func = get_func_args (CFunc sig).
Proof. intros Hs. unfold get_func_args, getfullargspec. by rewrite Hs. Qed.

Lemma partial_signature_varpos p ps args :
  p_kind p = VAR_POSITIONAL -> partial_signature (p :: ps) args = Some (p :: ps).
Proof. intros Hk. destruct args; cbn; [done|]. by rewrite Hk. Qed.

(** Positional arguments for the leading positional parameters remove
    them. *)
Lemma partial_signature_prefix pre post args :
  forallb positional pre = true -> length pre = length args ->
  partial_signature (pre ++ post) args = Some post.
Proof.
  revert args. induction pre as [|p pre IH]; intros [|x args] Hp Hl; simpl in *; try done.
  apply andb_true_iff in Hp as [Hp Hpre]. unfold positional in Hp.
  destruct (p_kind p); try done; apply IH; auto.
Qed.

(** [List.filter] keeps a list all of whose elements pass. *)
Lemma filter_all {A} (f : A -> bool) (l : list A) :
  forallb f l = true -> List.filter f l = l.
Proof.
  induction l as [|x l IH]; [done|]. cbn. intros [-> ?]%andb_true_iff. by rewrite IH.
Qed.

Lemma defaults_closed_all ps : forallb has_default ps = true -> defaults_closed ps = true.
Proof.
  induction ps as [|p ps IH]; [done|]. cbn. intros [-> ?]%andb_true_iff. done.
Qed.

Lemma defaults_closed_app_r xs ys :
  defaults_closed (xs ++ ys) = true -> defaults_closed ys = true.
Proof.
  induction xs as [|x xs IH]; [done|]. cbn. destruct (has_default x); [|exact IH].
  rewrite forallb_app. intros [_ ?]%andb_true_iff. by apply defaults_closed_all.
Qed.

(** A suffix of a valid signature is valid. *)
Lemma sig_wf_app_r pre post : sig_wf (pre ++ post) = true -> sig_wf post = true.
Proof.
  unfold sig_wf. intros [[Hs Hn]%andb_true_iff Hc]%andb_true_iff.
  apply andb_true_iff. split; [apply andb_true_iff; split|].
  - clear Hn Hc. induction pre as [|p pre IH]; [done|].
    cbn in Hs. apply andb_true_iff in Hs as [_ Hs]. by apply IH.
  - apply bool_decide_eq_true in Hn. apply bool_decide_eq_true.
    rewrite map_app in Hn. by apply NoDup_app in Hn as (_ & _ & ?).
  - rewrite List.filter_app in Hc. by apply defaults_closed_app_r in Hc.
Qed.

(** ** Theorems *)

(** C4: [get_func_args] refines the specification: for every signature
    [inspect.Signature] accepts that has a positional default, the dict
    maps each positional parameter, in declaration order, to its default
    or to ["no_default_value"]. *)
Theorem get_func_args_refines sig :
  sig_wf sig = true -> existsb has_default (List.filter positional sig) = true ->
  get_func_args (CFunc sig) = Ret (func_args_spec sig).
Proof.
  intros Hwf Hd. rewrite get_func_args_positional by done.
  unfold str_items, func_args_spec. by rewrite map_map.
Qed.

(** C23: a function whose positional parameters have no default at all
    makes [argspec.defaults] [None], and [len(None)] raises [TypeError]. *)
Theorem get_func_args_no_defaults sig :
  existsb has_default (List.filter positional sig) = false ->
  get_func_args (CFunc sig) = Exc (TypeError "object of type 'NoneType' has no len()").
Proof. intros Hd. rewrite get_func_args_CFunc. cbv zeta. by rewrite defaults_empty. Qed.

(** C24: keyword-only parameters, [*args] and [**kwargs] do not appear:
    adding them to a signature leaves the result unchanged. *)
Theorem get_func_args_non_positional sig ks :
  forallb (fun p => negb (positional p)) ks = true ->
  get_func_args (CFunc (sig ++ ks)) = get_func_args (CFunc sig).
Proof.
  intros Hks. rewrite !get_func_args_CFunc. cbv zeta.
  assert (Hf : ∀ f : Param -> bool, (∀ p, f p = true -> positional p = true) ->
               List.filter f (sig ++ ks) = List.filter f sig).
  { intros f Hf. rewrite List.filter_app.
    replace (List.filter f ks) with (@nil Param); [by rewrite app_nil_r|].
    induction ks as [|k ks IH]; [done|]. simpl in Hks |- *.
    apply andb_true_iff in Hks as [Hk Hks]. destruct (f k) eqn:E; [|by apply IH].
    apply Hf in E. rewrite E in Hk. discriminate Hk. }
  rewrite !Hf; [done|..]; intros p; unfold is_posonly, is_poskw, positional;
    by destruct (p_kind p).
Qed.

(** C25: the marker is a value like any other: a parameter whose default
    is the string ["no_default_value"] is reported exactly as a parameter
    without default. *)
Theorem get_func_args_marker_ambiguous pre n k post :
  sig_wf (pre ++ mkParam n k None :: post) = true ->
  sig_wf (pre ++ mkParam n k (Some no_default_marker) :: post) = true ->
  existsb has_default (List.filter positional post) = true ->
  get_func_args (CFunc (pre ++ mkParam n k (Some no_default_marker) :: post))
  = get_func_args (CFunc (pre ++ mkParam n k None :: post)).
Proof.
  intros Hw1 Hw2 Hd.
  assert (Hd' : ∀ o, existsb has_default (List.filter positional (pre ++ mkParam n k o :: post)) = true).
  { intros o. rewrite List.filter_app, existsb_app. simpl.
    destruct (positional _); simpl; rewrite Hd; by rewrite !orb_true_r. }
  rewrite !get_func_args_positional by done. rewrite !List.filter_app, !map_app. simpl.
  by destruct (positional _).
Qed.

(** For the function of a signature, the dict has distinct keys, each
    the [str] name of a positional parameter, and each value is the
    marker or the default of a positional parameter. *)
Lemma get_func_args_sig_type sig d :
  get_func_args (CFunc sig) = Ret d ->
  NoDup d.*1 ∧
  ∀ k v, (k, v) ∈ d ->
    (∃ p, p ∈ List.filter positional sig ∧ k = VStr (p_name p)) ∧
    (v = no_default_marker ∨ ∃ p, p ∈ List.filter positional sig ∧ p_default p = Some v).
Proof.
  rewrite get_func_args_CFunc. cbv zeta.
  destruct (concat _) as [|d0 ds] eqn:Hds; [done|]. intros [= <-].
  match goal with |- context [dict_of_pairs ?l] => destruct (dict_of_pairs_wf l) as [Hnd Hel] end.
  split; [done|]. intros k v Hkv. destruct (Hel _ Hkv) as [Hk Hv]. cbn [fst snd] in Hk, Hv.
  apply list_elem_of_fmap_1 in Hk as ([k' v'] & -> & Hk). apply zip_elem in Hk as [Hk _].
  apply list_elem_of_fmap_1 in Hv as ([k'' v''] & -> & Hv). apply zip_elem in Hv as [_ Hv].
  cbn [fst snd]. split.
  - rewrite list_elem_of_In, in_map_iff in Hk. destruct Hk as (x & <- & Hx).
    rewrite <- list_elem_of_In in Hx. destruct (positional_names_elem sig x Hx) as (p & Hp & ->).
    by exists p.
  - apply elem_of_app in Hv as [Hv|Hv]; [left; by apply list_mul_elem in Hv|right].
    rewrite <- Hds in Hv. by apply defaults_elem.
Qed.

(** C14: whatever the callable, a dict [get_func_args] returns is a
    Python dict with distinct keys; each key is the [str] name of a
    positional parameter of the signature [inspect] computes for it, and
    each value is ["no_default_value"] or the default of such a
    parameter. *)
Theorem get_func_args_type func d :
  get_func_args func = Ret d ->
  ∃ sig, signature_of func = Some sig ∧ NoDup d.*1 ∧
  ∀ k v, (k, v) ∈ d ->
    (∃ p, p ∈ List.filter positional sig ∧ k = VStr (p_name p)) ∧
    (v = no_default_marker ∨ ∃ p, p ∈ List.filter positional sig ∧ p_default p = Some v).
Proof.
  destruct (signature_of func) as [sig|] eqn:Hs.
  - rewrite (get_func_args_signature _ _ Hs). intros Hd. exists sig. split; [done|].
    by apply get_func_args_sig_type.
  - unfold get_func_args, getfullargspec. by rewrite Hs.
Qed.

(** C15: [getfullargspec] keeps the first parameter of a bound method and
    of a class's [__init__]: [get_func_args(obj.method)] and
    [get_func_args(Cls)] map the receiver, [self] or [cls], to
    ["no_default_value"], before the parameters a caller passes. *)
Theorem get_func_args_receiver func self ps :
  signature_of func = Some (mkParam self POSITIONAL_OR_KEYWORD None :: ps) ->
  sig_wf (mkParam self POSITIONAL_OR_KEYWORD None :: ps) = true ->
  existsb has_default (List.filter positional ps) = true ->
  get_func_args (CBoundMethod func) = Ret ((VStr self, no_default_marker) :: func_args_spec ps)
  ∧ get_func_args (CClass func) = Ret ((VStr self, no_default_marker) :: func_args_spec ps).
Proof.
  intros Hs Hwf Hd.
  assert (Hf : get_func_args (CFunc (mkParam self POSITIONAL_OR_KEYWORD None :: ps))
               = Ret ((VStr self, no_default_marker) :: func_args_spec ps)).
  { rewrite get_func_args_positional; [|done|by cbn].
    unfold str_items, func_args_spec. cbn. by rewrite map_map. }
  split; rewrite <- Hf; apply get_func_args_signature; exact Hs.
Qed.

(** C16: [functools.partial(f, *args)] without keywords, whose
    arguments fill the leading positional parameters of a valid
    signature: the dict of the partial is the dict of [f] without its
    first [len(args)] entries. The markers and defaults stay paired with
    the remaining parameters because [get_func_args] pads the defaults
    on the left, up to the number of parameters. *)
Theorem get_func_args_partial func args pre post d :
  signature_of func = Some (pre ++ post) -> sig_wf (pre ++ post) = true ->
  forallb positional pre = true -> length pre = length args ->
  existsb has_default (List.filter positional post) = true ->
  get_func_args func = Ret d ->
  get_func_args (CPartial func args) = Ret (drop (length args) d).
Proof.
  intros Hs Hwf Hp Hl Hd Hf.
  rewrite (get_func_args_signature _ _ Hs), get_func_args_positional in Hf; [|done|].
  2:{ rewrite List.filter_app, existsb_app, Hd. apply orb_true_r. }
  rewrite (get_func_args_signature _ post), get_func_args_positional.
  - injection Hf as <-. rewrite List.filter_app, (filter_all positional pre Hp).
    unfold str_items. rewrite !map_app. f_equal. symmetry.
    apply drop_app_length'. by rewrite !length_map.
  - by apply (sig_wf_app_r pre).
  - exact Hd.
  - cbn [signature_of]. rewrite Hs. by apply partial_signature_prefix.
Qed.

(** ** Witnesses *)

Definition pk (n : string) (d : option PyVal) : Param := mkParam n POSITIONAL_OR_KEYWORD d.

(** [def f(a, b=2, c=3)]. *)
Definition sig_f : list Param := [pk "a" None; pk "b" (Some (VInt 2)); pk "c" (Some (VInt 3))].

Lemma get_func_args_refines_witness :
  get_func_args (CFunc sig_f)
  = Ret [(VStr "a", VStr "no_default_value"); (VStr "b", VInt 2); (VStr "c", VInt 3)].
Proof. rewrite get_func_args_refines; reflexivity. Defined.

Lemma get_func_args_no_defaults_witness :
  get_func_args (CFunc [pk "a" None; pk "b" None])
  = Exc (TypeError "object of type 'NoneType' has no len()").
Proof. apply get_func_args_no_defaults. reflexivity. Defined.

(** [def f(a, b=2, c=3, *args, d=4, **kw)]. *)
Lemma get_func_args_non_positional_witness :
  get_func_args (CFunc (sig_f ++ [mkParam "args" VAR_POSITIONAL None;
                                  mkParam "d" KEYWORD_ONLY (Some (VInt 4));
                                  mkParam "kw" VAR_KEYWORD None]))
  = get_func_args (CFunc sig_f).
Proof. apply get_func_args_non_positional. reflexivity. Defined.

(** [def f(a, b="no_default_value", c=3)] and [def f(a, b, c=3)]. *)
Lemma get_func_args_marker_ambiguous_witness :
  get_func_args (CFunc ([pk "a" None] ++ mkParam "b" POSITIONAL_OR_KEYWORD (Some no_default_marker)
                                        :: [pk "c" (Some (VInt 3))]))
  = get_func_args (CFunc ([pk "a" None] ++ mkParam "b" POSITIONAL_OR_KEYWORD None
                                        :: [pk "c" (Some (VInt 3))])).
Proof. apply get_func_args_marker_ambiguous; reflexivity. Defined.

Lemma get_func_args_type_witness :
  ∃ sig, signature_of (CFunc sig_f) = Some sig
  ∧ NoDup [(VStr "a", VStr "no_default_value"); (VStr "b", VInt 2); (VStr "c", VInt 3)].*1
  ∧ ∀ k v, (k, v) ∈ [(VStr "a", VStr "no_default_value"); (VStr "b", VInt 2); (VStr "c", VInt 3)] ->
      (∃ p, p ∈ List.filter positional sig ∧ k = VStr (p_name p))
      ∧ (v = no_default_marker ∨ ∃ p, p ∈ List.filter positional sig ∧ p_default p = Some v).
Proof. apply (get_func_args_type (CFunc sig_f)). reflexivity. Defined.

(** [C(0).m] and [C] for [class C] with [def m(self, p, q=5)] as the
    method and as [__init__]: [{'self': 'no_default_value', 'p':
    'no_default_value', 'q': 5}], as CPython 3.11 reports. *)
Definition sig_m : list Param := [pk "self" None; pk "p" None; pk "q" (Some (VInt 5))].

Lemma get_func_args_receiver_witness :
  get_func_args (CBoundMethod (CFunc sig_m))
  = Ret ((VStr "self", no_default_marker) :: func_args_spec (List.tail sig_m))
  ∧ get_func_args (CClass (CFunc sig_m))
  = Ret ((VStr "self", no_default_marker) :: func_args_spec (List.tail sig_m)).
Proof. apply get_func_args_receiver; reflexivity. Defined.

(** [functools.partial(f, 1)] for [def f(a, b=2, c=3)]: [{'b': 2, 'c': 3}],
    the dict of [f] without ['a']. *)
Lemma get_func_args_partial_witness :
  get_func_args (CPartial (CFunc sig_f) [VInt 1])
  = Ret (drop 1 [(VStr "a", VStr "no_default_value"); (VStr "b", VInt 2); (VStr "c", VInt 3)]).
Proof.
  apply (get_func_args_partial (CFunc sig_f) [VInt 1] [pk "a" None] (List.tail sig_f));
    reflexivity.
Defined.
